(** * Handlebars live preview: the provider of [src/extension.ts]

    A shallow embedding of [HandlebarsPreviewProvider]: the directory
    scanner, the partial registrar, the custom-helper loader, the template
    data store, the render pipeline and the file watchers, together with the
    parts of the JavaScript runtime they lean on (string methods, Node's
    [path.join], the [fs] calls, exceptions and [try]/[catch]).

    The Handlebars compiler and the code of user-supplied helper modules are
    external; they enter as section variables. *)

From Stdlib Require Import String Ascii List Bool Arith Lia PrimFloat.
From stdpp Require Import gmap strings list fin_maps pretty.

Open Scope string_scope.
Open Scope list_scope.

#[local] Set Warnings "-register-all".

(** ** JavaScript strings

    Strings are sequences of bytes (UTF-8).  The methods below only compare
    and cut at byte sequences that are themselves well-formed, so they agree
    with the UTF-16 view the runtime has. *)

Module JsString.

(** [s.startsWith(p)] *)
Fixpoint startsWith (s p : string) {struct p} : bool :=
  match p with
  | EmptyString => true
  | String a p' =>
      match s with
      | EmptyString => false
      | String b s' => if Ascii.eqb a b then startsWith s' p' else false
      end
  end.

(** [s.slice(n)] for [0 <= n] *)
Fixpoint slice (n : nat) (s : string) : string :=
  match n, s with
  | O, _ => s
  | S n', String _ s' => slice n' s'
  | S _, EmptyString => EmptyString
  end.

(** [s.slice(0, n)] for [0 <= n] *)
Fixpoint sliceTo (n : nat) (s : string) : string :=
  match n, s with
  | O, _ => EmptyString
  | S n', String c s' => String c (sliceTo n' s')
  | S _, EmptyString => EmptyString
  end.

(** [s.indexOf(p)], with [None] for [-1] *)
Fixpoint indexOf (s p : string) : option nat :=
  if startsWith s p then Some 0
  else match s with
       | EmptyString => None
       | String _ s' => option_map S (indexOf s' p)
       end.

(** [s.includes(p)] *)
Definition includes (s p : string) : bool :=
  match indexOf s p with Some _ => true | None => false end.

(** [s.endsWith(p)] *)
Definition endsWith (s p : string) : bool :=
  Nat.leb (String.length p) (String.length s)
  && String.eqb (slice (String.length s - String.length p) s) p.

(** [s.replace(pat, rep)] with a string pattern: only the first occurrence
    is replaced.  The replacement strings of the source hold no [$]. *)
Fixpoint replace (s pat rep : string) : string :=
  if startsWith s pat then rep +:+ slice (String.length pat) s
  else match s with
       | EmptyString => EmptyString
       | String c s' => String c (replace s' pat rep)
       end.

(** [parts.join(sep)] *)
Fixpoint join (sep : string) (parts : list string) : string :=
  match parts with
  | [] => EmptyString
  | [p] => p
  | p :: rest => p +:+ sep +:+ join sep rest
  end.

(** [s.split(c)] for a one-character separator *)
Fixpoint split (c : ascii) (s : string) : list string :=
  match s with
  | EmptyString => [EmptyString]
  | String a s' =>
      if Ascii.eqb a c then EmptyString :: split c s'
      else match split c s' with
           | seg :: segs => String a seg :: segs
           | [] => [String a EmptyString]
           end
  end.

End JsString.

(** ** Node's [path] module (POSIX flavour)

    [normalizeString] of Node walks the characters; the segment-wise
    formulation below computes the same result: empty and ["."] segments are
    dropped, [".."] removes the segment before it unless there is none or it
    is itself [".."]. *)

Module path.

Definition pushSegment (allowAboveRoot : bool) (res : list string) (seg : string)
  : list string :=
  if String.eqb seg "" || String.eqb seg "." then res
  else if String.eqb seg ".." then
    match res with
    | last :: before =>
        if String.eqb last ".." then
          (if allowAboveRoot then seg :: res else res)
        else before
    | [] => if allowAboveRoot then [seg] else []
    end
  else seg :: res.

(** the segments of a normalized path, innermost first while folding *)
Definition normalizeSegments (allowAboveRoot : bool) (p : string) : list string :=
  rev (fold_left (pushSegment allowAboveRoot) (JsString.split "/" p) []).

Definition normalizeString (p : string) (allowAboveRoot : bool) : string :=
  JsString.join "/" (normalizeSegments allowAboveRoot p).

Definition isAbsolute (p : string) : bool := JsString.startsWith p "/".

Definition normalize (p : string) : string :=
  if String.eqb p "" then "."
  else
    let trailingSeparator := JsString.endsWith p "/" in
    let res := normalizeString p (negb (isAbsolute p)) in
    if String.eqb res "" then
      (if isAbsolute p then "/" else if trailingSeparator then "./" else ".")
    else
      let res := if trailingSeparator then res +:+ "/" else res in
      if isAbsolute p then "/" +:+ res else res.

(** [join(a, b)] *)
Definition join (a b : string) : string :=
  let parts := List.filter (fun s => negb (String.eqb s "")) [a; b] in
  match parts with
  | [] => "."
  | _ => normalize (JsString.join "/" parts)
  end.

End path.

(** ** Exceptions and state

    A computation runs on a state [S] and either returns a value or throws;
    the state it leaves behind is kept in both cases, as the effects of a
    JavaScript block survive the exception that ends it. *)

Inductive exn :=
| ErrorObject (name message : string)   (* [instanceof Error], with [.message] *)
| ThrownValue (text : string).          (* anything else that was thrown *)

Definition M (S A : Type) : Type := S -> (exn + A) * S.

Definition ret {S A} (a : A) : M S A := fun s => (inr a, s).

Definition bind {S A B} (m : M S A) (k : A -> M S B) : M S B :=
  fun s =>
    match m s with
    | (inr a, s') => k a s'
    | (inl e, s') => (inl e, s')
    end.

Definition throw {S A} (e : exn) : M S A := fun s => (inl e, s).

(** [try { m } catch (error) { h error }] *)
Definition tryCatch {S A} (m : M S A) (h : exn -> M S A) : M S A :=
  fun s =>
    match m s with
    | (inl e, s') => h e s'
    | (inr a, s') => (inr a, s')
    end.

Definition gets {S A} (f : S -> A) : M S A := fun s => (inr (f s), s).

Definition modify {S} (f : S -> S) : M S unit := fun s => (inr tt, f s).

Declare Scope js_scope.
Delimit Scope js_scope with js.
Notation "x <- c1 ;; c2" := (bind c1 (fun x => c2))
  (at level 100, c1 at next level, c2 at level 200, right associativity) : js_scope.
Notation "c1 ;; c2" := (bind c1 (fun _ => c2))
  (at level 100, c2 at level 200, right associativity) : js_scope.
Open Scope js_scope.

(** [xs.forEach(f)]: the callback runs on each element in turn; an exception
    leaves the loop at once. *)
Definition forEach {S X} (f : X -> M S unit) : list X -> M S unit :=
  fix go (xs : list X) : M S unit :=
    match xs with
    | [] => ret tt
    | x :: xs' => f x ;; go xs'
    end.

(** [error instanceof Error ? error.message : "Unknown error"] *)
Definition errorMessage (error : exn) : string :=
  match error with
  | ErrorObject _ message => message
  | ThrownValue _ => "Unknown error"
  end.

(** how the console prints a thrown value *)
Definition showError (error : exn) : string :=
  match error with
  | ErrorObject name message => name +:+ ": " +:+ message
  | ThrownValue text => text
  end.

(** ** The file system

    A tree of directory entries, in directory-entry order.  A file may be
    unreadable, a directory may refuse to be listed, and an entry may have no
    target ([statSync] throws on it, as on a dangling link).  Entry names are
    the strings [readdirSync] returns. *)

Inductive node :=
| File (content : option string)
| Dir (listable : bool) (entries : list (string * node))
| Dangling.

Definition child (n : node) (seg : string) : option node :=
  match n with
  | Dir _ entries =>
      match List.find (fun e => String.eqb (fst e) seg) entries with
      | Some e => Some (snd e)
      | None => None
      end
  | _ => None
  end.

(** the node that a sequence of entry names leads to *)
Fixpoint descend (n : node) (segs : list string) : option node :=
  match segs with
  | [] => Some n
  | seg :: segs' =>
      match child n seg with
      | Some c => descend c segs'
      | None => None
      end
  end.

(** why a path names nothing *)
Inductive errno := ENOENT | ENOTDIR.

(** Following the segments of a path one by one, as the system calls do:
    every segment, the empty ones and ["."] included, needs a directory to
    be looked up in, and [".."] leads to the directory above ([above] holds
    the directories passed, innermost first; the root is its own parent). *)
Fixpoint walk (above : list node) (n : node) (segs : list string) : errno + node :=
  match segs with
  | [] => inr n
  | seg :: rest =>
      match n with
      | Dir _ _ =>
          if String.eqb seg "" || String.eqb seg "." then walk above n rest
          else if String.eqb seg ".." then
            match above with
            | parent :: higher => walk higher parent rest
            | [] => walk [] n rest
            end
          else
            match child n seg with
            | Some c => walk (n :: above) c rest
            | None => inl ENOENT
            end
      | File _ => inl ENOTDIR
      | Dangling => inl ENOENT
      end
  end.

(** What a path names, from the root of the file system, or why it names
    nothing.  The process working directory is taken to be the root.  The
    path is not normalized first: [/ws/nowhere/../templates] names nothing
    when [/ws/nowhere] does not exist, and neither does [/ws/x.hbs/] when
    [x.hbs] is a file. *)
Definition lookupPath (root : node) (p : string) : errno + node :=
  if String.eqb p "" then inl ENOENT else walk [] root (JsString.split "/" p).

Definition resolve (root : node) (p : string) : option node :=
  match lookupPath root p with
  | inr n => Some n
  | inl _ => None
  end.

Definition existsSync (root : node) (p : string) : bool :=
  match resolve root p with
  | Some Dangling | None => false
  | Some _ => true
  end.

Definition enoent (syscall p : string) : exn :=
  ErrorObject "Error" ("ENOENT: no such file or directory, " +:+ syscall +:+ " '" +:+ p +:+ "'").

Definition enotdir (syscall p : string) : exn :=
  ErrorObject "Error" ("ENOTDIR: not a directory, " +:+ syscall +:+ " '" +:+ p +:+ "'").

(** [readFileSync(p, "utf8")] *)
Definition readFileSync {S} (root : node) (p : string) : M S string :=
  match lookupPath root p with
  | inr (File (Some content)) => ret content
  | inr (File None) =>
      throw (ErrorObject "Error" ("EACCES: permission denied, open '" +:+ p +:+ "'"))
  | inr (Dir _ _) =>
      throw (ErrorObject "Error" "EISDIR: illegal operation on a directory, read")
  | inr Dangling | inl ENOENT => throw (enoent "open" p)
  | inl ENOTDIR => throw (enotdir "open" p)
  end.

(** ** JSON data, as the webview sends it *)

Inductive json :=
| JUndefined
| JNull
| JBool (b : bool)
| JNumber (x : float)
| JString (s : string)
| JArray (items : list json)
| JObject (members : list (string * json)).

(** [ToBoolean]: what [||], [!] and [if] look at *)
Definition numberToBoolean (x : float) : bool :=
  negb (PrimFloat.eqb x 0%float) && PrimFloat.eqb x x.

Definition truthy (v : json) : bool :=
  match v with
  | JUndefined | JNull => false
  | JBool b => b
  | JNumber x => numberToBoolean x
  | JString s => negb (String.eqb s "")
  | JArray _ | JObject _ => true
  end.

(** [a || b] *)
Definition or_else (a b : json) : json := if truthy a then a else b.

(** ** JavaScript objects

    Values of the helper modules live on a heap of plain objects: own data
    properties in the order in which they were created, and a flag telling
    whether the object can be called.  Code of the extension is module code, hence strict: writing a
    property of a primitive throws. *)

Definition loc := positive.

Inductive value :=
| VUndefined
| VNull
| VBool (b : bool)
| VNumber (x : float)
| VString (s : string)
| VObject (l : loc).

Record object := {
  callable : bool;
  properties : list (string * value)
}.

Abbreviation heap := (gmap loc object).

Definition toBoolean (v : value) : bool :=
  match v with
  | VUndefined | VNull => false
  | VBool b => b
  | VNumber x => numberToBoolean x
  | VString s => negb (String.eqb s "")
  | VObject _ => true
  end.

Definition typeof (h : heap) (v : value) : string :=
  match v with
  | VUndefined => "undefined"
  | VNull => "object"
  | VBool _ => "boolean"
  | VNumber _ => "number"
  | VString _ => "string"
  | VObject l =>
      match h !! l with
      | Some o => if callable o then "function" else "object"
      | None => "object"
      end
  end.

Definition typeError (message : string) : exn := ErrorObject "TypeError" message.

Definition lookupProperty (props : list (string * value)) (key : string) : value :=
  match List.find (fun kv => String.eqb (fst kv) key) props with
  | Some kv => snd kv
  | None => VUndefined
  end.

Fixpoint assignProperty (props : list (string * value)) (key : string) (v : value)
  : list (string * value) :=
  match props with
  | [] => [(key, v)]
  | (k, old) :: rest =>
      if String.eqb k key then (k, v) :: rest
      else (k, old) :: assignProperty rest key v
  end.

(** [target.key] *)
Definition getProperty (target : value) (key : string) : M heap value :=
  match target with
  | VUndefined =>
      throw (typeError ("Cannot read properties of undefined (reading '" +:+ key +:+ "')"))
  | VNull =>
      throw (typeError ("Cannot read properties of null (reading '" +:+ key +:+ "')"))
  | VObject l =>
      h <- gets (fun h : heap => h !! l) ;;
      match h with
      | Some o => ret (lookupProperty (properties o) key)
      | None => ret VUndefined
      end
  | _ => ret VUndefined
  end.

(** how the runtime names a primitive in the message of a [TypeError];
    [numberToString] is [Number.prototype.toString], left to the runtime *)
Definition describePrimitive (numberToString : float -> string) (v : value) : string :=
  match v with
  | VBool b => "boolean '" +:+ (if b then "true" else "false") +:+ "'"
  | VNumber x => "number '" +:+ numberToString x +:+ "'"
  | VString s => "string '" +:+ s +:+ "'"
  | _ => ""
  end.

(** [target.key = v] *)
Definition setProperty (numberToString : float -> string)
    (target : value) (key : string) (v : value) : M heap unit :=
  match target with
  | VUndefined =>
      throw (typeError ("Cannot set properties of undefined (setting '" +:+ key +:+ "')"))
  | VNull =>
      throw (typeError ("Cannot set properties of null (setting '" +:+ key +:+ "')"))
  | VObject l =>
      modify (fun h : heap =>
        match h !! l with
        | Some o =>
            <[l := {| callable := callable o;
                      properties := assignProperty (properties o) key v |}]> h
        | None => <[l := {| callable := false; properties := [(key, v)] |}]> h
        end)
  | _ =>
      throw (typeError ("Cannot create property '" +:+ key +:+ "' on "
                        +:+ describePrimitive numberToString target))
  end.

(** the object literal [{}] *)
Definition newObject : M heap value :=
  fun h =>
    let l := fresh (dom h) in
    (inr (VObject l), <[l := {| callable := false; properties := [] |}]> h).

(** [args.at(-1)] *)
Definition at_last (args : list value) : value :=
  match last args with
  | Some v => v
  | None => VUndefined
  end.

(** the number a string of decimal digits stands for *)
Fixpoint decimal (s : string) (acc : N) : option N :=
  match s with
  | EmptyString => Some acc
  | String c rest =>
      let code := N_of_ascii c in
      if N.leb 48 code && N.leb code 57
      then decimal rest (acc * 10 + (code - 48))%N
      else None
  end.

(** the index a property key stands for, when it is an array index: a
    decimal numeral without leading zero, below [2^32 - 1] *)
Definition arrayIndex (key : string) : option N :=
  match key with
  | EmptyString => None
  | String "0" EmptyString => Some 0%N
  | String "0" _ => None
  | _ =>
      match decimal key 0 with
      | Some n => if N.ltb n 4294967295 then Some n else None
      | None => None
      end
  end.

Fixpoint insertByIndex (i : N) (kv : string * value)
    (sorted : list (N * (string * value))) : list (N * (string * value)) :=
  match sorted with
  | [] => [(i, kv)]
  | (j, other) :: rest =>
      if N.ltb i j then (i, kv) :: sorted else (j, other) :: insertByIndex i kv rest
  end.

(** the order in which the own properties of an object are enumerated:
    array indices first, in ascending order, then the other keys in the order
    in which they were created *)
Definition ownProperties (props : list (string * value)) : list (string * value) :=
  let indexed :=
    fold_left (fun sorted kv =>
                 match arrayIndex (fst kv) with
                 | Some i => insertByIndex i kv sorted
                 | None => sorted
                 end) props [] in
  map snd indexed
  ++ List.filter (fun kv => match arrayIndex (fst kv) with
                            | Some _ => false
                            | None => true
                            end) props.

(** [Object.entries(v)] for an object *)
Definition entriesOf (h : heap) (v : value) : list (string * value) :=
  match v with
  | VObject l =>
      match h !! l with
      | Some o => ownProperties (properties o)
      | None => []
      end
  | _ => []
  end.

(** ** The provider and what it talks to *)

Record TemplateRecord := {
  name : string;
  directory : string;
  fullPath : string
}.

(** messages posted to the webview *)
Inductive message :=
| Templates (templates : list TemplateRecord)
| Rendered (html : string)
| ErrorText (error : string)
| TemplateData (data : json)
| TemplateDataCleared
| PartialsRegistered
| AutoRerender
| ClearAllData.

(** messages received from the webview *)
Inductive request :=
| GetTemplates
| RenderTemplate (templateName : string) (data : json)
| GetTemplateData (templateName : string)
| ClearTemplateData (templateName : string)
| OtherCommand (command : string).

Inductive notification :=
| InformationMessage (text : string)
| WarningMessage (text : string)
| ErrorMessage (text : string).

Inductive consoleLevel := LevelLog | LevelWarn | LevelError.

(** a line of the console; further arguments of the call are appended to
    the text, however the host would print them *)
Record consoleEntry := Console { level : consoleLevel; text : string }.

(** an entry of [handlebars.helpers]: a helper of the engine, or the function
    that [loadCustomHelpers] wraps around a function of the user's module *)
Inductive helper :=
| Builtin (id : string)
| Adapter (original : value).

(** the callbacks of a watcher differ only by the loop that installs it *)
Inductive watched := TemplateDirectory | PartialsDirectory.

Record watcher := { globPattern : string; installedFor : watched }.

Inductive fileEvent := DidChange | DidCreate | DidDelete.

Record state := {
  _panel : bool;                              (* [this._panel] is set *)
  _watchers : list watcher;
  _templateDataCache : gmap string json;
  partials : gmap string string;              (* [handlebars.partials] *)
  helpers : gmap string helper;               (* [handlebars.helpers] *)
  posted : list message;                      (* [webview.postMessage], oldest first *)
  notifications : list notification;          (* [vscode.window.show...Message] *)
  console : list consoleEntry
}.

Definition set_panel (b : bool) (st : state) : state :=
  {| _panel := b; _watchers := _watchers st;
     _templateDataCache := _templateDataCache st; partials := partials st;
     helpers := helpers st; posted := posted st;
     notifications := notifications st; console := console st |}.

Definition set_watchers (f : list watcher -> list watcher) (st : state) : state :=
  {| _panel := _panel st; _watchers := f (_watchers st);
     _templateDataCache := _templateDataCache st; partials := partials st;
     helpers := helpers st; posted := posted st;
     notifications := notifications st; console := console st |}.

Definition set_templateDataCache (f : gmap string json -> gmap string json) (st : state)
  : state :=
  {| _panel := _panel st; _watchers := _watchers st;
     _templateDataCache := f (_templateDataCache st); partials := partials st;
     helpers := helpers st; posted := posted st;
     notifications := notifications st; console := console st |}.

Definition set_partials (f : gmap string string -> gmap string string) (st : state)
  : state :=
  {| _panel := _panel st; _watchers := _watchers st;
     _templateDataCache := _templateDataCache st; partials := f (partials st);
     helpers := helpers st; posted := posted st;
     notifications := notifications st; console := console st |}.

Definition set_helpers (f : gmap string helper -> gmap string helper) (st : state)
  : state :=
  {| _panel := _panel st; _watchers := _watchers st;
     _templateDataCache := _templateDataCache st; partials := partials st;
     helpers := f (helpers st); posted := posted st;
     notifications := notifications st; console := console st |}.

Definition set_posted (f : list message -> list message) (st : state) : state :=
  {| _panel := _panel st; _watchers := _watchers st;
     _templateDataCache := _templateDataCache st; partials := partials st;
     helpers := helpers st; posted := f (posted st);
     notifications := notifications st; console := console st |}.

Definition set_notifications (f : list notification -> list notification) (st : state)
  : state :=
  {| _panel := _panel st; _watchers := _watchers st;
     _templateDataCache := _templateDataCache st; partials := partials st;
     helpers := helpers st; posted := posted st;
     notifications := f (notifications st); console := console st |}.

Definition set_console (f : list consoleEntry -> list consoleEntry) (st : state) : state :=
  {| _panel := _panel st; _watchers := _watchers st;
     _templateDataCache := _templateDataCache st; partials := partials st;
     helpers := helpers st; posted := posted st;
     notifications := notifications st; console := f (console st) |}.

Definition consoleLog (s : string) : M state unit :=
  modify (set_console (fun c => c ++ [Console LevelLog s])).
Definition consoleWarn (s : string) : M state unit :=
  modify (set_console (fun c => c ++ [Console LevelWarn s])).
Definition consoleError (s : string) : M state unit :=
  modify (set_console (fun c => c ++ [Console LevelError s])).

Definition showInformationMessage (s : string) : M state unit :=
  modify (set_notifications (fun l => l ++ [InformationMessage s])).
Definition showWarningMessage (s : string) : M state unit :=
  modify (set_notifications (fun l => l ++ [WarningMessage s])).
Definition showErrorMessage (s : string) : M state unit :=
  modify (set_notifications (fun l => l ++ [ErrorMessage s])).

(** [panel.webview.postMessage(m)] on a panel that exists *)
Definition postMessage (m : message) : M state unit :=
  modify (set_posted (fun l => l ++ [m])).

(** [this._panel!.webview.postMessage(m)]: the [!] is erased by the
    compiler, so a panel that is not there makes the property read throw *)
Definition postMessage_unchecked (m : message) : M state unit :=
  panel <- gets _panel ;;
  if panel : bool then postMessage m
  else throw (typeError "Cannot read properties of undefined (reading 'webview')").

(** [handlebars.registerPartial(name, content)] *)
Definition registerPartial (partialName content : string) : M state unit :=
  modify (set_partials (fun t => <[partialName := content]> t)).

(** [handlebars.registerHelper(name, fn)] *)
Definition registerHelper (helperName : string) (fn : helper) : M state unit :=
  modify (set_helpers (fun t => <[helperName := fn]> t)).

(** An array that a function allocates and its callees fill: it lives next
    to the provider state while the callees run. *)
Definition withLocal {L S} (init : L) (m : M (L * S) unit) : M S L :=
  fun s =>
    match m (init, s) with
    | (inr _, (l, s')) => (inr l, s')
    | (inl e, (_, s')) => (inl e, s')
    end.

Definition onState {L S A} (m : M S A) : M (L * S) A :=
  fun ls => match m (snd ls) with (r, s') => (r, (fst ls, s')) end.

(** [array.push(x)] on the local array *)
Definition push {X S} (x : X) : M (list X * S) unit :=
  modify (fun ls => (fst ls ++ [x], snd ls)).

(** the settings of the workspace; [None] where a key has no value *)
Record settings := {
  setting_templateDirectories : option (list string);
  setting_partialsDirectories : option (list string);
  setting_customHelpersFile : option string
}.

Record configuration := {
  templateDirectories : list string;
  partialsDirectories : list string;
  customHelpersFile : string
}.

Section Provider.

(** [this._workspaceRoot] *)
Variable _workspaceRoot : string.
(** the [handlebarsPreview] section of the settings, read on every call *)
Variable workspaceSettings : settings.
(** the file system, as it is while one callback runs *)
Variable fs : node.
(** [handlebars.compile(source)(data)] with the tables of the engine *)
Variable handlebars_compile :
  gmap string string -> gmap string helper -> string -> json -> exn + string.

Definition getConfiguration : configuration :=
  {| templateDirectories :=
       match setting_templateDirectories workspaceSettings with
       | Some dirs => dirs
       | None => ["templates"; "src/templates"; "views"]
       end;
     partialsDirectories :=
       match setting_partialsDirectories workspaceSettings with
       | Some dirs => dirs
       | None => []
       end;
     customHelpersFile :=
       match setting_customHelpersFile workspaceSettings with
       | Some file => file
       | None => ""
       end |}.

(** [dir.startsWith("/") ? dir : join(this._workspaceRoot, dir)] *)
Definition absolute (dir : string) : string :=
  if JsString.startsWith dir "/" then dir else path.join _workspaceRoot dir.

Definition getTemplateDirectories : list string :=
  let config := getConfiguration in
  List.filter (fun dir => existsSync fs dir)
    (map absolute (templateDirectories config)).

Definition getPartialsDirectories : list string :=
  let config := getConfiguration in
  let partialsDirs :=
    if Nat.ltb 0 (length (partialsDirectories config))
    then partialsDirectories config
    else templateDirectories config in
  List.filter (fun dir => existsSync fs dir) (map absolute partialsDirs).

(** *** Template data store *)

Definition getTemplateDataKey (templateName : string) : string :=
  _workspaceRoot +:+ ":" +:+ templateName.

Definition saveTemplateData (templateName : string) (data : json) : M state unit :=
  let key := getTemplateDataKey templateName in
  modify (set_templateDataCache (fun cache => <[key := data]> cache)).

Definition getTemplateData (templateName : string) : M state json :=
  let key := getTemplateDataKey templateName in
  stored <- gets (fun st => _templateDataCache st !! key) ;;
  ret (or_else (match stored with Some v => v | None => JUndefined end) (JObject [])).

Definition clearTemplateData (templateName : string) : M state unit :=
  let key := getTemplateDataKey templateName in
  modify (set_templateDataCache (fun cache => delete key cache)).

(** *** Partial registrar

    The walk takes the node that [dir] names: [readdirSync(dir)] lists its
    entries, [statSync] and [readFileSync] of [join(dir, file)] look at the
    entry's own node. *)

Definition readdirFailure (dir : string) (n : node) : exn :=
  match n with
  | File _ => ErrorObject "Error" ("ENOTDIR: not a directory, scandir '" +:+ dir +:+ "'")
  | Dir _ _ => ErrorObject "Error" ("EACCES: permission denied, scandir '" +:+ dir +:+ "'")
  | Dangling => enoent "scandir" dir
  end.

Definition readContent {S} (filePath : string) (content : option string) : M S string :=
  match content with
  | Some text => ret text
  | None =>
      throw (ErrorObject "Error" ("EACCES: permission denied, open '" +:+ filePath +:+ "'"))
  end.

Fixpoint registerPartialsRecursively (dir : string) (n : node) : M state unit :=
  tryCatch
    match n with
    | Dir true files =>
        forEach (fun '(file, target) =>
          let filePath := path.join dir file in
          match target with
          | Dangling => throw (enoent "stat" filePath)
          | Dir _ _ => registerPartialsRecursively filePath target
          | File stored =>
              if JsString.endsWith file ".hbs" then
                let relativePath :=
                  JsString.replace filePath (_workspaceRoot +:+ "/") "" in
                let partialName := JsString.replace relativePath ".hbs" "" in
                content <- readContent filePath stored ;;
                registerPartial partialName content ;;
                consoleLog ("📄 Registered partial: " +:+ partialName) ;;
                let fileName := JsString.replace file ".hbs" "" in
                if negb (String.eqb fileName partialName) then
                  registerPartial fileName content ;;
                  consoleLog ("📄 Registered partial (filename): " +:+ fileName)
                else ret tt
              else ret tt
          end) files
    | _ => throw (readdirFailure dir n)
    end
    (fun error => consoleError ("Error registering partials: " +:+ showError error)).

(** the node a directory path names; a path that names nothing behaves as
    a dangling entry does *)
Definition nodeAt (dir : string) : node :=
  match resolve fs dir with
  | Some n => n
  | None => Dangling
  end.

Definition registerPartials : M state unit :=
  consoleLog "🔄 Starting partial registration..." ;;
  let partialsDirs := getPartialsDirectories in
  consoleLog ("📁 Partials directories: " +:+ JsString.join ", " partialsDirs) ;;
  forEach (fun dir => registerPartialsRecursively dir (nodeAt dir)) partialsDirs ;;
  panel <- gets _panel ;;
  (if panel : bool then postMessage PartialsRegistered else ret tt) ;;
  consoleLog "✅ Partial registration completed".

(** *** Scanner *)

Fixpoint getTemplatesRecursively (dir : string) (n : node) (baseDir : string)
  : M (list TemplateRecord * state) unit :=
  tryCatch
    match n with
    | Dir true files =>
        forEach (fun '(file, target) =>
          let filePath := path.join dir file in
          match target with
          | Dangling => throw (enoent "stat" filePath)
          | Dir _ _ => getTemplatesRecursively filePath target baseDir
          | File _ =>
              if JsString.endsWith file ".hbs" then
                let relativePath := JsString.replace filePath (baseDir +:+ "/") "" in
                let templateName := JsString.replace relativePath ".hbs" "" in
                let directoryName :=
                  JsString.replace baseDir (_workspaceRoot +:+ "/") "" in
                push {| name := templateName;
                        directory := directoryName;
                        fullPath := filePath |}
              else ret tt
          end) files
    | _ => throw (readdirFailure dir n)
    end
    (fun error =>
       onState (consoleError ("Error reading templates directory: " +:+ showError error))).

Definition getAvailableTemplates : M state (list TemplateRecord) :=
  let templateDirs := getTemplateDirectories in
  templates <- withLocal []
    (forEach (fun dir => getTemplatesRecursively dir (nodeAt dir) dir) templateDirs) ;;
  ret (List.filter (fun t => negb (JsString.includes (name t) "components/")) templates).

(** *** Render pipeline *)

Definition renderTemplate (templateName : string) (data : json) : M state string :=
  templates <- getAvailableTemplates ;;
  match List.find (fun t => String.eqb (name t) templateName) templates with
  | None => throw (ErrorObject "Error" ("Template not found: " +:+ templateName))
  | Some template =>
      registerPartials ;;
      consoleLog "🔍 Checking registered partials before compilation:" ;;
      registeredPartials <- gets (fun st => map fst (map_to_list (partials st))) ;;
      consoleLog ("📋 Registered partials: " +:+ JsString.join ", " registeredPartials) ;;
      planName <- gets (fun st => partials st !! "plan-name") ;;
      (match planName with
       | Some (String _ _) => consoleLog "✅ plan-name partial is registered"
       | _ => consoleLog "❌ plan-name partial is NOT registered"
       end) ;;
      templateContent <- readFileSync fs (fullPath template) ;;
      table <- gets (fun st => (partials st, helpers st)) ;;
      match handlebars_compile (fst table) (snd table) templateContent data with
      | inr html => ret html
      | inl error => throw error
      end
  end.

(** *** Messages from the webview *)

Definition onDidReceiveMessage (msg : request) : M state unit :=
  match msg with
  | GetTemplates =>
      templates <- getAvailableTemplates ;;
      postMessage_unchecked (Templates templates)
  | RenderTemplate templateName data =>
      tryCatch
        (html <- renderTemplate templateName (or_else data (JObject [])) ;;
         saveTemplateData templateName (or_else data (JObject [])) ;;
         postMessage_unchecked (Rendered html))
        (fun error => postMessage_unchecked (ErrorText (errorMessage error)))
  | GetTemplateData templateName =>
      data <- getTemplateData templateName ;;
      postMessage_unchecked (TemplateData data)
  | ClearTemplateData templateName =>
      clearTemplateData templateName ;;
      postMessage_unchecked TemplateDataCleared
  | OtherCommand _ => ret tt
  end.

(** *** File watchers *)

Definition autoRerender : M state unit :=
  panel <- gets _panel ;;
  if panel : bool then
    consoleLog "Sending autoRerender command to webview" ;;
    postMessage AutoRerender
  else ret tt.

Definition refreshTemplates : M state unit :=
  panel <- gets _panel ;;
  if panel : bool then
    templates <- getAvailableTemplates ;;
    postMessage (Templates templates)
  else ret tt.

Definition createFileSystemWatcher (dir : string) (loop : watched) : watcher :=
  let relativeDir := JsString.replace dir (_workspaceRoot +:+ "/") "" in
  {| globPattern := relativeDir +:+ "/**/*.hbs"; installedFor := loop |}.

Definition setupFileWatchers : M state unit :=
  let templateDirs := getTemplateDirectories in
  let partialsDirs := getPartialsDirectories in
  forEach (fun dir =>
    let watcher := createFileSystemWatcher dir TemplateDirectory in
    modify (set_watchers (fun ws => ws ++ [watcher]))) templateDirs ;;
  forEach (fun dir =>
    if negb (existsb (String.eqb dir) templateDirs) then
      let watcher := createFileSystemWatcher dir PartialsDirectory in
      modify (set_watchers (fun ws => ws ++ [watcher]))
    else ret tt) partialsDirs.

(** the callback a watcher got for each kind of event *)
Definition onDidChange (w : watcher) : M state unit :=
  match installedFor w with
  | TemplateDirectory => registerPartials ;; refreshTemplates ;; autoRerender
  | PartialsDirectory => registerPartials
  end.

Definition onDidCreate (w : watcher) : M state unit :=
  match installedFor w with
  | TemplateDirectory => registerPartials ;; refreshTemplates
  | PartialsDirectory => registerPartials
  end.

Definition onDidDelete (w : watcher) : M state unit :=
  match installedFor w with
  | TemplateDirectory => registerPartials ;; refreshTemplates
  | PartialsDirectory => registerPartials
  end.

Definition deliver (w : watcher) (ev : fileEvent) : M state unit :=
  match ev with
  | DidChange => onDidChange w
  | DidCreate => onDidCreate w
  | DidDelete => onDidDelete w
  end.

(** *** Helper loader

    The function is [async]: it runs up to [await import(helpersPath)],
    and its continuation runs later, on whatever state the callbacks that
    ran in between have left.  Both halves sit in the same [try]. *)

(** [require.resolve(path)] *)
Variable requireResolve : string -> exn + string.
(** what [import(path)] settles to: a rejection or the module *)
Variable importModule : string -> exn + value.
(** the objects of the loaded module *)
Variable moduleHeap : heap.

Inductive suspension :=
| Finished
| AwaitImport (helpersPath : string).

(** the [catch] block of [loadCustomHelpers] *)
Definition loadFailed (error : exn) : M state unit :=
  let errorMessage := errorMessage error in
  showErrorMessage
    ("Handlebars Live Preview: Failed to load custom helpers: " +:+ errorMessage) ;;
  consoleError ("[handlebars-preview] Error loading custom helpers: " +:+ showError error).

Definition loadCustomHelpers_start : M state suspension :=
  let config := getConfiguration in
  if String.eqb (customHelpersFile config) "" then
    consoleLog "[handlebars-preview] No custom helpers file configured" ;;
    ret Finished
  else
    tryCatch
      (let helpersPath := absolute (customHelpersFile config) in
       if negb (existsSync fs helpersPath) then
         consoleWarn
           ("[handlebars-preview] Custom helpers file not found: " +:+ helpersPath) ;;
         ret Finished
       else
         match requireResolve helpersPath with
         | inl error => throw error
         | inr _ => ret (AwaitImport helpersPath)
         end)
      (fun error => loadFailed error ;; ret Finished).

(** evaluation on the module's objects, which the loader only reads *)
Definition reading {A} (h : heap) (m : M heap A) : M state A :=
  fun st => (fst (m h), st).

(** [module.default || module] *)
Definition exportedValue (module : value) : M heap value :=
  defaultExport <- getProperty module "default" ;;
  ret (if toBoolean defaultExport then defaultExport else module).

Definition loadCustomHelpers_resume (helpersPath : string) (imported : exn + value)
    (h : heap) : M state unit :=
  tryCatch
    (module <- match imported with
               | inl error => throw error
               | inr module => ret module
               end ;;
     helpers <- reading h (exportedValue module) ;;
     if String.eqb (typeof h helpers) "object"
        && negb (match helpers with VNull => true | _ => false end)
     then
       registeredHelpers <- withLocal []
         (forEach (fun '(name, helper) =>
            if String.eqb (typeof h helper) "function" then
              onState (registerHelper name (Adapter helper)) ;;
              push name ;;
              onState (consoleLog
                ("[handlebars-preview] Registered custom helper: " +:+ name))
            else ret tt) (entriesOf h helpers)) ;;
       if Nat.ltb 0 (length registeredHelpers) then
         showInformationMessage
           ("Handlebars Live Preview: Registered "
            +:+ pretty (length registeredHelpers)
            +:+ " custom helpers: " +:+ JsString.join ", " registeredHelpers)
       else
         showWarningMessage
           "Handlebars Live Preview: No valid helper functions found in custom helpers file"
     else
       showErrorMessage
         "Handlebars Live Preview: Custom helpers file should export an object with helper functions" ;;
       consoleWarn
         ("[handlebars-preview] Custom helpers file should export an object with helper functions: "
          +:+ helpersPath))
    loadFailed.

(** the whole function, when nothing runs between its two halves *)
Definition loadCustomHelpers : M state unit :=
  s <- loadCustomHelpers_start ;;
  match s with
  | Finished => ret tt
  | AwaitImport helpersPath =>
      loadCustomHelpers_resume helpersPath (importModule helpersPath) moduleHeap
  end.

(** [this.loadCustomHelpers().catch(...)] *)
Definition registerHelpers : M state unit :=
  tryCatch loadCustomHelpers
    (fun error =>
       consoleError ("[handlebars-preview] Error loading custom helpers: " +:+ showError error)).

End Provider.

(** ** The function registered for a custom helper

    [function (this, ...args) { const options = args.at(-1);
       if (!options.data) options.data = {};
       options.data.hbs = handlebars;
       return helper.apply(this, args); }] *)

Section Adapter.

(** [Number.prototype.toString], which only the text of an error needs *)
Variable numberToString : float -> string.
(** the engine instance *)
Variable handlebars : value.
(** [helper.apply(this, args)] for the wrapped function *)
Variable helper_apply : value -> list value -> M heap value.

Definition adapter (this : value) (args : list value) : M heap value :=
  let options := at_last args in
  data <- getProperty options "data" ;;
  (if negb (toBoolean data) then
     empty <- newObject ;;
     setProperty numberToString options "data" empty
   else ret tt) ;;
  data <- getProperty options "data" ;;
  setProperty numberToString data "hbs" handlebars ;;
  helper_apply this args.

End Adapter.

(** ** What the registrar reaches

    The partial files the walk of a directory reaches, in the order it
    reaches them: path, entry name and text.  A directory that cannot be
    listed yields nothing; an entry that cannot be examined, or a partial
    file that cannot be read, ends the listing of its directory. *)

Section Reached.

Variable reachedBelow : string -> node -> list (string * string * string).

Fixpoint reachedAmong (dir : string) (files : list (string * node))
  : list (string * string * string) :=
  match files with
  | [] => []
  | (file, target) :: rest =>
      let filePath := path.join dir file in
      match target with
      | Dangling => []
      | Dir _ _ => reachedBelow filePath target ++ reachedAmong dir rest
      | File stored =>
          if JsString.endsWith file ".hbs" then
            match stored with
            | Some content => (filePath, file, content) :: reachedAmong dir rest
            | None => []
            end
          else reachedAmong dir rest
      end
  end.

End Reached.

Fixpoint reached (dir : string) (n : node) : list (string * string * string) :=
  match n with
  | Dir true files => reachedAmong reached dir files
  | _ => []
  end.

(** key (a): the path below the workspace root, without the extension *)
Definition partialNameOf (workspaceRoot filePath : string) : string :=
  JsString.replace (JsString.replace filePath (workspaceRoot +:+ "/") "") ".hbs" "".

(** key (b): the entry name without the extension *)
Definition fileNameOf (file : string) : string := JsString.replace file ".hbs" "".

(** the registrations one partial file stands for *)
Definition registrationsOf (workspaceRoot : string) (found : string * string * string)
  : list (string * string) :=
  let '(filePath, file, content) := found in
  let partialName := partialNameOf workspaceRoot filePath in
  let fileName := fileNameOf file in
  (partialName, content)
    :: (if String.eqb fileName partialName then [] else [(fileName, content)]).

Definition registrations (workspaceRoot dir : string) (n : node) : list (string * string) :=
  flat_map (registrationsOf workspaceRoot) (reached dir n).

(** the text of the last registration under a key *)
Fixpoint lastRegistered (key : string) (regs : list (string * string)) : option string :=
  match regs with
  | [] => None
  | (k, content) :: rest =>
      match lastRegistered key rest with
      | Some later => Some later
      | None => if String.eqb k key then Some content else None
      end
  end.

(** the table after a sequence of [registerPartial] calls *)
Definition registerAll (regs : list (string * string)) (table : gmap string string)
  : gmap string string :=
  fold_left (fun t kv => <[fst kv := snd kv]> t) regs table.

(** all registrations of one [registerPartials] call, root after root *)
Definition allRegistrations (workspaceRoot : string) (cfg : settings) (fs : node)
  : list (string * string) :=
  flat_map (fun dir => registrations workspaceRoot dir (nodeAt fs dir))
    (getPartialsDirectories workspaceRoot cfg fs).

(** ** A workspace to compute on *)

Definition exampleFs : node :=
  Dir true
    [("ws", Dir true
       [("templates", Dir true
          [("a", Dir true [("b", Dir true [("c.hbs", File (Some "<b>c</b>"))])]);
           ("x.hbs", File (Some "<p>hello</p>"));
           ("components", Dir true [("button.hbs", File (Some "<button/>"))])]);
        ("partials", Dir true [("p.hbs", File (Some "<i/>"))])])].

Definition exampleSettings : settings :=
  {| setting_templateDirectories := Some ["templates"; "nowhere"];
     setting_partialsDirectories := None;
     setting_customHelpersFile := None |}.

(** the same workspace with a partials directory of its own *)
Definition separatePartials : settings :=
  {| setting_templateDirectories := Some ["templates"];
     setting_partialsDirectories := Some ["partials"];
     setting_customHelpersFile := None |}.

(** a provider whose panel is open *)
Definition openPanel : state :=
  {| _panel := true; _watchers := []; _templateDataCache := ∅;
     partials := ∅; helpers := ∅; posted := [];
     notifications := []; console := [] |}.

(** an engine that returns the source of a template: what Handlebars
    renders for a template without expressions, as those above *)
Definition echoEngine (_ : gmap string string) (_ : gmap string helper)
    (source : string) (_ : json) : exn + string := inr source.

(** ** Effects of the walks, as data *)

(** registrations, messages and console lines added to a state *)
Definition effect (regs : list (string * string)) (msgs : list message)
    (logs : list consoleEntry) (st : state) : state :=
  set_console (fun c => c ++ logs)
    (set_posted (fun l => l ++ msgs)
       (set_partials (registerAll regs) st)).

(** ** Reading the outcome of a scan *)

(** the template list a scan of the workspace yields; the scan does not look
    at the provider's state, so any state serves to run it *)
Definition templateList (workspaceRoot : string) (cfg : settings) (fs : node)
  : list TemplateRecord :=
  match fst (getAvailableTemplates workspaceRoot cfg fs openPanel) with
  | inr templates => templates
  | inl _ => []
  end.

(** the settings with the template directories replaced *)
Definition withTemplateDirectories (dirs : list string) (cfg : settings) : settings :=
  {| setting_templateDirectories := Some dirs;
     setting_partialsDirectories := setting_partialsDirectories cfg;
     setting_customHelpersFile := setting_customHelpersFile cfg |}.

(** the configured template directories that exist *)
Definition existingTemplateDirectories (workspaceRoot : string) (cfg : settings)
    (fs : node) : list string :=
  List.filter (fun dir => existsSync fs (absolute workspaceRoot dir))
    (templateDirectories (getConfiguration cfg)).

(** ** The options object a helper is called with *)

(** for the calls below, which print no number *)
Definition noNumber (_ : float) : string := "".

(** a helper that returns its first argument *)
Definition firstArgument (_ : value) (args : list value) : M heap value :=
  ret (match args with v :: _ => v | [] => VUndefined end).

(** ** What a helpers module exports *)

(** whether [module.default || module] is an object other than [null] and
    not a function: the test [loadCustomHelpers] applies *)
Definition exportsObject (h : heap) (module : value) : bool :=
  match fst (exportedValue module h) with
  | inr helpers =>
      String.eqb (typeof h helpers) "object"
      && negb (match helpers with VNull => true | _ => false end)
  | inl _ => false
  end.

(** a module whose default export is the number 42 *)
Definition numberModule : heap :=
  {[ 1%positive := {| callable := false; properties := [("default", VNumber 42)] |} ]}.

(** a module whose default export is [null] *)
Definition nullModule : heap :=
  {[ 1%positive := {| callable := false; properties := [("default", VNull)] |} ]}.

(** a workspace that holds a helpers file *)
Definition helpersFs : node :=
  Dir true [("ws", Dir true [("helpers.js", File (Some "module.exports = null"))])].

(** settings that name a helpers file *)
Definition withHelpersFile (file : string) (cfg : settings) : settings :=
  {| setting_templateDirectories := setting_templateDirectories cfg;
     setting_partialsDirectories := setting_partialsDirectories cfg;
     setting_customHelpersFile := Some file |}.

(** an options object without [data], and the engine instance *)
Definition callHeap : heap :=
  {[ 1%positive := {| callable := false; properties := [("name", VString "greet")] |};
     2%positive := {| callable := false; properties := [] |} ]}.

(** ** The directories a lookup has passed

    [trail root names above n]: following the entry names [names] (innermost
    first) from [root] leads through the directories [above] (innermost
    first) to [n]. *)
Fixpoint trail (root : node) (names : list string) (above : list node) (n : node)
  : Prop :=
  match names, above with
  | [], [] => n = root
  | seg :: names', parent :: above' =>
      seg <> ".." /\ child parent seg = Some n /\ trail root names' above' parent
  | _, _ => False
  end.

(** ** Readable file trees *)

(** no file of the tree refuses to be read *)
Fixpoint readable (n : node) : bool :=
  match n with
  | File stored => match stored with Some _ => true | None => false end
  | Dir _ files => forallb (fun e => readable (snd e)) files
  | Dangling => true
  end.

(** ** Well-formed file trees

    In a directory of a real file system the entry names are distinct, not
    empty, not ["."] or [".."], and hold no separator. *)

Definition noSlash (s : string) : bool := negb (JsString.includes s "/").

(** what [readdirSync] can return as an entry name *)
Definition plainName (s : string) : bool :=
  negb (String.eqb s "") && negb (String.eqb s ".") && negb (String.eqb s "..")
  && noSlash s.

Fixpoint distinct (names : list string) : bool :=
  match names with
  | [] => true
  | x :: rest => negb (existsb (String.eqb x) rest) && distinct rest
  end.

Fixpoint wellFormed (n : node) : bool :=
  match n with
  | Dir _ files =>
      distinct (map fst files)
      && forallb (fun e => plainName (fst e) && wellFormed (snd e)) files
  | _ => true
  end.

(** ** What the scanner finds

    The records the walk of a template root pushes, in order.  The scanner
    does not read the files: an unreadable template is listed like any
    other.  An entry that cannot be examined ends the listing of its
    directory. *)

Section Scanned.

Variable workspaceRoot : string.
Variable baseDir : string.
Variable scannedBelow : string -> node -> list TemplateRecord.

Fixpoint scannedAmong (dir : string) (files : list (string * node))
  : list TemplateRecord :=
  match files with
  | [] => []
  | (file, target) :: rest =>
      let filePath := path.join dir file in
      match target with
      | Dangling => []
      | Dir _ _ => scannedBelow filePath target ++ scannedAmong dir rest
      | File _ =>
          if JsString.endsWith file ".hbs" then
            {| name := JsString.replace
                         (JsString.replace filePath (baseDir +:+ "/") "") ".hbs" "";
               directory := JsString.replace baseDir (workspaceRoot +:+ "/") "";
               fullPath := filePath |} :: scannedAmong dir rest
          else scannedAmong dir rest
      end
  end.

End Scanned.

Fixpoint scanned (workspaceRoot baseDir dir : string) (n : node) : list TemplateRecord :=
  match n with
  | Dir true files =>
      scannedAmong workspaceRoot baseDir (scanned workspaceRoot baseDir) dir files
  | _ => []
  end.

(** every record of every existing template directory, in configured order *)
Definition allScanned (workspaceRoot : string) (cfg : settings) (fs : node)
  : list TemplateRecord :=
  flat_map (fun dir => scanned workspaceRoot dir dir (nodeAt fs dir))
    (getTemplateDirectories workspaceRoot cfg fs).

(** an absolute path in normal form, other than the root: what [join]
    returns for a directory below the root *)
Definition normalizedPath (p : string) : bool :=
  match path.normalizeSegments false p with
  | [] => false
  | segs => String.eqb p ("/" +:+ JsString.join "/" segs)
  end.

(** a record found below the template root [baseDir]: its path continues
    the root's, its name is that continuation without the extension, its
    directory is the root relative to the workspace, and its path names a
    file *)
Definition recordBelow (fs : node) (workspaceRoot baseDir : string) (t : TemplateRecord)
  : Prop :=
  (exists relativePath,
      fullPath t = baseDir +:+ "/" +:+ relativePath
      /\ name t = JsString.replace relativePath ".hbs" "")
  /\ directory t = JsString.replace baseDir (workspaceRoot +:+ "/") ""
  /\ exists stored, resolve fs (fullPath t) = Some (File stored).

(** ** What the loader registers *)

(** the entries of the exported object that are functions, in the order
    [Object.entries] lists them *)
Definition callableEntries (h : heap) (exported : value) : list (string * value) :=
  List.filter (fun kv => String.eqb (typeof h (snd kv)) "function") (entriesOf h exported).

(** the helper table after the adapters of these entries are registered *)
Definition registerAdapters (entries : list (string * value)) (table : gmap string helper)
  : gmap string helper :=
  fold_left (fun t kv => <[fst kv := Adapter (snd kv)]> t) entries table.

(** the notification that closes a load of an object export *)
Definition loadReport (names : list string) : notification :=
  if Nat.ltb 0 (length names) then
    InformationMessage
      ("Handlebars Live Preview: Registered " +:+ pretty (length names)
       +:+ " custom helpers: " +:+ JsString.join ", " names)
  else
    WarningMessage
      "Handlebars Live Preview: No valid helper functions found in custom helpers file".

(** a module whose export holds the function [greet] and a number *)
Definition greetModule : heap :=
  {[ 1%positive := {| callable := false;
                      properties := [("greet", VObject 2%positive);
                                     ("version", VNumber 1)] |};
     2%positive := {| callable := true; properties := [] |} ]}.

(** ** The panel

    [createOrShow], the page it loads and the callback it registers for the
    closing of the panel; the extension folder is [this._extensionUri.fsPath]. *)

(** [join(...parts)] *)
Definition joinAll (parts : list string) : string :=
  match List.filter (fun s => negb (String.eqb s "")) parts with
  | [] => "."
  | parts => path.normalize (JsString.join "/" parts)
  end.

Definition _getHtmlForWebview (fs : node) (extensionPath : string) : M state string :=
  let htmlPath := joinAll [extensionPath; "src"; "webview.html"] in
  readFileSync fs htmlPath.

(** the value of the computation is the text assigned to [webview.html];
    there is none when the panel exists and is only revealed *)
Definition createOrShow (workspaceRoot : string) (cfg : settings) (fs : node)
    (extensionPath : string) : M state (option string) :=
  panel <- gets _panel ;;
  if panel : bool then ret None
  else
    modify (set_panel true) ;;
    registerPartials workspaceRoot cfg fs ;;
    html <- _getHtmlForWebview fs extensionPath ;;
    setupFileWatchers workspaceRoot cfg fs ;;
    ret (Some html).

(** the callback of [this._panel.onDidDispose] *)
Definition onDidDispose : M state unit :=
  modify (set_panel false) ;;
  modify (set_watchers (fun _ => [])).

(** ** Reloading the helpers

    [registerHelpers] calls the [async] loader, which runs up to its [await]
    and hands back a promise; [autoRerender] runs before the continuation of
    the loader does. *)

Definition reloadHelpers_start (workspaceRoot : string) (cfg : settings) (fs : node)
    (requireResolve : string -> exn + string) : M state suspension :=
  showInformationMessage "Handlebars Live Preview: Reloading helpers..." ;;
  s <- loadCustomHelpers_start workspaceRoot cfg fs requireResolve ;;
  autoRerender ;;
  ret s.

(** ** Activation *)

(** [templateDirs.some(dir => existsSync(...))] on
    [config.get("templateDirectories") || []] *)
Definition hasConfiguredDirs (workspaceRoot : string) (cfg : settings) (fs : node) : bool :=
  let templateDirs :=
    match setting_templateDirectories cfg with
    | Some dirs => dirs
    | None => []
    end in
  existsb (fun dir => existsSync fs (absolute workspaceRoot dir)) templateDirs.

(** [activate], up to the [await] of the loader the constructor starts; the
    result is [None] when no provider is created *)
Definition activate (workspaceFolder : option string) (cfg : settings) (fs : node)
    (requireResolve : string -> exn + string) : M state (option suspension) :=
  match workspaceFolder with
  | None | Some "" =>
      showErrorMessage "No workspace folder found" ;;
      ret None
  | Some workspaceRoot =>
      s <- loadCustomHelpers_start workspaceRoot cfg fs requireResolve ;;
      (if negb (hasConfiguredDirs workspaceRoot cfg fs) then
         showInformationMessage
           "Handlebars Live Preview: No template directories found. Please configure 'handlebarsPreview.templateDirectories' in settings."
       else ret tt) ;;
      ret (Some s)
  end.

(** the extension folder beside the example workspace *)
Definition exampleInstallation : node :=
  Dir true
    [("ws", Dir true
       [("templates", Dir true [("x.hbs", File (Some "<p>hello</p>"))])]);
     ("ext", Dir true
       [("src", Dir true [("webview.html", File (Some "<html></html>"))])])].

(** a provider whose panel is closed *)
Definition closedPanel : state := set_panel false openPanel.

(** * Properties *)

(** ** Induction on file trees *)

Lemma node_induction (P : node -> Prop) :
  (forall stored, P (File stored)) ->
  P Dangling ->
  (forall listable files, Forall (fun e => P (snd e)) files -> P (Dir listable files)) ->
  forall n, P n.
Proof.
  intros HFile HDangling HDir.
  fix IH 1.
  intros [stored | listable files | ].
  - apply HFile.
  - apply HDir.
    induction files as [| [file target] rest IHrest]; constructor.
    + apply IH.
    + exact IHrest.
  - apply HDangling.
Qed.

(** ** The runtime model, on examples *)

Lemma path_join_examples :
  path.join "/ws" "templates" = "/ws/templates"
  /\ path.join "/ws/" "./a//b/../c.hbs" = "/ws/a/c.hbs"
  /\ path.join "/ws" "../.." = "/"
  /\ path.join "a" "../../b/" = "../b/"
  /\ path.join "" "" = ".".
Proof. repeat split. Qed.

Lemma string_method_examples :
  JsString.replace "/ws/t/a.hbs.hbs" ".hbs" "" = "/ws/t/a.hbs"
  /\ JsString.replace "/x/ws/y.hbs" "/ws/" "" = "/xy.hbs"
  /\ JsString.endsWith "a.hbs" ".hbs" = true
  /\ JsString.endsWith "hbs" ".hbs" = false
  /\ JsString.includes "ui/components/button" "components/" = true
  /\ JsString.includes "components" "components/" = false.
Proof. repeat split. Qed.

Lemma file_system_examples :
  existsSync exampleFs "/ws/templates" = true
  /\ existsSync exampleFs "/ws/nowhere" = false
  /\ resolve exampleFs (path.join "/ws/templates" "x.hbs") = Some (File (Some "<p>hello</p>"))
  /\ getTemplateDirectories "/ws" exampleSettings exampleFs = ["/ws/templates"]
  /\ getPartialsDirectories "/ws" separatePartials exampleFs = ["/ws/partials"].
Proof. repeat split. Qed.

Lemma lookupPath_examples :
  existsSync exampleFs "/ws/templates/" = true
  /\ existsSync exampleFs "/ws/templates/../templates/./a" = true
  /\ existsSync exampleFs "/ws/nowhere/../templates" = false
  /\ existsSync exampleFs "/ws/templates/x.hbs/" = false
  /\ existsSync exampleFs "" = false
  /\ lookupPath exampleFs "/ws/templates/x.hbs/y" = inl ENOTDIR
  /\ lookupPath exampleFs "/ws/templates/y.hbs" = inl ENOENT.
Proof. repeat split. Qed.

Lemma ownProperties_examples :
  map fst (ownProperties [("b", VNull); ("2", VNull); ("a", VNull); ("1", VNull)])
  = ["1"; "2"; "b"; "a"]
  /\ map fst (ownProperties [("10", VNull); ("9", VNull); ("01", VNull);
                              ("4294967295", VNull); ("0", VNull)])
     = ["0"; "9"; "10"; "01"; "4294967295"].
Proof. split; reflexivity. Qed.

(** ** The monad *)

Lemma forEach_nil {S X} (f : X -> M S unit) : forEach f [] = ret tt.
Proof. reflexivity. Qed.

Lemma forEach_cons {S X} (f : X -> M S unit) x xs :
  forEach f (x :: xs) = (f x ;; forEach f xs).
Proof. reflexivity. Qed.

Lemma tryCatch_returns {S A} (m : M S A) h s a s' :
  m s = (inr a, s') -> tryCatch m h s = (inr a, s').
Proof. intros H. unfold tryCatch. now rewrite H. Qed.

Lemma tryCatch_throws {S A} (m : M S A) h s e s' :
  m s = (inl e, s') -> tryCatch m h s = h e s'.
Proof. intros H. unfold tryCatch. now rewrite H. Qed.

(** ** Effects compose *)

(** ** Paths that name something *)

Lemma resolve_lookupPath root p n :
  resolve root p = Some n <-> lookupPath root p = inr n.
Proof.
  unfold resolve. destruct (lookupPath root p) as [e | m]; split; congruence.
Qed.

Lemma readFileSync_resolved {S} root p content :
  resolve root p = Some (File (Some content)) ->
  readFileSync (S := S) root p = ret content.
Proof.
  intros Hfile. apply resolve_lookupPath in Hfile.
  unfold readFileSync. now rewrite Hfile.
Qed.

Ltac unfold_state :=
  unfold effect, consoleLog, consoleWarn, consoleError, registerPartial,
    registerHelper, postMessage, showInformationMessage, showWarningMessage,
    showErrorMessage, modify, gets, ret, throw,
    set_console, set_posted, set_partials, set_helpers,
    set_templateDataCache, set_notifications, set_watchers, set_panel in *;
  cbn [fst snd _panel _watchers _templateDataCache partials helpers posted
       notifications console] in *.

Lemma registerAll_app regs1 regs2 table :
  registerAll (regs1 ++ regs2) table = registerAll regs2 (registerAll regs1 table).
Proof. unfold registerAll. apply fold_left_app. Qed.

Lemma effect_none st : effect [] [] [] st = st.
Proof. destruct st. unfold_state. cbn. now rewrite !app_nil_r. Qed.

Lemma effect_effect regs1 msgs1 logs1 regs2 msgs2 logs2 st :
  effect regs2 msgs2 logs2 (effect regs1 msgs1 logs1 st)
  = effect (regs1 ++ regs2) (msgs1 ++ msgs2) (logs1 ++ logs2) st.
Proof.
  destruct st. unfold_state.
  now rewrite registerAll_app, !app_assoc.
Qed.

Lemma consoleLog_effect s st :
  consoleLog s st = (inr tt, effect [] [] [Console LevelLog s] st).
Proof. destruct st. unfold_state. cbn. now rewrite app_nil_r. Qed.

Lemma consoleError_effect s st :
  consoleError s st = (inr tt, effect [] [] [Console LevelError s] st).
Proof. destruct st. unfold_state. cbn. now rewrite app_nil_r. Qed.

Lemma registerPartial_effect k content st :
  registerPartial k content st = (inr tt, effect [(k, content)] [] [] st).
Proof. destruct st. unfold_state. cbn. now rewrite !app_nil_r. Qed.

Lemma postMessage_effect m st :
  postMessage m st = (inr tt, effect [] [m] [] st).
Proof. destruct st. unfold_state. cbn. now rewrite !app_nil_r. Qed.

(** ** The registrar registers what it reaches *)

Lemma registerPartialsRecursively_effect ws n :
  forall dir, exists logs, forall st,
    registerPartialsRecursively ws dir n st
    = (inr tt, effect (registrations ws dir n) [] logs st).
Proof.
  induction n as [stored | | listable files IH] using node_induction; intros dir.
  - eexists. intros st. cbn. unfold tryCatch, throw. now rewrite consoleError_effect.
  - eexists. intros st. cbn. unfold tryCatch, throw. now rewrite consoleError_effect.
  - destruct listable.
    2: { eexists. intros st. cbn. unfold tryCatch, throw. now rewrite consoleError_effect. }
    unfold registrations. cbn [registerPartialsRecursively reached].
    match goal with |- context [forEach ?f files] => set (body := f) end.
    assert (Hloop : exists logs r, forall st,
      forEach body files st
      = (r, effect (flat_map (registrationsOf ws) (reachedAmong reached dir files))
                   [] logs st)).
    { induction files as [| [file target] rest IHrest].
      - exists [], (inr tt). intros st. cbn. now rewrite effect_none.
      - apply Forall_cons_iff in IH as [IHtarget IHfiles].
        destruct (IHrest IHfiles) as (logsRest & r & Hrest).
        cbn [snd] in IHtarget.
        destruct target as [stored | listable' files' | ].
        + (* a file *)
          cbn [reachedAmong]. rewrite forEach_cons. unfold body at 1.
          destruct (JsString.endsWith file ".hbs").
          2: { exists logsRest, r. intros st. unfold bind, ret. apply Hrest. }
          destruct stored as [content |].
          2: { eexists [], _. intros st. unfold bind, readContent, throw.
               now rewrite effect_none. }
          cbn [flat_map registrationsOf].
          fold (partialNameOf ws (path.join dir file)). fold (fileNameOf file).
          destruct (String.eqb (fileNameOf file) (partialNameOf ws (path.join dir file))).
          * eexists _, r. intros st. unfold readContent.
            unfold bind at 1. unfold ret at 1.
            unfold bind at 1. unfold bind at 1. rewrite registerPartial_effect.
            unfold bind at 1. rewrite consoleLog_effect.
            cbn [negb]. unfold ret at 1.
            rewrite Hrest, !effect_effect. reflexivity.
          * eexists _, r. intros st. unfold readContent.
            unfold bind at 1. unfold ret at 1.
            unfold bind at 1. unfold bind at 1. rewrite registerPartial_effect.
            unfold bind at 1. rewrite consoleLog_effect.
            cbn [negb]. unfold bind at 1. rewrite registerPartial_effect.
            rewrite consoleLog_effect.
            rewrite Hrest, !effect_effect. reflexivity.
        + (* a directory *)
          destruct (IHtarget (path.join dir file)) as (logsBelow & Hbelow).
          exists (logsBelow ++ logsRest), r. intros st.
          rewrite forEach_cons. unfold body at 1. unfold bind.
          rewrite Hbelow, Hrest, effect_effect.
          cbn [reachedAmong]. rewrite flat_map_app. reflexivity.
        + (* nothing to examine *)
          eexists [], _. intros st.
          rewrite forEach_cons. unfold body at 1. unfold bind, throw.
          cbn [reachedAmong flat_map]. now rewrite effect_none. }
    destruct Hloop as (logs & [e | []] & Hloop).
    + eexists. intros st. unfold tryCatch. rewrite Hloop.
      rewrite consoleError_effect, effect_effect, !app_nil_r. reflexivity.
    + exists logs. intros st. unfold tryCatch. now rewrite Hloop.
Qed.

Lemma registerPartials_loop ws fs dirs :
  exists logs, forall st,
    forEach (fun dir => registerPartialsRecursively ws dir (nodeAt fs dir)) dirs st
    = (inr tt,
       effect (flat_map (fun dir => registrations ws dir (nodeAt fs dir)) dirs)
         [] logs st).
Proof.
  induction dirs as [| dir rest (logsRest & Hrest)].
  - exists []. intros st. cbn. now rewrite effect_none.
  - destruct (registerPartialsRecursively_effect ws (nodeAt fs dir) dir) as (logs & Hdir).
    eexists. intros st. rewrite forEach_cons. unfold bind.
    rewrite Hdir, Hrest, effect_effect. reflexivity.
Qed.

Lemma panel_effect regs msgs logs st : _panel (effect regs msgs logs st) = _panel st.
Proof. reflexivity. Qed.

Lemma registerPartials_effect ws cfg fs :
  exists logs, forall st,
    registerPartials ws cfg fs st
    = (inr tt,
       effect (allRegistrations ws cfg fs)
         (if _panel st then [PartialsRegistered] else []) logs st).
Proof.
  destruct (registerPartials_loop ws fs (getPartialsDirectories ws cfg fs))
    as (logs & Hloop).
  eexists. intros st. unfold registerPartials.
  unfold bind at 1. rewrite consoleLog_effect.
  unfold bind at 1. rewrite consoleLog_effect.
  unfold bind at 1. rewrite Hloop.
  unfold bind at 1. unfold gets at 1. rewrite !panel_effect.
  unfold bind at 1.
  destruct (_panel st).
  - rewrite postMessage_effect, consoleLog_effect, !effect_effect.
    cbn [app]. rewrite !app_nil_r. reflexivity.
  - unfold ret at 1. rewrite consoleLog_effect, !effect_effect.
    cbn [app]. rewrite !app_nil_r. reflexivity.
Qed.

(** ** The scan only reads the file system *)

Lemma getTemplatesRecursively_effect ws n :
  forall dir baseDir, exists found logs, forall acc st,
    getTemplatesRecursively ws dir n baseDir (acc, st)
    = (inr tt, (acc ++ found, effect [] [] logs st)).
Proof.
  assert (Hcatch : forall text acc st,
    onState (L := list TemplateRecord) (consoleError text) (acc, st)
    = (inr tt, (acc ++ [], effect [] [] [Console LevelError text] st))).
  { intros. unfold onState. cbn [fst snd]. rewrite consoleError_effect.
    now rewrite app_nil_r. }
  induction n as [stored | | listable files IH] using node_induction;
    intros dir baseDir.
  - eexists [], _. intros acc st. cbn [getTemplatesRecursively].
    unfold tryCatch, throw. now rewrite Hcatch.
  - eexists [], _. intros acc st. cbn [getTemplatesRecursively].
    unfold tryCatch, throw. now rewrite Hcatch.
  - destruct listable.
    2: { eexists [], _. intros acc st. cbn [getTemplatesRecursively].
         unfold tryCatch, throw. now rewrite Hcatch. }
    cbn [getTemplatesRecursively].
    match goal with |- context [forEach ?f files] => set (body := f) end.
    assert (Hloop : exists found logs r, forall acc st,
      forEach body files (acc, st) = (r, (acc ++ found, effect [] [] logs st))).
    { induction files as [| [file target] rest IHrest].
      - exists [], [], (inr tt). intros acc st. cbn.
        now rewrite effect_none, app_nil_r.
      - apply Forall_cons_iff in IH as [IHtarget IHfiles].
        destruct (IHrest IHfiles) as (foundRest & logsRest & r & Hrest).
        cbn [snd] in IHtarget.
        rewrite forEach_cons. unfold body at 1.
        destruct target as [stored | listable' files' | ].
        + destruct (JsString.endsWith file ".hbs").
          * eexists (_ :: foundRest), logsRest, r. intros acc st.
            unfold bind, push, modify. cbn [fst snd].
            rewrite Hrest, <- app_assoc. reflexivity.
          * exists foundRest, logsRest, r. intros acc st. unfold bind, ret.
            apply Hrest.
        + destruct (IHtarget (path.join dir file) baseDir)
            as (foundBelow & logsBelow & Hbelow).
          exists (foundBelow ++ foundRest), (logsBelow ++ logsRest), r.
          intros acc st. unfold bind.
          rewrite Hbelow, Hrest, effect_effect, app_assoc. reflexivity.
        + eexists [], [], _. intros acc st. unfold bind, throw.
          now rewrite effect_none, app_nil_r. }
    destruct Hloop as (found & logs & [e | []] & Hloop).
    + eexists found, _. intros acc st. unfold tryCatch. rewrite Hloop, Hcatch.
      rewrite effect_effect, !app_nil_r. reflexivity.
    + exists found, logs. intros acc st. unfold tryCatch. now rewrite Hloop.
Qed.

Lemma getAvailableTemplates_effect ws cfg fs :
  exists found logs, forall st,
    getAvailableTemplates ws cfg fs st
    = (inr (List.filter (fun t => negb (JsString.includes (name t) "components/")) found),
       effect [] [] logs st).
Proof.
  assert (Hloop : forall dirs, exists found logs, forall acc st,
    forEach (fun dir => getTemplatesRecursively ws dir (nodeAt fs dir) dir) dirs (acc, st)
    = (inr tt, (acc ++ found, effect [] [] logs st))).
  { induction dirs as [| dir rest (foundRest & logsRest & Hrest)].
    - exists [], []. intros acc st. cbn. now rewrite effect_none, app_nil_r.
    - destruct (getTemplatesRecursively_effect ws (nodeAt fs dir) dir dir)
        as (found & logs & Hdir).
      exists (found ++ foundRest), (logs ++ logsRest). intros acc st.
      rewrite forEach_cons. unfold bind.
      rewrite Hdir, Hrest, effect_effect, app_assoc. reflexivity. }
  destruct (Hloop (getTemplateDirectories ws cfg fs)) as (found & logs & Hscan).
  exists found, logs. intros st. unfold getAvailableTemplates, bind, withLocal.
  rewrite Hscan. reflexivity.
Qed.

Lemma templateList_scan ws cfg fs :
  exists logs, forall st,
    getAvailableTemplates ws cfg fs st
    = (inr (templateList ws cfg fs), effect [] [] logs st).
Proof.
  destruct (getAvailableTemplates_effect ws cfg fs) as (found & logs & Hscan).
  exists logs. intros st. unfold templateList. now rewrite !Hscan.
Qed.

(** ** Template data store *)

(** C9: [clearTemplateData(name)] deletes the entry under the key
    [workspaceRoot + ":" + name] and nothing else; [getTemplateData(name)]
    then returns the empty object, as it does for every name under which the
    cache holds no entry. *)
Theorem clearTemplateData_then_getTemplateData ws templateName st other st0 :
  _templateDataCache st0 !! getTemplateDataKey ws other = None ->
  let cleared := snd (clearTemplateData ws templateName st) in
  fst (clearTemplateData ws templateName st) = inr tt
  /\ getTemplateDataKey ws templateName = ws +:+ ":" +:+ templateName
  /\ _templateDataCache cleared
     = delete (ws +:+ ":" +:+ templateName) (_templateDataCache st)
  /\ getTemplateData ws templateName cleared = (inr (JObject []), cleared)
  /\ getTemplateData ws other st0 = (inr (JObject []), st0).
Proof.
  intros Hfresh cleared. subst cleared.
  unfold clearTemplateData, getTemplateData, bind. unfold_state.
  repeat split.
  - now rewrite lookup_delete_eq.
  - now rewrite Hfresh.
Qed.

Lemma clearTemplateData_then_getTemplateData_witness :
  let st := set_templateDataCache (fun _ => {["/ws:x" := JBool true]}) openPanel in
  getTemplateData "/ws" "x" (snd (clearTemplateData "/ws" "x" st))
  = (inr (JObject []), snd (clearTemplateData "/ws" "x" st))
  /\ getTemplateData "/ws" "y" openPanel = (inr (JObject []), openPanel).
Proof.
  intros st.
  assert (Hfresh : _templateDataCache openPanel !! getTemplateDataKey "/ws" "y" = None)
    by reflexivity.
  destruct (clearTemplateData_then_getTemplateData "/ws" "x" st "y" openPanel Hfresh)
    as (_ & _ & _ & Hget & Hother).
  split; assumption.
Defined.

(** C10: [getTemplateData] returns the stored value only when it is truthy;
    for a stored [null], [false], [0] or [""] (any falsy value) it returns the
    empty object, as it does when nothing is stored. *)
Theorem getTemplateData_falsy ws templateName st stored :
  _templateDataCache st !! getTemplateDataKey ws templateName = stored ->
  let result := fst (getTemplateData ws templateName st) in
  snd (getTemplateData ws templateName st) = st
  /\ (stored = None -> result = inr (JObject []))
  /\ (forall v, stored = Some v -> truthy v = false -> result = inr (JObject []))
  /\ (forall v, stored = Some v -> truthy v = true -> result = inr v)
  /\ (forall v, stored = Some v -> result = inr v -> truthy v = true)
  /\ (forall v, stored = Some v ->
        In v [JNull; JBool false; JNumber 0; JString ""] -> result = inr (JObject [])).
Proof.
  intros Hstored result. subst result.
  unfold getTemplateData, bind. unfold_state. cbn [fst snd]. rewrite Hstored.
  split; [reflexivity |].
  split; [now intros -> |].
  assert (Hfalsy : forall v, stored = Some v -> truthy v = false ->
    inr (or_else (match stored with Some v0 => v0 | None => JUndefined end) (JObject []))
    = inr (A := exn) (JObject [])).
  { intros v -> Hv. unfold or_else. now rewrite Hv. }
  split; [exact Hfalsy |].
  split; [intros v -> Hv; unfold or_else; now rewrite Hv |].
  split.
  - intros v -> Hresult. unfold or_else in Hresult.
    destruct (truthy v) eqn:Hv; [reflexivity |].
    injection Hresult as <-. discriminate Hv.
  - intros v Hv Hin. apply (Hfalsy v Hv).
    cbn in Hin. destruct Hin as [<- | [<- | [<- | [<- | []]]]]; reflexivity.
Qed.

Lemma getTemplateData_falsy_witness :
  let st := set_templateDataCache (fun _ => {["/ws:x" := JNumber 0]}) openPanel in
  fst (getTemplateData "/ws" "x" st) = inr (JObject []).
Proof.
  intros st.
  assert (Hstored : _templateDataCache st !! getTemplateDataKey "/ws" "x"
                    = Some (JNumber 0)) by reflexivity.
  destruct (getTemplateData_falsy "/ws" "x" st _ Hstored) as (_ & _ & _ & _ & _ & Hlist).
  apply (Hlist (JNumber 0) eq_refl). cbn. auto.
Defined.

(** ** Render requests *)

Lemma find_no_match templateName (templates : list TemplateRecord) :
  (forall t, In t templates -> name t <> templateName) ->
  List.find (fun t => String.eqb (name t) templateName) templates = None.
Proof.
  intros Hnone. induction templates as [| t rest IH]; [reflexivity |].
  cbn. destruct (String.eqb_spec (name t) templateName) as [Heq | _].
  - exfalso. apply (Hnone t); [now left | exact Heq].
  - apply IH. intros t' Hin. apply Hnone. now right.
Qed.

Lemma postMessage_unchecked_open m st :
  _panel st = true ->
  postMessage_unchecked m st = (inr tt, set_posted (fun l => l ++ [m]) st).
Proof.
  intros Hopen. unfold postMessage_unchecked, bind, gets. now rewrite Hopen.
Qed.

(** C2: when no record of the scanned template list carries the requested
    name, [renderTemplate] throws [Template not found: <name>]; the handler
    of the [renderTemplate] message answers with that text as an [error]
    message, posts no [rendered] message, and leaves the template data cache
    as it was. *)
Theorem renderTemplate_not_found ws cfg fs engine templateName data st :
  _panel st = true ->
  (forall t, In t (templateList ws cfg fs) -> name t <> templateName) ->
  let notFound := "Template not found: " +:+ templateName in
  let request := RenderTemplate templateName data in
  let st' := snd (onDidReceiveMessage ws cfg fs engine request st) in
  fst (renderTemplate ws cfg fs engine templateName (or_else data (JObject [])) st)
    = inl (ErrorObject "Error" notFound)
  /\ fst (onDidReceiveMessage ws cfg fs engine request st) = inr tt
  /\ posted st' = posted st ++ [ErrorText notFound]
  /\ _templateDataCache st' = _templateDataCache st.
Proof.
  intros Hopen Hnone notFound request st'.
  destruct (templateList_scan ws cfg fs) as (logs & Hscan).
  assert (Hrender : forall d,
    renderTemplate ws cfg fs engine templateName d st
    = (inl (ErrorObject "Error" notFound), effect [] [] logs st)).
  { intros d. unfold renderTemplate, bind. rewrite Hscan.
    now rewrite (find_no_match _ _ Hnone). }
  assert (Hhandler : onDidReceiveMessage ws cfg fs engine request st
    = (inr tt, set_posted (fun l => l ++ [ErrorText notFound]) (effect [] [] logs st))).
  { unfold request, onDidReceiveMessage.
    erewrite tryCatch_throws by (unfold bind at 1; rewrite Hrender; reflexivity).
    now apply postMessage_unchecked_open. }
  subst st'. rewrite Hrender, Hhandler. unfold_state.
  repeat split. now rewrite app_nil_r.
Qed.

Lemma renderTemplate_not_found_witness :
  let request := RenderTemplate "missing" (JObject []) in
  let st' := snd (onDidReceiveMessage "/ws" exampleSettings exampleFs echoEngine
                    request openPanel) in
  posted st' = [ErrorText "Template not found: missing"]
  /\ _templateDataCache st' = ∅.
Proof.
  assert (Hopen : _panel openPanel = true) by reflexivity.
  assert (Hnone : forall t, In t (templateList "/ws" exampleSettings exampleFs) ->
                            name t <> "missing").
  { intros t Hin. vm_compute in Hin.
    destruct Hin as [<- | [<- | []]]; discriminate. }
  destruct (renderTemplate_not_found "/ws" exampleSettings exampleFs echoEngine
              "missing" (JObject []) openPanel Hopen Hnone) as (_ & _ & Hposted & Hcache).
  split; assumption.
Defined.

(** C3 as stated fails: a successful render of template [x] with the data
    [null] stores the empty object, and that is what [getTemplateData]
    returns afterwards. *)
Lemma renderTemplate_null_data_not_returned :
  let st' := snd (onDidReceiveMessage "/ws" exampleSettings exampleFs echoEngine
                    (RenderTemplate "x" JNull) openPanel) in
  posted st' = [PartialsRegistered; Rendered "<p>hello</p>"]
  /\ fst (getTemplateData "/ws" "x" st') = inr (JObject [])
  /\ fst (getTemplateData "/ws" "x" st') <> inr JNull.
Proof.
  vm_compute. repeat split. discriminate.
Qed.


Lemma renderTemplate_success ws cfg fs engine templateName d st html :
  fst (renderTemplate ws cfg fs engine templateName d st) = inr html ->
  exists regs logs,
    renderTemplate ws cfg fs engine templateName d st
    = (inr html,
       effect regs (if _panel st then [PartialsRegistered] else []) logs st).
Proof.
  destruct (templateList_scan ws cfg fs) as (logsScan & Hscan).
  destruct (registerPartials_effect ws cfg fs) as (logsReg & Hreg).
  intros Hok.
  destruct (renderTemplate ws cfg fs engine templateName d st) as [r final] eqn:Hrun.
  cbn [fst] in Hok. subst r. revert Hrun.
  unfold renderTemplate. unfold bind at 1. rewrite Hscan.
  destruct (List.find _ _) as [template |]; [| discriminate].
  unfold bind at 1. rewrite Hreg, effect_effect.
  unfold bind at 1. rewrite consoleLog_effect, effect_effect.
  unfold bind at 1. unfold gets at 1.
  unfold bind at 1. rewrite consoleLog_effect, effect_effect.
  unfold bind at 1. unfold gets at 1.
  unfold bind at 1.
  rewrite !panel_effect. cbn [app]. rewrite !app_nil_r.
  destruct (partials _ !! "plan-name") as [[| ? ?] |];
    rewrite consoleLog_effect, effect_effect;
    (unfold bind at 1; unfold readFileSync;
     destruct (lookupPath fs (fullPath template)) as [[|] | [[content |] | ? ? | ]];
     unfold throw, ret; try discriminate;
     unfold bind, gets; cbn [fst snd];
     match goal with |- context [engine ?p ?h ?c ?d] =>
       destruct (engine p h c d) as [e | out] end;
     unfold throw, ret; try discriminate;
     intros Heq; injection Heq as -> <-; rewrite ?app_nil_r;
     eexists _, _; reflexivity).
Qed.

Lemma or_else_object_truthy data : truthy (or_else data (JObject [])) = true.
Proof. unfold or_else. destruct (truthy data) eqn:H; [exact H | reflexivity]. Qed.

(** C3 (amended): a successful [renderTemplate] request stores the data it
    rendered with, which is the submitted data when that is truthy and the
    empty object otherwise; the store is written before the [rendered]
    message is posted, and [getTemplateData] then returns the stored value. *)
Theorem renderTemplate_saves_data ws cfg fs engine templateName data st html :
  _panel st = true ->
  fst (renderTemplate ws cfg fs engine templateName (or_else data (JObject [])) st)
    = inr html ->
  let used := or_else data (JObject []) in
  let request := RenderTemplate templateName data in
  let final := snd (onDidReceiveMessage ws cfg fs engine request st) in
  (exists saved,
      _templateDataCache saved !! getTemplateDataKey ws templateName = Some used
      /\ posted saved = posted st ++ [PartialsRegistered]
      /\ onDidReceiveMessage ws cfg fs engine request st
         = postMessage (Rendered html) saved)
  /\ posted final = posted st ++ [PartialsRegistered; Rendered html]
  /\ getTemplateData ws templateName final = (inr used, final)
  /\ (truthy data = true -> used = data).
Proof.
  intros Hopen Hok used request final. subst used request final.
  destruct (renderTemplate_success _ _ _ _ _ _ _ _ Hok) as (regs & logs & Hrun).
  rewrite Hopen in Hrun.
  set (used := or_else data (JObject [])) in *.
  set (rendered := effect regs [PartialsRegistered] logs st) in *.
  set (saved := set_templateDataCache
                  (fun cache => <[getTemplateDataKey ws templateName := used]> cache)
                  rendered).
  assert (Hhandler :
    onDidReceiveMessage ws cfg fs engine (RenderTemplate templateName data) st
    = postMessage (Rendered html) saved).
  { unfold onDidReceiveMessage. fold used.
    apply tryCatch_returns.
    unfold bind at 1. rewrite Hrun.
    unfold bind at 1. unfold saveTemplateData, modify. fold saved.
    rewrite postMessage_unchecked_open by (subst saved rendered; exact Hopen).
    reflexivity. }
  split.
  { exists saved. split; [| split; [| exact Hhandler]].
    - subst saved. unfold_state. apply lookup_insert_eq.
    - reflexivity. }
  rewrite Hhandler.
  split; [| split].
  - subst saved rendered. unfold_state. now rewrite <- app_assoc.
  - unfold getTemplateData, bind. unfold_state.
    subst saved. unfold_state. rewrite lookup_insert_eq.
    unfold or_else at 1. subst used.
    now rewrite or_else_object_truthy.
  - intros Htruthy. subst used. unfold or_else. now rewrite Htruthy.
Qed.

Lemma renderTemplate_saves_data_witness :
  let data := JObject [("a", JNumber 1)] in
  let final := snd (onDidReceiveMessage "/ws" exampleSettings exampleFs echoEngine
                      (RenderTemplate "x" data) openPanel) in
  posted final = [PartialsRegistered; Rendered "<p>hello</p>"]
  /\ getTemplateData "/ws" "x" final = (inr data, final).
Proof.
  intros data final.
  assert (Hopen : _panel openPanel = true) by reflexivity.
  assert (Hok : fst (renderTemplate "/ws" exampleSettings exampleFs echoEngine "x"
                       (or_else data (JObject [])) openPanel)
                = inr "<p>hello</p>") by (vm_compute; reflexivity).
  destruct (renderTemplate_saves_data "/ws" exampleSettings exampleFs echoEngine
              "x" data openPanel _ Hopen Hok) as (_ & Hposted & Hget & _).
  split; assumption.
Defined.

(** ** The template list *)

Lemma filter_map_filter {A B} (f : A -> B) (p : B -> bool) (l : list A) :
  List.filter p (map f (List.filter (fun x => p (f x)) l)) = List.filter p (map f l).
Proof.
  induction l as [| x l IH]; [reflexivity |].
  cbn. destruct (p (f x)) eqn:Hp; cbn; rewrite ?Hp, IH; reflexivity.
Qed.

Lemma getTemplateDirectories_existing ws cfg fs :
  getTemplateDirectories ws
    (withTemplateDirectories (existingTemplateDirectories ws cfg fs) cfg) fs
  = getTemplateDirectories ws cfg fs.
Proof.
  unfold getTemplateDirectories, existingTemplateDirectories. cbn.
  apply (filter_map_filter (absolute ws) (fun dir => existsSync fs dir)).
Qed.

(** C8: the template list is a function of the settings and the file system
    alone: two scans, from any two provider states, return the same list,
    hence the same set of records; neither fails.  Configured directories
    that do not exist play no part: the scan behaves as if only the existing
    ones were configured. *)
Theorem getAvailableTemplates_deterministic ws cfg fs st1 st2 :
  let first := getAvailableTemplates ws cfg fs st1 in
  let second := getAvailableTemplates ws cfg fs (snd first) in
  fst first = inr (templateList ws cfg fs)
  /\ fst second = fst first
  /\ fst (getAvailableTemplates ws cfg fs st2) = fst first
  /\ (forall t, In t (templateList ws cfg fs) <->
                exists templates, fst second = inr templates /\ In t templates)
  /\ getAvailableTemplates ws
       (withTemplateDirectories (existingTemplateDirectories ws cfg fs) cfg) fs st1
     = first
  /\ Forall (fun dir => existsSync fs dir = true) (getTemplateDirectories ws cfg fs).
Proof.
  intros first second. subst first second.
  assert (Hexisting :
    getAvailableTemplates ws
      (withTemplateDirectories (existingTemplateDirectories ws cfg fs) cfg) fs st1
    = getAvailableTemplates ws cfg fs st1).
  { unfold getAvailableTemplates. now rewrite getTemplateDirectories_existing. }
  rewrite Hexisting.
  destruct (templateList_scan ws cfg fs) as (logs & Hscan).
  rewrite !Hscan. cbn [fst snd].
  repeat split.
  - intros Hin. eauto.
  - intros (templates & [= <-] & Hin). exact Hin.
  - unfold getTemplateDirectories. apply List.Forall_forall. intros dir Hin.
    now apply filter_In in Hin as [_ Hexists].
Qed.

(** ** File watchers *)

Lemma refreshTemplates_effect ws cfg fs :
  exists logs, forall st,
    refreshTemplates ws cfg fs st
    = (inr tt,
       if _panel st
       then effect [] [Templates (templateList ws cfg fs)] logs st
       else st).
Proof.
  destruct (templateList_scan ws cfg fs) as (logs & Hscan).
  exists logs. intros st. unfold refreshTemplates, bind, gets.
  destruct (_panel st); [| reflexivity].
  rewrite Hscan, postMessage_effect, effect_effect, !app_nil_r. cbn [app]. reflexivity.
Qed.

Lemma autoRerender_effect st :
  autoRerender st
  = (inr tt,
     if _panel st
     then effect [] [AutoRerender]
            [Console LevelLog "Sending autoRerender command to webview"] st
     else st).
Proof.
  unfold autoRerender, bind, gets.
  destruct (_panel st); [| reflexivity].
  rewrite consoleLog_effect, postMessage_effect, effect_effect. reflexivity.
Qed.

Lemma setupFileWatchers_installs ws cfg fs st :
  let templateDirs := getTemplateDirectories ws cfg fs in
  let partialsDirs := getPartialsDirectories ws cfg fs in
  setupFileWatchers ws cfg fs st
  = (inr tt,
     set_watchers (fun installed =>
       installed
       ++ map (fun dir => createFileSystemWatcher ws dir TemplateDirectory) templateDirs
       ++ map (fun dir => createFileSystemWatcher ws dir PartialsDirectory)
            (List.filter (fun dir => negb (existsb (String.eqb dir) templateDirs))
               partialsDirs)) st).
Proof.
  intros templateDirs partialsDirs. unfold setupFileWatchers.
  fold templateDirs partialsDirs.
  assert (Hloop : forall (dirs : list string) (keep : string -> bool) loop st0,
    forEach (fun dir =>
      if keep dir then
        modify (set_watchers (fun installed =>
          installed ++ [createFileSystemWatcher ws dir loop]))
      else ret tt) dirs st0
    = (inr tt,
       set_watchers (fun installed =>
         installed ++ map (fun dir => createFileSystemWatcher ws dir loop)
                        (List.filter keep dirs)) st0)).
  { induction dirs as [| dir rest IH]; intros keep loop st0.
    - destruct st0. cbn. unfold ret, set_watchers. cbn. now rewrite app_nil_r.
    - rewrite forEach_cons. unfold bind. cbn [List.filter].
      destruct (keep dir).
      + unfold modify at 1. rewrite IH. destruct st0. unfold set_watchers. cbn.
        now rewrite <- app_assoc.
      + unfold ret at 1. apply IH. }
  unfold bind.
  rewrite (Hloop templateDirs (fun _ => true) TemplateDirectory st).
  rewrite (Hloop partialsDirs
             (fun dir => negb (existsb (String.eqb dir) templateDirs))
             PartialsDirectory).
  assert (Hall : forall l : list string, List.filter (fun _ => true) l = l).
  { induction l as [| d l IH]; cbn; [reflexivity | now rewrite IH]. }
  destruct st. unfold_state. now rewrite Hall, <- app_assoc.
Qed.

(** C7 as stated fails: the watcher of a partials directory that is not a
    template directory, on a change event, re-registers the partials and
    posts nothing else; the template list is not refreshed. *)
Lemma partials_watcher_does_not_refresh :
  let w := createFileSystemWatcher "/ws" "/ws/partials" PartialsDirectory in
  In w (_watchers (snd (setupFileWatchers "/ws" separatePartials exampleFs openPanel)))
  /\ posted (snd (deliver "/ws" separatePartials exampleFs w DidChange openPanel))
     = [PartialsRegistered]
  /\ templateList "/ws" separatePartials exampleFs <> [].
Proof.
  vm_compute. repeat split; [auto | discriminate].
Qed.

(** C7 (amended): every event a watcher delivers re-registers the partials.
    A watcher installed for a template directory then refreshes the template
    list and, on a change event only, sends one re-render signal; create and
    delete events send none.  A watcher installed for a partials directory
    that is not a template directory does neither.  The messages go out
    while the panel is open; [setupFileWatchers] installs one watcher of the
    first kind per existing template directory and one of the second kind per
    other existing partials directory. *)
Theorem watcher_event ws cfg fs w ev st :
  let st' := snd (deliver ws cfg fs w ev st) in
  let signal := match ev with DidChange => [AutoRerender] | _ => [] end in
  fst (deliver ws cfg fs w ev st) = inr tt
  /\ partials st' = partials (snd (registerPartials ws cfg fs st))
  /\ posted st'
     = posted st
       ++ (if _panel st then
             PartialsRegistered
               :: match installedFor w with
                  | TemplateDirectory => Templates (templateList ws cfg fs) :: signal
                  | PartialsDirectory => []
                  end
           else [])
  /\ _watchers (snd (setupFileWatchers ws cfg fs st))
     = _watchers st
       ++ map (fun dir => createFileSystemWatcher ws dir TemplateDirectory)
            (getTemplateDirectories ws cfg fs)
       ++ map (fun dir => createFileSystemWatcher ws dir PartialsDirectory)
            (List.filter
               (fun dir => negb (existsb (String.eqb dir) (getTemplateDirectories ws cfg fs)))
               (getPartialsDirectories ws cfg fs)).
Proof.
  intros st' signal. subst st' signal.
  destruct (registerPartials_effect ws cfg fs) as (logsReg & Hreg).
  destruct (refreshTemplates_effect ws cfg fs) as (logsScan & Hrefresh).
  split; [| split; [| split]].
  4: { now rewrite setupFileWatchers_installs. }
  all: destruct w as [pattern []], ev;
    unfold deliver, onDidChange, onDidCreate, onDidDelete; cbn [installedFor];
    unfold bind; rewrite ?Hreg, ?Hrefresh, ?autoRerender_effect; cbn [fst snd];
    rewrite ?panel_effect; destruct (_panel st) eqn:Hpanel;
    rewrite ?panel_effect, ?Hpanel, ?effect_effect; unfold_state;
    rewrite ?app_nil_r, <- ?app_assoc; reflexivity.
Qed.

(** ** Strings: replacing the first occurrence *)

Lemma replace_unfold s pat rep :
  JsString.replace s pat rep
  = if JsString.startsWith s pat then rep +:+ JsString.slice (String.length pat) s
    else match s with
         | EmptyString => EmptyString
         | String c s' => String c (JsString.replace s' pat rep)
         end.
Proof. destruct s; reflexivity. Qed.

Lemma indexOf_unfold s pat :
  JsString.indexOf s pat
  = if JsString.startsWith s pat then Some 0
    else match s with
         | EmptyString => None
         | String _ s' => option_map S (JsString.indexOf s' pat)
         end.
Proof. destruct s; reflexivity. Qed.

Lemma append_cons a p s : String a p +:+ s = String a (p +:+ s).
Proof. reflexivity. Qed.

Lemma startsWith_append p s : JsString.startsWith (p +:+ s) p = true.
Proof.
  induction p as [| a p IH]; [reflexivity |].
  rewrite append_cons. cbn. now rewrite Ascii.eqb_refl.
Qed.

Lemma slice_append p s : JsString.slice (String.length p) (p +:+ s) = s.
Proof. induction p as [| a p IH]; [reflexivity | exact IH]. Qed.

Lemma sliceTo_append p s : JsString.sliceTo (String.length p) (p +:+ s) = p.
Proof.
  induction p as [| a p IH]; [now destruct s |].
  rewrite append_cons. cbn. now rewrite IH.
Qed.

Lemma slice_all p s :
  JsString.slice (String.length p + String.length s) (p +:+ s) = EmptyString.
Proof.
  induction p as [| a p IH]; [| exact IH].
  cbn. induction s as [| b s IHs]; [reflexivity | exact IHs].
Qed.

Lemma append_empty s : s +:+ EmptyString = s.
Proof. induction s as [| a s IH]; [reflexivity | now rewrite append_cons, IH]. Qed.

Lemma append_associative a b c : (a +:+ b) +:+ c = a +:+ (b +:+ c).
Proof. induction a as [| x a IH]; [reflexivity | now rewrite !append_cons, IH]. Qed.

Lemma replace_prefix p s : JsString.replace (p +:+ s) p EmptyString = s.
Proof. now rewrite replace_unfold, startsWith_append, slice_append. Qed.

Lemma replace_at s pat rep :
  forall i, JsString.indexOf s pat = Some i ->
    JsString.replace s pat rep
    = JsString.sliceTo i s +:+ rep +:+ JsString.slice (i + String.length pat) s.
Proof.
  induction s as [| c s IH]; intros i; rewrite indexOf_unfold, replace_unfold.
  - destruct (JsString.startsWith EmptyString pat); [| discriminate].
    now intros [= <-].
  - destruct (JsString.startsWith (String c s) pat).
    + now intros [= <-].
    + destruct (JsString.indexOf s pat) as [j |]; [| discriminate].
      intros [= <-]. cbn. now rewrite (IH j eq_refl).
Qed.

(** a name whose first [".hbs"] is its extension loses exactly that *)
Lemma replace_extension stem :
  JsString.indexOf (stem +:+ ".hbs") ".hbs" = Some (String.length stem) ->
  JsString.replace (stem +:+ ".hbs") ".hbs" EmptyString = stem.
Proof.
  intros Hfirst. rewrite (replace_at _ _ _ _ Hfirst).
  rewrite sliceTo_append, (slice_all stem ".hbs"). cbn. apply append_empty.
Qed.

(** ** Paths and the file tree *)

Lemma split_cons_char a s :
  JsString.split "/" (String a s)
  = if Ascii.eqb a "/" then EmptyString :: JsString.split "/" s
    else match JsString.split "/" s with
         | seg :: segs => String a seg :: segs
         | [] => [String a EmptyString]
         end.
Proof. reflexivity. Qed.

Lemma split_nonempty s : JsString.split "/" s <> [].
Proof.
  induction s as [| a s IH]; [discriminate |].
  rewrite split_cons_char. destruct (Ascii.eqb a "/"); [discriminate |].
  destruct (JsString.split "/" s); [contradiction | discriminate].
Qed.

Lemma split_append a b :
  JsString.split "/" (a +:+ "/" +:+ b) = JsString.split "/" a ++ JsString.split "/" b.
Proof.
  induction a as [| c a IH].
  - reflexivity.
  - rewrite append_cons, !split_cons_char. destruct (Ascii.eqb c "/").
    + now rewrite IH.
    + rewrite IH. pose proof (split_nonempty a) as Hne.
      destruct (JsString.split "/" a); [contradiction | reflexivity].
Qed.

Lemma startsWith_slash a s :
  JsString.startsWith (String a s) "/" = Ascii.eqb a "/".
Proof.
  change (JsString.startsWith (String a s) "/")
    with (if Ascii.eqb "/" a then true else false).
  destruct (Ascii.eqb_spec "/" a) as [<- | Hne].
  - now rewrite Ascii.eqb_refl.
  - destruct (Ascii.eqb_spec a "/"); [congruence | reflexivity].
Qed.

Lemma noSlash_cons a s :
  noSlash (String a s) = negb (Ascii.eqb a "/") && noSlash s.
Proof.
  unfold noSlash, JsString.includes.
  rewrite indexOf_unfold, startsWith_slash.
  destruct (Ascii.eqb a "/"); [reflexivity |].
  cbn. now destruct (JsString.indexOf s "/").
Qed.

Lemma split_noSlash s : noSlash s = true -> JsString.split "/" s = [s].
Proof.
  induction s as [| a s IH]; [reflexivity |].
  rewrite noSlash_cons, split_cons_char.
  intros [Ha Hs]%andb_true_iff. apply negb_true_iff in Ha. rewrite Ha.
  now rewrite (IH Hs).
Qed.

Lemma split_segments_noSlash s : Forall (fun seg => noSlash seg = true) (JsString.split "/" s).
Proof.
  induction s as [| a s IH]; [repeat constructor |].
  rewrite split_cons_char. destruct (Ascii.eqb a "/") eqn:Ha.
  - constructor; [reflexivity | exact IH].
  - destruct (JsString.split "/" s) as [| seg segs].
    + repeat constructor. rewrite noSlash_cons, Ha. reflexivity.
    + apply Forall_cons_iff in IH as [Hseg Hsegs]. constructor; [| exact Hsegs].
      rewrite noSlash_cons, Ha. exact Hseg.
Qed.

Lemma pushSegment_plain b acc seg :
  plainName seg = true -> path.pushSegment b acc seg = seg :: acc.
Proof.
  unfold plainName, path.pushSegment.
  intros [[[H1 H2]%andb_true_iff H3]%andb_true_iff _]%andb_true_iff.
  apply negb_true_iff in H1, H2, H3. now rewrite H1, H2, H3.
Qed.

Lemma pushSegment_keeps_plain acc seg :
  Forall (fun s => plainName s = true) acc ->
  noSlash seg = true ->
  Forall (fun s => plainName s = true) (path.pushSegment false acc seg).
Proof.
  intros Hacc Hseg. unfold path.pushSegment.
  destruct (String.eqb seg "") eqn:H1; [exact Hacc |].
  destruct (String.eqb seg ".") eqn:H2; [exact Hacc |].
  cbn [orb].
  destruct (String.eqb seg "..") eqn:H3.
  - destruct acc as [| last before]; [constructor |].
    apply Forall_cons_iff in Hacc as [Hlast Hbefore].
    destruct (String.eqb last ".."); [now constructor | exact Hbefore].
  - constructor; [| exact Hacc].
    unfold plainName. now rewrite H1, H2, H3, Hseg.
Qed.

Lemma normalizeSegments_plain p :
  Forall (fun s => plainName s = true) (path.normalizeSegments false p).
Proof.
  unfold path.normalizeSegments. apply Forall_rev.
  assert (H : forall segs acc,
    Forall (fun seg => noSlash seg = true) segs ->
    Forall (fun s => plainName s = true) acc ->
    Forall (fun s => plainName s = true) (fold_left (path.pushSegment false) segs acc)).
  { induction segs as [| seg segs IH]; intros acc Hsegs Hacc; [exact Hacc |].
    apply Forall_cons_iff in Hsegs as [Hseg Hsegs]. cbn.
    apply IH; [exact Hsegs | now apply pushSegment_keeps_plain]. }
  apply H; [apply split_segments_noSlash | constructor].
Qed.

Lemma normalizeSegments_child b dir file :
  plainName file = true ->
  path.normalizeSegments b (dir +:+ "/" +:+ file) = path.normalizeSegments b dir ++ [file].
Proof.
  intros Hplain. unfold path.normalizeSegments.
  rewrite split_append, fold_left_app.
  assert (Hslash : noSlash file = true).
  { unfold plainName in Hplain. now apply andb_true_iff in Hplain as [_ ?]. }
  rewrite (split_noSlash file Hslash). cbn [fold_left].
  now rewrite pushSegment_plain.
Qed.

Lemma join_cons2 sep a b rest :
  JsString.join sep (a :: b :: rest) = a +:+ sep +:+ JsString.join sep (b :: rest).
Proof. reflexivity. Qed.

Lemma plain_noSlash s : plainName s = true -> noSlash s = true.
Proof. unfold plainName. now intros [_ ?]%andb_true_iff. Qed.

Lemma plain_nonempty s : plainName s = true -> s <> EmptyString.
Proof. intros H ->. discriminate H. Qed.

Lemma split_join segs :
  Forall (fun s => plainName s = true) segs -> segs <> [] ->
  JsString.split "/" (JsString.join "/" segs) = segs.
Proof.
  induction segs as [| a [| b rest] IH]; intros Hplain Hne.
  - contradiction.
  - apply Forall_cons_iff in Hplain as [Ha _]. cbn [JsString.join].
    now apply split_noSlash, plain_noSlash.
  - apply Forall_cons_iff in Hplain as [Ha Hrest].
    rewrite join_cons2, split_append, IH by (auto; discriminate).
    now rewrite (split_noSlash a (plain_noSlash a Ha)).
Qed.

Lemma fold_push_plain b segs : forall acc,
  Forall (fun s => plainName s = true) segs ->
  fold_left (path.pushSegment b) segs acc = rev segs ++ acc.
Proof.
  induction segs as [| seg segs IH]; intros acc Hplain; [reflexivity |].
  apply Forall_cons_iff in Hplain as [Hseg Hsegs]. cbn [fold_left rev].
  rewrite pushSegment_plain by exact Hseg.
  rewrite IH by exact Hsegs. now rewrite <- app_assoc.
Qed.

(** a normalized absolute path names its own segments *)
Lemma normalizeSegments_normalized b segs :
  Forall (fun s => plainName s = true) segs ->
  path.normalizeSegments b ("/" +:+ JsString.join "/" segs) = segs.
Proof.
  intros Hplain. unfold path.normalizeSegments.
  destruct segs as [| seg segs]; [reflexivity |].
  change ("/" +:+ JsString.join "/" (seg :: segs))
    with (EmptyString +:+ "/" +:+ JsString.join "/" (seg :: segs)).
  rewrite split_append, split_join by (auto; discriminate).
  rewrite fold_left_app.
  change (fold_left (path.pushSegment b) (JsString.split "/" "") []) with (@nil string).
  rewrite fold_push_plain by exact Hplain.
  now rewrite app_nil_r, rev_involutive.
Qed.

Lemma join_segments_nonempty segs file :
  file <> EmptyString -> JsString.join "/" (segs ++ [file]) <> EmptyString.
Proof.
  intros Hfile. induction segs as [| a [| b rest] IH]; cbn [app] in *.
  - exact Hfile.
  - cbn [JsString.join]. destruct a; [discriminate | discriminate].
  - rewrite join_cons2. destruct a; discriminate.
Qed.

Lemma length_append_string a b :
  String.length (a +:+ b) = String.length a + String.length b.
Proof. induction a as [| c a IH]; [reflexivity | rewrite append_cons; cbn; now rewrite IH]. Qed.

Lemma slice_past a b n :
  JsString.slice (String.length a + n) (a +:+ b) = JsString.slice n b.
Proof. induction a as [| c a IH]; [reflexivity | exact IH]. Qed.

Lemma slice_noSlash s : noSlash s = true -> forall k, JsString.slice k s <> "/".
Proof.
  induction s as [| a s IH]; intros Hs k.
  - destruct k; discriminate.
  - rewrite noSlash_cons in Hs. apply andb_true_iff in Hs as [Ha Hs].
    destruct k as [| k].
    + cbn. intros [= -> ->]. discriminate Ha.
    + cbn. now apply IH.
Qed.

Lemma endsWith_plain x file :
  plainName file = true -> JsString.endsWith (x +:+ file) "/" = false.
Proof.
  intros Hplain. unfold JsString.endsWith.
  apply andb_false_iff. right.
  assert (Hlen : String.length (x +:+ file) - String.length "/"
                 = String.length x + (String.length file - 1)).
  { rewrite length_append_string. cbn.
    destruct file; [discriminate Hplain | cbn; lia]. }
  rewrite Hlen, slice_past.
  apply String.eqb_neq. now apply slice_noSlash, plain_noSlash.
Qed.

(** [join(dir, file)] for an absolute directory path and an entry name *)
Lemma join_entry dir file :
  path.isAbsolute dir = true ->
  plainName file = true ->
  path.join dir file
  = "/" +:+ JsString.join "/" (path.normalizeSegments false dir ++ [file]).
Proof.
  intros Habs Hplain.
  assert (Hdir : String.eqb dir "" = false) by (destruct dir; [discriminate | reflexivity]).
  assert (Hfile : String.eqb file "" = false) by (destruct file; [discriminate | reflexivity]).
  unfold path.join. cbn [List.filter]. rewrite Hdir, Hfile. cbn [negb].
  change (JsString.join "/" [dir; file]) with (dir +:+ "/" +:+ file).
  unfold path.normalize.
  assert (Habs' : path.isAbsolute (dir +:+ "/" +:+ file) = true).
  { destruct dir as [| c dir]; [discriminate |]. exact Habs. }
  assert (Hne : String.eqb (dir +:+ "/" +:+ file) "" = false).
  { destruct dir; [discriminate | reflexivity]. }
  rewrite Hne, Habs'. cbn [negb].
  rewrite <- (append_associative dir "/" file), endsWith_plain by exact Hplain.
  rewrite (append_associative dir "/" file).
  unfold path.normalizeString. rewrite normalizeSegments_child by exact Hplain.
  destruct (String.eqb_spec (JsString.join "/" (path.normalizeSegments false dir ++ [file])) "")
    as [Hempty | _]; [| reflexivity].
  exfalso. revert Hempty. apply join_segments_nonempty. now apply plain_nonempty.
Qed.

Lemma descend_app n segs more :
  descend n (segs ++ more)
  = match descend n segs with
    | Some below => descend below more
    | None => None
    end.
Proof.
  revert n. induction segs as [| seg segs IH]; intros n; [reflexivity |].
  cbn. destruct (child n seg); [apply IH | reflexivity].
Qed.

Lemma trail_descend root names : forall above n,
  trail root names above n -> descend root (rev names) = Some n.
Proof.
  induction names as [| seg names IH]; intros above n Htrail.
  - destruct above; [| contradiction]. cbn in Htrail. now subst.
  - destruct above as [| parent above]; [contradiction |].
    destruct Htrail as (_ & Hchild & Htrail).
    cbn [rev]. rewrite descend_app, (IH _ _ Htrail). cbn. now rewrite Hchild.
Qed.

(** a lookup that succeeds finds what the normalized path names *)
Lemma walk_descend root segs : forall names above n found,
  trail root names above n ->
  walk above n segs = inr found ->
  descend root (rev (fold_left (path.pushSegment false) segs names)) = Some found.
Proof.
  induction segs as [| seg segs IH]; intros names above n found Htrail Hwalk.
  - cbn in *. injection Hwalk as <-. now apply (trail_descend _ _ above).
  - cbn [walk fold_left] in *.
    destruct n as [| listable entries |]; try discriminate.
    unfold path.pushSegment.
    destruct (String.eqb seg "" || String.eqb seg ".");
      [now apply (IH _ above (Dir listable entries)) |].
    destruct (String.eqb seg "..") eqn:Hup.
    + destruct names as [| last before], above as [| parent higher];
        try contradiction.
      * now apply (IH _ [] (Dir listable entries)).
      * destruct Htrail as (Hlast & _ & Htrail).
        apply String.eqb_neq in Hlast. rewrite Hlast.
        now apply (IH _ higher parent).
    + destruct (child (Dir listable entries) seg) as [c |] eqn:Hchild; [| discriminate].
      apply (IH _ (Dir listable entries :: above) c); [| exact Hwalk].
      repeat split; [now apply String.eqb_neq | exact Hchild | exact Htrail].
Qed.

Lemma resolve_descend root p n :
  resolve root p = Some n -> descend root (path.normalizeSegments false p) = Some n.
Proof.
  intros Hfound. apply resolve_lookupPath in Hfound. unfold lookupPath in Hfound.
  destruct (String.eqb p ""); [discriminate |].
  unfold path.normalizeSegments.
  now apply (walk_descend root _ [] [] root).
Qed.

Lemma walk_plain segs : forall above n,
  Forall (fun s => plainName s = true) segs ->
  match walk above n segs with
  | inr found => Some found
  | inl _ => None
  end = descend n segs.
Proof.
  induction segs as [| seg segs IH]; intros above n Hplain; [reflexivity |].
  apply Forall_cons_iff in Hplain as [Hseg Hsegs].
  cbn [walk descend].
  unfold plainName in Hseg.
  apply andb_true_iff in Hseg as [[[H1 H2]%andb_true_iff H3]%andb_true_iff _].
  apply negb_true_iff in H1, H2, H3.
  destruct n as [| listable entries |]; [reflexivity | | reflexivity].
  rewrite H1, H2, H3. cbn [orb].
  destruct (child (Dir listable entries) seg); [now apply IH | reflexivity].
Qed.

(** a normalized absolute path names what its segments lead to *)
Lemma resolve_normalized root segs :
  Forall (fun s => plainName s = true) segs -> segs <> [] ->
  resolve root ("/" +:+ JsString.join "/" segs) = descend root segs.
Proof.
  intros Hplain Hne. unfold resolve, lookupPath.
  change (String.eqb ("/" +:+ JsString.join "/" segs) "") with false. cbv iota.
  change ("/" +:+ JsString.join "/" segs)
    with (EmptyString +:+ "/" +:+ JsString.join "/" segs).
  rewrite split_append, split_join by assumption.
  change (JsString.split "/" "" ++ segs) with (EmptyString :: segs).
  cbn [walk]. destruct root as [| listable entries |].
  - destruct segs; [contradiction | reflexivity].
  - change (String.eqb "" "" || String.eqb "" ".") with true. cbv iota.
    now apply walk_plain.
  - destruct segs; [contradiction | reflexivity].
Qed.

(** [statSync(join(dir, file))] looks at the entry [file] of [dir] *)
Lemma resolve_entry fs dir file n :
  path.isAbsolute dir = true ->
  plainName file = true ->
  resolve fs dir = Some n ->
  resolve fs (path.join dir file) = child n file
  /\ path.isAbsolute (path.join dir file) = true.
Proof.
  intros Habs Hplain Hdir. rewrite join_entry by assumption.
  split; [| reflexivity].
  apply resolve_descend in Hdir.
  rewrite resolve_normalized.
  - rewrite descend_app, Hdir. cbn. now destruct (child n file).
  - apply Forall_app. split; [apply normalizeSegments_plain | now repeat constructor].
  - now destruct (path.normalizeSegments false dir).
Qed.

Lemma child_entry listable files file target :
  distinct (map fst files) = true ->
  In (file, target) files ->
  child (Dir listable files) file = Some target.
Proof.
  unfold child. induction files as [| [f t] rest IH]; [intros _ [] |].
  cbn [map fst distinct List.find]. intros [Hfresh Hrest]%andb_true_iff Hin.
  destruct (String.eqb_spec f file) as [-> | Hne].
  - destruct Hin as [[= ->] | Hin]; [reflexivity |].
    exfalso. apply negb_true_iff in Hfresh.
    assert (Hthere : existsb (String.eqb file) (map fst rest) = true).
    { apply existsb_exists. exists file. split; [| apply String.eqb_refl].
      apply in_map_iff. now exists (file, target). }
    congruence.
  - destruct Hin as [[= -> _] | Hin]; [contradiction |].
    now apply IH.
Qed.

(** every partial file the walk reaches is the file its path names, with
    the text [readFileSync] returns for that path *)
Lemma reached_on_disk fs n :
  forall dir,
    wellFormed n = true ->
    path.isAbsolute dir = true ->
    resolve fs dir = Some n ->
    Forall (fun found => resolve fs (fst (fst found)) = Some (File (Some (snd found))))
      (reached dir n).
Proof.
  induction n as [stored | | listable files IH] using node_induction;
    intros dir Hwf Habs Hdir; try constructor.
  destruct listable; [| constructor].
  cbn [reached]. cbn [wellFormed] in Hwf.
  apply andb_true_iff in Hwf as [Hdistinct Hentries].
  assert (Hloop : forall rest, (forall e, In e rest -> In e files) ->
    Forall (fun found => resolve fs (fst (fst found)) = Some (File (Some (snd found))))
      (reachedAmong reached dir rest)).
  { induction rest as [| [file target] rest IHrest]; intros Hsub; [constructor |].
    assert (Hin : In (file, target) files) by (apply Hsub; now left).
    assert (Hrest : forall e, In e rest -> In e files) by (intros e He; apply Hsub; now right).
    pose proof (proj1 (forallb_forall _ _) Hentries _ Hin) as Hentry.
    cbn [fst snd] in Hentry. apply andb_true_iff in Hentry as [Hplain Hwf].
    destruct (resolve_entry fs dir file _ Habs Hplain Hdir) as [Hresolve Habs'].
    rewrite (child_entry _ _ _ _ Hdistinct Hin) in Hresolve.
    cbn [reachedAmong].
    destruct target as [stored | listable' files' | ].
    - destruct (JsString.endsWith file ".hbs"); [| now apply IHrest].
      destruct stored as [content |]; [| constructor].
      constructor; [exact Hresolve | now apply IHrest].
    - apply Forall_app. split; [| now apply IHrest].
      pose proof (proj1 (List.Forall_forall _ _) IH _ Hin) as IHtarget.
      now apply IHtarget.
    - constructor. }
  apply Hloop. auto.
Qed.

Lemma wellFormed_descend segs : forall n below,
  wellFormed n = true -> descend n segs = Some below -> wellFormed below = true.
Proof.
  induction segs as [| seg segs IH]; intros n below Hwf; [now intros [= <-] |].
  cbn [descend]. destruct (child n seg) as [c |] eqn:Hchild; [| discriminate].
  apply IH. destruct n as [| listable files |]; try discriminate.
  cbn [child] in Hchild.
  destruct (List.find _ files) as [e |] eqn:Hfind; [| discriminate].
  injection Hchild as <-. apply find_some in Hfind as [Hin _].
  cbn [wellFormed] in Hwf. apply andb_true_iff in Hwf as [_ Hentries].
  pose proof (proj1 (forallb_forall _ _) Hentries _ Hin) as Hentry.
  now apply andb_true_iff in Hentry as [_ ?].
Qed.

Lemma wellFormed_resolve fs p n :
  wellFormed fs = true -> resolve fs p = Some n -> wellFormed n = true.
Proof.
  intros Hwf Hfound. apply resolve_descend in Hfound.
  exact (wellFormed_descend _ _ _ Hwf Hfound).
Qed.

Lemma normalize_absolute p :
  path.isAbsolute p = true -> path.isAbsolute (path.normalize p) = true.
Proof.
  intros Habs. unfold path.normalize.
  destruct (String.eqb_spec p "") as [-> | _]; [discriminate |].
  rewrite Habs. now destruct (String.eqb _ "").
Qed.

Lemma absolute_isAbsolute ws dir :
  path.isAbsolute ws = true -> path.isAbsolute (absolute ws dir) = true.
Proof.
  intros Hws. unfold absolute.
  destruct (JsString.startsWith dir "/") eqn:Hdir; [exact Hdir |].
  unfold path.join. cbn [List.filter].
  destruct ws as [| c ws]; [discriminate |].
  change (negb (String.eqb (String c ws) "")) with true. cbv iota.
  destruct (negb (String.eqb dir "")); apply normalize_absolute; exact Hws.
Qed.

Lemma partials_root_on_disk ws cfg fs dir :
  path.isAbsolute ws = true ->
  In dir (getPartialsDirectories ws cfg fs) ->
  path.isAbsolute dir = true /\ resolve fs dir = Some (nodeAt fs dir).
Proof.
  intros Hws Hin. unfold getPartialsDirectories in Hin.
  apply filter_In in Hin as [Hmapped Hexists].
  apply in_map_iff in Hmapped as (d & <- & _).
  split; [now apply absolute_isAbsolute |].
  unfold existsSync in Hexists. unfold nodeAt.
  now destruct (resolve fs (absolute ws d)).
Qed.

(** ** The partial table after registration *)

Lemma registerAll_lookup regs : forall (table : gmap string string) key,
  registerAll regs table !! key
  = match lastRegistered key regs with
    | Some text => Some text
    | None => table !! key
    end.
Proof.
  induction regs as [| [k content] rest IH]; intros table key; [reflexivity |].
  change (registerAll ((k, content) :: rest) table)
    with (registerAll rest (<[k := content]> table)).
  rewrite IH. cbn [lastRegistered].
  destruct (lastRegistered key rest); [reflexivity |].
  destruct (String.eqb_spec k key) as [-> | Hne].
  - apply lookup_insert_eq.
  - now apply lookup_insert_ne.
Qed.

Lemma lastRegistered_some key text regs :
  In (key, text) regs -> exists last, lastRegistered key regs = Some last.
Proof.
  induction regs as [| [k content] rest IH]; [intros [] |].
  intros [[= -> ->] | Hin]; cbn.
  - destruct (lastRegistered key rest); [eauto |].
    rewrite String.eqb_refl. eauto.
  - destruct (IH Hin) as (last & ->). eauto.
Qed.

Lemma lastRegistered_registered key text regs :
  lastRegistered key regs = Some text -> In (key, text) regs.
Proof.
  induction regs as [| [k content] rest IH]; [discriminate |].
  cbn. destruct (lastRegistered key rest) as [later |].
  - intros [= <-]. right. now apply IH.
  - destruct (String.eqb_spec k key) as [-> | _]; [| discriminate].
    intros [= <-]. now left.
Qed.

Lemma registrationsOf_both ws filePath file content :
  In (partialNameOf ws filePath, content) (registrationsOf ws (filePath, file, content))
  /\ In (fileNameOf file, content) (registrationsOf ws (filePath, file, content)).
Proof.
  cbn. split; [now left |].
  destruct (String.eqb_spec (fileNameOf file) (partialNameOf ws filePath)) as [-> | _].
  - now left.
  - right. now left.
Qed.

(** only the first [".hbs"] of a path or of a name is removed *)
Lemma partial_key_examples :
  partialNameOf "/ws" "/ws/templates/a/b/c.hbs" = "templates/a/b/c"
  /\ partialNameOf "/ws" "/ws/templates/v.hbs/page.hbs" = "templates/v/page.hbs"
  /\ fileNameOf "a.hbsx.hbs" = "ax.hbs"
  /\ partialNameOf "/ws" "/elsewhere/p.hbs" = "/elsewhere/p".
Proof. repeat split. Qed.

(** C1 as stated fails: the partial [a/b/c.hbs] below the partials root
    [/ws/templates] is reached and registered, but not under ["a/b/c"]:
    its first key is its path below the workspace root. *)
Lemma partial_key_is_not_relative_to_partials_root :
  let root := "/ws/templates" in
  let table := partials (snd (registerPartialsRecursively "/ws" root
                                (nodeAt exampleFs root) openPanel)) in
  getPartialsDirectories "/ws" exampleSettings exampleFs = [root]
  /\ In ("/ws/templates/a/b/c.hbs", "c.hbs", "<b>c</b>")
        (reached root (nodeAt exampleFs root))
  /\ table !! "a/b/c" = None
  /\ table !! "templates/a/b/c" = Some "<b>c</b>"
  /\ table !! "c" = Some "<b>c</b>".
Proof.
  vm_compute. repeat split. now left.
Qed.

(** C1 (amended): a readable [.hbs] file that the walk of a partials root
    reaches is registered with its text under two keys: its path with the
    first occurrence of the workspace root and ["/"] removed and then the
    first occurrence of [".hbs"] removed, and its entry name with the first
    occurrence of [".hbs"] removed (once when the two coincide).  For a file
    at [rel.hbs] below the workspace root the first key is [rel], and for a
    file named [base.hbs] the second is [base], when [".hbs"] occurs nowhere
    in them before the extension.  After the walk, and after
    [registerPartials] has walked every root, the table holds under each key
    the text registered last; both keys are retrievable.  In a well-formed
    file tree, with an absolute workspace root, the text is the one
    [readFileSync] returns for the file's path. *)
Theorem registerPartialsRecursively_registers ws cfg fs dir st filePath file content :
  In dir (getPartialsDirectories ws cfg fs) ->
  In (filePath, file, content) (reached dir (nodeAt fs dir)) ->
  let pathKey :=
    JsString.replace (JsString.replace filePath (ws +:+ "/") "") ".hbs" "" in
  let nameKey := JsString.replace file ".hbs" "" in
  let below := registrations ws dir (nodeAt fs dir) in
  let walked := snd (registerPartialsRecursively ws dir (nodeAt fs dir) st) in
  let everywhere := allRegistrations ws cfg fs in
  let registered := snd (registerPartials ws cfg fs st) in
  fst (registerPartialsRecursively ws dir (nodeAt fs dir) st) = inr tt
  /\ In (pathKey, content) below
  /\ In (nameKey, content) below
  /\ (forall key,
        partials walked !! key
        = match lastRegistered key below with
          | Some text => Some text
          | None => partials st !! key
          end)
  /\ In (pathKey, content) everywhere
  /\ In (nameKey, content) everywhere
  /\ (forall key,
        partials registered !! key
        = match lastRegistered key everywhere with
          | Some text => Some text
          | None => partials st !! key
          end)
  /\ (exists text, partials registered !! pathKey = Some text
                   /\ In (pathKey, text) everywhere)
  /\ (exists text, partials registered !! nameKey = Some text
                   /\ In (nameKey, text) everywhere)
  /\ (forall rel,
        filePath = ws +:+ "/" +:+ rel +:+ ".hbs" ->
        JsString.indexOf (rel +:+ ".hbs") ".hbs" = Some (String.length rel) ->
        pathKey = rel)
  /\ (forall base,
        file = base +:+ ".hbs" ->
        JsString.indexOf (base +:+ ".hbs") ".hbs" = Some (String.length base) ->
        nameKey = base)
  /\ (wellFormed fs = true -> path.isAbsolute ws = true ->
      resolve fs filePath = Some (File (Some content))
      /\ fst (readFileSync fs filePath st) = inr content).
Proof.
  intros Hroot Hreached pathKey nameKey below walked everywhere registered.
  assert (Hdisk : wellFormed fs = true -> path.isAbsolute ws = true ->
    resolve fs filePath = Some (File (Some content))).
  { intros Hwf Hws.
    destruct (partials_root_on_disk ws cfg fs dir Hws Hroot) as [Habs Hdir].
    assert (Hnode : wellFormed (nodeAt fs dir) = true)
      by (exact (wellFormed_resolve _ _ _ Hwf Hdir)).
    pose proof (reached_on_disk fs (nodeAt fs dir) dir Hnode Habs Hdir) as Hall.
    exact (proj1 (List.Forall_forall _ _) Hall _ Hreached). }
  assert (Hkeys : In (pathKey, content) below /\ In (nameKey, content) below).
  { destruct (registrationsOf_both ws filePath file content) as [Ha Hb].
    split; apply in_flat_map; eexists; split; eassumption. }
  destruct Hkeys as [Ha Hb].
  destruct (registerPartialsRecursively_effect ws (nodeAt fs dir) dir) as (logs & Hwalk).
  destruct (registerPartials_effect ws cfg fs) as (logsAll & Hall).
  assert (Hlift : forall reg, In reg below -> In reg everywhere).
  { intros reg Hin. unfold everywhere, allRegistrations.
    apply in_flat_map. exists dir. split; assumption. }
  assert (Hwalked : forall key,
    partials walked !! key
    = match lastRegistered key below with
      | Some text => Some text
      | None => partials st !! key
      end).
  { intros key. subst walked. rewrite Hwalk. unfold_state. apply registerAll_lookup. }
  assert (Hregistered : forall key,
    partials registered !! key
    = match lastRegistered key everywhere with
      | Some text => Some text
      | None => partials st !! key
      end).
  { intros key. subst registered. rewrite Hall. unfold_state. apply registerAll_lookup. }
  assert (Hretrievable : forall key, In (key, content) everywhere ->
    exists text, partials registered !! key = Some text /\ In (key, text) everywhere).
  { intros key Hin. destruct (lastRegistered_some _ _ _ Hin) as (last & Hlast).
    exists last. rewrite Hregistered, Hlast.
    split; [reflexivity | now apply lastRegistered_registered]. }
  assert (Hpath : forall rel,
    filePath = ws +:+ "/" +:+ rel +:+ ".hbs" ->
    JsString.indexOf (rel +:+ ".hbs") ".hbs" = Some (String.length rel) ->
    pathKey = rel).
  { intros rel -> Hrel. subst pathKey.
    rewrite <- (append_associative ws "/" (rel +:+ ".hbs")).
    now rewrite replace_prefix, (replace_extension rel Hrel). }
  assert (Hname : forall base,
    file = base +:+ ".hbs" ->
    JsString.indexOf (base +:+ ".hbs") ".hbs" = Some (String.length base) ->
    nameKey = base).
  { intros base -> Hbase. subst nameKey. now rewrite (replace_extension base Hbase). }
  rewrite Hwalk. cbn [fst].
  repeat split; auto.
  match goal with
  | Hwf : wellFormed fs = true, Hws : path.isAbsolute ws = true |- _ =>
      rewrite (readFileSync_resolved _ _ _ (Hdisk Hwf Hws))
  end.
  reflexivity.
Qed.

Lemma registerPartialsRecursively_registers_witness :
  let table := partials (snd (registerPartials "/ws" exampleSettings exampleFs openPanel)) in
  table !! "templates/a/b/c" = Some "<b>c</b>"
  /\ table !! "c" = Some "<b>c</b>"
  /\ resolve exampleFs "/ws/templates/a/b/c.hbs" = Some (File (Some "<b>c</b>")).
Proof.
  intros table.
  assert (Hroot : In "/ws/templates" (getPartialsDirectories "/ws" exampleSettings exampleFs))
    by (vm_compute; auto).
  assert (Hreached :
    In ("/ws/templates/a/b/c.hbs", "c.hbs", "<b>c</b>")
       (reached "/ws/templates" (nodeAt exampleFs "/ws/templates")))
    by (vm_compute; auto).
  assert (Hwf : wellFormed exampleFs = true) by reflexivity.
  assert (Hws : path.isAbsolute "/ws" = true) by reflexivity.
  destruct (registerPartialsRecursively_registers "/ws" exampleSettings exampleFs
              "/ws/templates" openPanel "/ws/templates/a/b/c.hbs" "c.hbs" "<b>c</b>"
              Hroot Hreached)
    as (_ & _ & _ & _ & _ & _ & Htable & _ & _ & _ & _ & Hdisk).
  split; [| split].
  - subst table. rewrite Htable. reflexivity.
  - subst table. rewrite Htable. reflexivity.
  - exact (proj1 (Hdisk Hwf Hws)).
Defined.

(** ** The adapter of a custom helper *)

Lemma lookup_assign_same props key v :
  lookupProperty (assignProperty props key v) key = v.
Proof.
  unfold lookupProperty.
  induction props as [| [k old] rest IH]; cbn.
  - now rewrite String.eqb_refl.
  - destruct (String.eqb_spec k key) as [-> | Hne]; cbn.
    + now rewrite String.eqb_refl.
    + destruct (String.eqb_spec k key); [contradiction | exact IH].
Qed.

Lemma lookup_assign_other props key v other :
  key <> other ->
  lookupProperty (assignProperty props key v) other = lookupProperty props other.
Proof.
  intros Hne. unfold lookupProperty.
  induction props as [| [k old] rest IH]; cbn.
  - destruct (String.eqb_spec key other); [contradiction | reflexivity].
  - destruct (String.eqb_spec k key) as [-> | Hk]; cbn.
    + destruct (String.eqb_spec key other); [contradiction | reflexivity].
    + destruct (String.eqb_spec k other); [reflexivity | exact IH].
Qed.

(** C5 as stated fails: called without any argument, the adapter throws a
    [TypeError] on reading [options.data]; the wrapped helper, which would
    have returned normally, is not invoked. *)
Lemma adapter_throws_without_arguments :
  adapter noNumber VNull firstArgument VUndefined [] ∅
  = (inl (typeError "Cannot read properties of undefined (reading 'data')"), ∅)
  /\ firstArgument VUndefined [] ∅ = (inr VUndefined, ∅).
Proof. split; reflexivity. Qed.

Lemma adapter_primitive_options numberToString handlebars helper_apply this args h :
  match at_last args with
  | VBool _ | VNumber _ | VString _ => True
  | _ => False
  end ->
  adapter numberToString handlebars helper_apply this args h
  = (inl (typeError ("Cannot create property 'data' on "
                     +:+ describePrimitive numberToString (at_last args))),
     <[fresh (dom h) := {| callable := false; properties := [] |}]> h).
Proof.
  unfold adapter. destruct (at_last args); intros []; reflexivity.
Qed.

(** C5 (amended): the adapter reads the final argument as the options
    object without testing that it is there.  When it is an object whose
    [data] is an object or falsy, the adapter makes [data] an object (a new
    one if it was falsy), stores the engine instance under [data.hbs],
    touches nothing else, and calls the wrapped function with the same [this]
    and the same arguments.  In every other case it throws a [TypeError] and
    the wrapped function is not called, whatever that function is: when the
    final argument is [undefined] or [null], in particular when there is no
    argument at all; when it is a string, a number or a boolean; and when its
    [data] is a truthy primitive. *)
Theorem adapter_forwards numberToString handlebars helper_apply this args h :
  match at_last args with
  | VUndefined =>
      forall other_helper,
        adapter numberToString handlebars other_helper this args h
        = (inl (typeError "Cannot read properties of undefined (reading 'data')"), h)
  | VNull =>
      forall other_helper,
        adapter numberToString handlebars other_helper this args h
        = (inl (typeError "Cannot read properties of null (reading 'data')"), h)
  | VObject options =>
      forall o, h !! options = Some o ->
      match lookupProperty (properties o) "data" with
      | VObject frame =>
          forall record, h !! frame = Some record ->
          exists h' o' record',
            adapter numberToString handlebars helper_apply this args h
            = helper_apply this args h'
            /\ h' !! options = Some o'
            /\ lookupProperty (properties o') "data" = VObject frame
            /\ h' !! frame = Some record'
            /\ lookupProperty (properties record') "hbs" = handlebars
            /\ (forall key, key <> "hbs" ->
                  lookupProperty (properties record') key
                  = lookupProperty (properties record) key)
            /\ (forall other, other <> frame -> h' !! other = h !! other)
      | data =>
          if toBoolean data then
            forall other_helper,
              adapter numberToString handlebars other_helper this args h
              = (inl (typeError ("Cannot create property 'hbs' on "
                                 +:+ describePrimitive numberToString data)), h)
          else
            exists h' o' frame,
              adapter numberToString handlebars helper_apply this args h
              = helper_apply this args h'
              /\ h !! frame = None
              /\ h' !! options = Some o'
              /\ lookupProperty (properties o') "data" = VObject frame
              /\ (forall key, key <> "data" ->
                    lookupProperty (properties o') key
                    = lookupProperty (properties o) key)
              /\ h' !! frame
                 = Some {| callable := false; properties := [("hbs", handlebars)] |}
              /\ (forall other, other <> options -> other <> frame ->
                    h' !! other = h !! other)
      end
  | primitive =>
      forall other_helper,
        exists h',
          adapter numberToString handlebars other_helper this args h
          = (inl (typeError ("Cannot create property 'data' on "
                             +:+ describePrimitive numberToString primitive)), h')
          /\ (forall l o, h !! l = Some o -> h' !! l = Some o)
  end.
Proof.
  assert (Hkept : forall l o,
    h !! l = Some o ->
    <[fresh (dom h) := {| callable := false; properties := [] |}]> h !! l = Some o).
  { intros l o Hl. rewrite lookup_insert_ne; [exact Hl |].
    intros <-. pose proof (is_fresh (dom h)) as Hfresh.
    apply not_elem_of_dom in Hfresh. congruence. }
  destruct (at_last args) as [| | b | x | text | options] eqn:Hlast.
  - intros other. unfold adapter. now rewrite Hlast.
  - intros other. unfold adapter. now rewrite Hlast.
  - intros other. eexists. split; [| exact Hkept].
    rewrite adapter_primitive_options by now rewrite Hlast. now rewrite Hlast.
  - intros other. eexists. split; [| exact Hkept].
    rewrite adapter_primitive_options by now rewrite Hlast. now rewrite Hlast.
  - intros other. eexists. split; [| exact Hkept].
    rewrite adapter_primitive_options by now rewrite Hlast. now rewrite Hlast.
  - intros o Hoptions.
    assert (Hread : forall other_helper,
      adapter numberToString handlebars other_helper this args h
      = ((if negb (toBoolean (lookupProperty (properties o) "data")) then
            empty <- newObject ;; setProperty numberToString (VObject options) "data" empty
          else ret tt) ;;
         data <- getProperty (VObject options) "data" ;;
         setProperty numberToString data "hbs" handlebars ;;
         other_helper this args) h).
    { intros other. unfold adapter. rewrite Hlast.
      unfold bind at 1. unfold getProperty at 1. unfold bind at 1. unfold gets at 1.
      rewrite Hoptions. reflexivity. }
    assert (Hkeep : forall other_helper,
      toBoolean (lookupProperty (properties o) "data") = true ->
      adapter numberToString handlebars other_helper this args h
      = (setProperty numberToString (lookupProperty (properties o) "data") "hbs" handlebars ;;
         other_helper this args) h).
    { intros other Htruthy. rewrite Hread, Htruthy. cbn [negb].
      unfold bind at 1. unfold ret at 1.
      unfold bind at 1. unfold getProperty at 1. unfold bind at 1. unfold gets at 1.
      rewrite Hoptions. reflexivity. }
    destruct (lookupProperty (properties o) "data") as [| | b | x | text | frame] eqn:Hdata;
      cbv zeta.
    1, 2: cbn [toBoolean]; rewrite Hread; cbn [toBoolean negb].
    3, 4, 5: destruct (toBoolean _) eqn:Htruthy;
      [intros other; now rewrite (Hkeep other eq_refl)
      | rewrite Hread; cbn [negb]].
    6: { intros record Hrecord. rewrite (Hkeep helper_apply eq_refl).
         unfold bind at 1. unfold setProperty, modify. rewrite Hrecord.
         set (record' := {| callable := callable record;
                            properties := assignProperty (properties record) "hbs"
                                            handlebars |}).
         destruct (decide (frame = options)) as [-> | Hne].
         - exists (<[options := record']> h), record', record'.
           assert (record = o) as -> by congruence.
           repeat split.
           + apply lookup_insert_eq.
           + subst record'. cbn. rewrite lookup_assign_other by discriminate. exact Hdata.
           + apply lookup_insert_eq.
           + subst record'. cbn. apply lookup_assign_same.
           + intros key Hkey. subst record'. cbn. now apply lookup_assign_other.
           + intros other Hother. now apply lookup_insert_ne.
         - exists (<[frame := record']> h), o, record'.
           repeat split.
           + rewrite lookup_insert_ne by exact Hne. exact Hoptions.
           + exact Hdata.
           + apply lookup_insert_eq.
           + subst record'. cbn. apply lookup_assign_same.
           + intros key Hkey. subst record'. cbn. now apply lookup_assign_other.
           + intros other Hother. now apply lookup_insert_ne. }
    all: unfold bind at 1; unfold bind at 1; unfold newObject at 1;
      set (frame := fresh (dom h));
      assert (Hfresh : h !! frame = None)
        by (apply not_elem_of_dom; apply is_fresh);
      assert (Hne : frame <> options) by congruence;
      unfold setProperty at 1; unfold modify at 1;
      rewrite lookup_insert_ne by exact Hne; rewrite Hoptions;
      set (o' := {| callable := callable o;
                    properties := assignProperty (properties o) "data" (VObject frame) |});
      unfold bind at 1; unfold getProperty at 1; unfold bind at 1; unfold gets at 1;
      rewrite lookup_insert_eq; unfold ret at 1;
      replace (lookupProperty (properties o') "data") with (VObject frame)
        by (symmetry; apply lookup_assign_same);
      unfold bind at 1; unfold setProperty, modify;
      rewrite lookup_insert_ne by congruence; rewrite lookup_insert_eq;
      eexists _, o', frame;
      (split; [reflexivity |]);
      (split; [exact Hfresh |]);
      (split; [rewrite lookup_insert_ne by exact Hne; apply lookup_insert_eq |]);
      (split; [apply lookup_assign_same |]);
      (split; [intros key Hkey; subst o'; cbn; apply lookup_assign_other; congruence |]);
      (split; [apply lookup_insert_eq |]);
      intros other Hoptions' Hframe;
      rewrite !lookup_insert_ne by congruence; reflexivity.
Qed.

Lemma adapter_forwards_witness :
  exists h',
    adapter noNumber (VObject 2%positive) firstArgument VUndefined
      [VString "world"; VObject 1%positive] callHeap
    = (inr (VString "world"), h')
    /\ exists o' frame,
         h' !! 1%positive = Some o'
         /\ lookupProperty (properties o') "data" = VObject frame
         /\ h' !! frame
            = Some {| callable := false; properties := [("hbs", VObject 2%positive)] |}.
Proof.
  pose proof (adapter_forwards noNumber (VObject 2%positive) firstArgument VUndefined
                [VString "world"; VObject 1%positive] callHeap) as Hcall.
  change (at_last [VString "world"; VObject 1%positive]) with (VObject 1%positive)
    in Hcall.
  specialize (Hcall _ eq_refl). cbn [properties lookupProperty List.find fst snd] in Hcall.
  destruct Hcall as (h' & o' & frame & Hrun & _ & Hoptions & Hdata & _ & Hframe & _).
  exists h'. split; [rewrite Hrun; reflexivity | eauto].
Defined.

(** ** The helper loader *)

Lemma loadFailed_run error st :
  loadFailed error st
  = (inr tt,
     set_console (fun c => c ++ [Console LevelError
        ("[handlebars-preview] Error loading custom helpers: " +:+ showError error)])
       (set_notifications (fun l => l ++ [ErrorMessage
          ("Handlebars Live Preview: Failed to load custom helpers: "
           +:+ errorMessage error)]) st)).
Proof. reflexivity. Qed.

Lemma registration_loop_returns (h : heap) entries :
  forall names st, exists names' st',
    forEach (fun '(name, helper) =>
      if String.eqb (typeof h helper) "function" then
        onState (registerHelper name (Adapter helper)) ;;
        push name ;;
        onState (consoleLog
          ("[handlebars-preview] Registered custom helper: " +:+ name))
      else ret tt) entries (names, st)
    = (inr tt, (names', st'))
    /\ notifications st' = notifications st.
Proof.
  match goal with |- context [forEach ?f entries] => set (body := f) end.
  induction entries as [| [name fn] rest IH]; intros names st.
  - exists names, st. split; reflexivity.
  - rewrite forEach_cons. unfold bind at 1. unfold body at 1.
    destruct (String.eqb (typeof h fn) "function").
    + unfold bind at 1. unfold onState at 1. unfold registerHelper, modify.
      cbn [fst snd]. unfold bind at 1. unfold push at 1. unfold modify at 1.
      cbn [fst snd]. unfold onState at 1. unfold consoleLog, modify. cbn [fst snd].
      match goal with |- context [forEach body rest (?n, ?s)] =>
        destruct (IH n s) as (names' & st' & Hrest & Hnotes) end.
      exists names', st'. rewrite Hrest. split; [reflexivity |].
      rewrite Hnotes. reflexivity.
    + unfold ret at 1. apply IH.
Qed.

Lemma loadCustomHelpers_resume_returns helpersPath imported h st :
  fst (loadCustomHelpers_resume helpersPath imported h st) = inr tt.
Proof.
  unfold loadCustomHelpers_resume, tryCatch.
  destruct imported as [error | module].
  { unfold bind, throw. now rewrite loadFailed_run. }
  unfold bind at 1. unfold ret at 1.
  unfold bind at 1. unfold reading at 1.
  destruct (fst (exportedValue module h)) as [error | exported].
  { now rewrite loadFailed_run. }
  destruct (String.eqb (typeof h exported) "object"
            && negb (match exported with VNull => true | _ => false end)).
  2: { reflexivity. }
  unfold bind at 1. unfold withLocal at 1.
  match goal with |- context [forEach ?f ?l (?n, ?s)] =>
    destruct (registration_loop_returns h l n s) as (names & st' & Hloop & _) end.
  rewrite Hloop.
  destruct (Nat.ltb 0 (length names)); reflexivity.
Qed.

Lemma loadCustomHelpers_resume_rejected helpersPath error h st :
  exists st',
    loadCustomHelpers_resume helpersPath (inl error) h st = (inr tt, st')
    /\ helpers st' = helpers st
    /\ notifications st'
       = notifications st
         ++ [ErrorMessage ("Handlebars Live Preview: Failed to load custom helpers: "
                           +:+ errorMessage error)].
Proof.
  unfold loadCustomHelpers_resume, tryCatch, bind, throw.
  rewrite loadFailed_run. eexists. repeat split.
Qed.

(** ** The filter on the template list *)

(** C4: no record of the template list a scan returns has a name that
    contains ["components/"], whatever directory it was found in.  The
    partial registrar applies no such filter: every partial file its walk
    reaches is registered under its path-derived key, whatever that key
    contains. *)
Theorem getAvailableTemplates_excludes_components
    ws cfg fs st dir n filePath file content :
  In (filePath, file, content) (reached dir n) ->
  (exists templates,
      fst (getAvailableTemplates ws cfg fs st) = inr templates
      /\ Forall (fun t => JsString.includes (name t) "components/" = false) templates)
  /\ (exists text,
        partials (snd (registerPartialsRecursively ws dir n st))
          !! partialNameOf ws filePath = Some text).
Proof.
  intros Hreached. split.
  - destruct (getAvailableTemplates_effect ws cfg fs) as (found & logs & Hscan).
    eexists. rewrite Hscan. split; [reflexivity |].
    apply List.Forall_forall. intros t Hin.
    apply filter_In in Hin as [_ Hkept].
    now apply negb_true_iff in Hkept.
  - destruct (registerPartialsRecursively_effect ws n dir) as (logs & Hwalk).
    rewrite Hwalk. unfold_state. rewrite registerAll_lookup.
    assert (Hin : In (partialNameOf ws filePath, content) (registrations ws dir n)).
    { apply in_flat_map. exists (filePath, file, content).
      split; [exact Hreached | apply registrationsOf_both]. }
    destruct (lastRegistered_some _ _ _ Hin) as (last & ->). eauto.
Qed.

Lemma getAvailableTemplates_excludes_components_witness :
  let root := "/ws/templates" in
  let key := "templates/components/button" in
  JsString.includes key "components/" = true
  /\ (exists text,
        partials (snd (registerPartialsRecursively "/ws" root (nodeAt exampleFs root)
                         openPanel)) !! key = Some text)
  /\ exists templates,
       fst (getAvailableTemplates "/ws" exampleSettings exampleFs openPanel)
         = inr templates
       /\ Forall (fun t => JsString.includes (name t) "components/" = false) templates.
Proof.
  intros root key.
  assert (Hreached :
    In ("/ws/templates/components/button.hbs", "button.hbs", "<button/>")
       (reached root (nodeAt exampleFs root))) by (vm_compute; auto).
  destruct (getAvailableTemplates_excludes_components "/ws" exampleSettings exampleFs
              openPanel root (nodeAt exampleFs root) _ _ _ Hreached)
    as [Htemplates Hpartial].
  split; [reflexivity |].
  split; [exact Hpartial | exact Htemplates].
Defined.
(** * Further properties of the provider *)

(** ** The records the scanner finds *)

Lemma getTemplatesRecursively_scans ws baseDir n :
  forall dir, exists logs, forall acc st,
    getTemplatesRecursively ws dir n baseDir (acc, st)
    = (inr tt, (acc ++ scanned ws baseDir dir n, effect [] [] logs st)).
Proof.
  assert (Hcatch : forall text acc st,
    onState (L := list TemplateRecord) (consoleError text) (acc, st)
    = (inr tt, (acc ++ [], effect [] [] [Console LevelError text] st))).
  { intros. unfold onState. cbn [fst snd]. rewrite consoleError_effect.
    now rewrite app_nil_r. }
  induction n as [stored | | listable files IH] using node_induction; intros dir.
  - eexists. intros acc st. cbn [getTemplatesRecursively scanned].
    unfold tryCatch, throw. now rewrite Hcatch.
  - eexists. intros acc st. cbn [getTemplatesRecursively scanned].
    unfold tryCatch, throw. now rewrite Hcatch.
  - destruct listable.
    2: { eexists. intros acc st. cbn [getTemplatesRecursively scanned].
         unfold tryCatch, throw. now rewrite Hcatch. }
    cbn [getTemplatesRecursively scanned].
    match goal with |- context [forEach ?f files] => set (body := f) end.
    assert (Hloop : exists logs r, forall acc st,
      forEach body files (acc, st)
      = (r, (acc ++ scannedAmong ws baseDir (scanned ws baseDir) dir files,
             effect [] [] logs st))).
    { induction files as [| [file target] rest IHrest].
      - exists [], (inr tt). intros acc st. cbn.
        now rewrite effect_none, app_nil_r.
      - apply Forall_cons_iff in IH as [IHtarget IHfiles].
        destruct (IHrest IHfiles) as (logsRest & r & Hrest).
        cbn [snd] in IHtarget.
        rewrite forEach_cons. unfold body at 1. cbn [scannedAmong].
        destruct target as [stored | listable' files' | ].
        + destruct (JsString.endsWith file ".hbs").
          * exists logsRest, r. intros acc st.
            unfold bind, push, modify. cbn [fst snd].
            rewrite Hrest, <- app_assoc. reflexivity.
          * exists logsRest, r. intros acc st. unfold bind, ret. apply Hrest.
        + destruct (IHtarget (path.join dir file)) as (logsBelow & Hbelow).
          exists (logsBelow ++ logsRest), r.
          intros acc st. unfold bind.
          rewrite Hbelow, Hrest, effect_effect, app_assoc. reflexivity.
        + eexists [], _. intros acc st. unfold bind, throw.
          now rewrite effect_none, app_nil_r. }
    destruct Hloop as (logs & [e | []] & Hloop).
    + eexists. intros acc st. unfold tryCatch. rewrite Hloop, Hcatch.
      rewrite effect_effect, !app_nil_r. reflexivity.
    + exists logs. intros acc st. unfold tryCatch. now rewrite Hloop.
Qed.

Lemma templateList_allScanned ws cfg fs :
  templateList ws cfg fs
  = List.filter (fun t => negb (JsString.includes (name t) "components/"))
      (allScanned ws cfg fs).
Proof.
  assert (Hloop : forall dirs, exists logs, forall acc st,
    forEach (fun dir => getTemplatesRecursively ws dir (nodeAt fs dir) dir) dirs (acc, st)
    = (inr tt,
       (acc ++ flat_map (fun dir => scanned ws dir dir (nodeAt fs dir)) dirs,
        effect [] [] logs st))).
  { induction dirs as [| dir rest (logsRest & Hrest)].
    - exists []. intros acc st. cbn. now rewrite effect_none, app_nil_r.
    - destruct (getTemplatesRecursively_scans ws dir (nodeAt fs dir) dir) as (logs & Hdir).
      exists (logs ++ logsRest). intros acc st.
      rewrite forEach_cons. unfold bind. cbn [flat_map].
      rewrite Hdir, Hrest, effect_effect, <- app_assoc. reflexivity. }
  destruct (Hloop (getTemplateDirectories ws cfg fs)) as (logs & Hscan).
  unfold templateList, getAvailableTemplates, bind, withLocal.
  rewrite Hscan. reflexivity.
Qed.

(** ** Paths below a normalized directory *)

Lemma join_snoc segs file :
  segs <> [] ->
  JsString.join "/" (segs ++ [file]) = JsString.join "/" segs +:+ "/" +:+ file.
Proof.
  induction segs as [| a [| b rest] IH]; intros Hne; [contradiction | reflexivity |].
  change ((a :: b :: rest) ++ [file]) with (a :: b :: (rest ++ [file])).
  rewrite !join_cons2.
  change (b :: rest ++ [file]) with ((b :: rest) ++ [file]).
  rewrite IH by discriminate. now rewrite append_associative.
Qed.

Lemma normalizedPath_absolute dir :
  normalizedPath dir = true -> path.isAbsolute dir = true.
Proof.
  unfold normalizedPath. destruct (path.normalizeSegments false dir); [discriminate |].
  now intros ->%String.eqb_eq.
Qed.

(** below a normalized directory, [join] only appends *)
Lemma join_below dir file :
  normalizedPath dir = true ->
  plainName file = true ->
  path.join dir file = dir +:+ "/" +:+ file
  /\ normalizedPath (path.join dir file) = true.
Proof.
  intros Hnorm Hplain.
  pose proof (normalizedPath_absolute dir Hnorm) as Habs.
  rewrite (join_entry dir file Habs Hplain).
  unfold normalizedPath in *.
  rewrite normalizeSegments_normalized.
  2: { apply Forall_app. split; [apply normalizeSegments_plain | now repeat constructor]. }
  destruct (path.normalizeSegments false dir) as [| seg segs] eqn:Hsegs; [discriminate |].
  apply String.eqb_eq in Hnorm.
  split.
  - rewrite join_snoc by discriminate.
    rewrite <- (append_associative "/" (JsString.join "/" (seg :: segs)) ("/" +:+ file)).
    now rewrite <- Hnorm.
  - cbn [app]. apply String.eqb_refl.
Qed.

Lemma scanned_below fs ws baseDir n :
  forall dir rel,
    wellFormed n = true ->
    normalizedPath dir = true ->
    resolve fs dir = Some n ->
    (forall file, dir +:+ "/" +:+ file = baseDir +:+ "/" +:+ rel +:+ file) ->
    Forall (recordBelow fs ws baseDir) (scanned ws baseDir dir n).
Proof.
  induction n as [stored | | listable files IH] using node_induction;
    intros dir rel Hwf Hnorm Hdir Hrel; try constructor.
  destruct listable; [| constructor].
  cbn [scanned]. cbn [wellFormed] in Hwf.
  apply andb_true_iff in Hwf as [Hdistinct Hentries].
  pose proof (normalizedPath_absolute dir Hnorm) as Habs.
  assert (Hloop : forall rest, (forall e, In e rest -> In e files) ->
    Forall (recordBelow fs ws baseDir)
      (scannedAmong ws baseDir (scanned ws baseDir) dir rest)).
  { induction rest as [| [file target] rest IHrest]; intros Hsub; [constructor |].
    assert (Hin : In (file, target) files) by (apply Hsub; now left).
    assert (Hrest : forall e, In e rest -> In e files) by (intros e He; apply Hsub; now right).
    pose proof (proj1 (forallb_forall _ _) Hentries _ Hin) as Hentry.
    cbn [fst snd] in Hentry. apply andb_true_iff in Hentry as [Hplain Hwf].
    destruct (resolve_entry fs dir file _ Habs Hplain Hdir) as [Hresolve _].
    rewrite (child_entry _ _ _ _ Hdistinct Hin) in Hresolve.
    destruct (join_below dir file Hnorm Hplain) as [Hjoin Hnorm'].
    cbn [scannedAmong].
    destruct target as [stored | listable' files' | ].
    - destruct (JsString.endsWith file ".hbs"); [| now apply IHrest].
      constructor; [| now apply IHrest].
      unfold recordBelow. cbn [name directory fullPath].
      split; [| split; [reflexivity | eauto]].
      exists (rel +:+ file). rewrite Hjoin, Hrel. split; [reflexivity |].
      rewrite <- (append_associative baseDir "/" (rel +:+ file)).
      now rewrite replace_prefix.
    - apply Forall_app. split; [| now apply IHrest].
      pose proof (proj1 (List.Forall_forall _ _) IH _ Hin) as IHtarget.
      cbn [snd] in IHtarget.
      apply (IHtarget (path.join dir file) (rel +:+ file +:+ "/")); try assumption.
      intros next. rewrite Hjoin.
      rewrite !append_associative.
      rewrite (Hrel (file +:+ "/" +:+ next)). reflexivity.
    - constructor. }
  apply Hloop. auto.
Qed.

Lemma templateDirectory_on_disk ws cfg fs dir :
  In dir (getTemplateDirectories ws cfg fs) ->
  resolve fs dir = Some (nodeAt fs dir).
Proof.
  intros Hin. unfold getTemplateDirectories in Hin.
  apply filter_In in Hin as [_ Hexists].
  unfold existsSync in Hexists. unfold nodeAt.
  now destruct (resolve fs dir).
Qed.

(** X1: every record of the template list was found below one of the
    existing configured template directories; when these are in normal form
    and the file tree is well formed, the record's path continues that
    directory's path and names a file, its name is the continuation with the
    first [".hbs"] removed, and its directory is the root as seen from the
    workspace. *)
Theorem templateList_records ws cfg fs t :
  wellFormed fs = true ->
  Forall (fun dir => normalizedPath dir = true) (getTemplateDirectories ws cfg fs) ->
  In t (templateList ws cfg fs) ->
  JsString.includes (name t) "components/" = false
  /\ exists baseDir,
       In baseDir (getTemplateDirectories ws cfg fs)
       /\ recordBelow fs ws baseDir t.
Proof.
  intros Hwf Hnorm Hin. rewrite templateList_allScanned in Hin.
  apply filter_In in Hin as [Hin Hkept].
  split; [now apply negb_true_iff in Hkept |].
  apply in_flat_map in Hin as (baseDir & Hroot & Hin).
  exists baseDir. split; [exact Hroot |].
  pose proof (templateDirectory_on_disk ws cfg fs baseDir Hroot) as Hdir.
  pose proof (proj1 (List.Forall_forall _ _) Hnorm _ Hroot) as Hbase.
  assert (Hnode : wellFormed (nodeAt fs baseDir) = true)
    by (exact (wellFormed_resolve _ _ _ Hwf Hdir)).
  pose proof (scanned_below fs ws baseDir (nodeAt fs baseDir) baseDir "" Hnode Hbase Hdir
                (fun file => eq_refl)) as Hall.
  exact (proj1 (List.Forall_forall _ _) Hall _ Hin).
Qed.

Lemma templateList_records_witness :
  exists t,
    In t (templateList "/ws" exampleSettings exampleFs)
    /\ name t = "a/b/c"
    /\ recordBelow exampleFs "/ws" "/ws/templates" t.
Proof.
  set (t := {| name := "a/b/c"; directory := "templates";
               fullPath := "/ws/templates/a/b/c.hbs" |}).
  assert (Hwf : wellFormed exampleFs = true) by reflexivity.
  assert (Hnorm : Forall (fun dir => normalizedPath dir = true)
                    (getTemplateDirectories "/ws" exampleSettings exampleFs))
    by (vm_compute; repeat constructor).
  assert (Hin : In t (templateList "/ws" exampleSettings exampleFs))
    by (vm_compute; auto).
  destruct (templateList_records "/ws" exampleSettings exampleFs t Hwf Hnorm Hin)
    as (_ & baseDir & Hroot & Hbelow).
  exists t. split; [exact Hin | split; [reflexivity |]].
  vm_compute in Hroot. destruct Hroot as [<- | []]. exact Hbelow.
Defined.

(** X2: the template list is the concatenation, in configured order, of
    what the walk of each existing template directory finds, less the names
    that contain ["components/"]: nothing is sorted or deduplicated, so a
    name found under two directories is listed twice, first for the
    directory configured first. *)
Theorem templateList_in_configured_order ws cfg fs :
  templateList ws cfg fs
  = flat_map
      (fun dir =>
         List.filter (fun t => negb (JsString.includes (name t) "components/"))
           (scanned ws dir dir (nodeAt fs dir)))
      (List.filter (fun dir => existsSync fs dir)
         (map (absolute ws) (templateDirectories (getConfiguration cfg)))).
Proof.
  rewrite templateList_allScanned. unfold allScanned, getTemplateDirectories.
  induction (List.filter _ (map _ _)) as [| dir dirs IH]; [reflexivity |].
  cbn [flat_map]. now rewrite List.filter_app, IH.
Qed.

(** ** An entry that fails ends the listing of its directory *)

Lemma reachedAmong_stops dir before file target after :
  target = Dangling \/ (target = File None /\ JsString.endsWith file ".hbs" = true) ->
  reachedAmong reached dir (before ++ (file, target) :: after)
  = reachedAmong reached dir before.
Proof.
  intros Hfails.
  induction before as [| [f t] before IH].
  - cbn [app reachedAmong]. destruct Hfails as [-> | [-> ->]]; reflexivity.
  - change (((f, t) :: before) ++ (file, target) :: after)
      with ((f, t) :: (before ++ (file, target) :: after)).
    cbn [reachedAmong]. rewrite IH. reflexivity.
Qed.

Lemma scannedAmong_stops ws baseDir dir before file after :
  scannedAmong ws baseDir (scanned ws baseDir) dir (before ++ (file, Dangling) :: after)
  = scannedAmong ws baseDir (scanned ws baseDir) dir before.
Proof.
  induction before as [| [f t] before IH]; [reflexivity |].
  change (((f, t) :: before) ++ (file, Dangling) :: after)
    with ((f, t) :: (before ++ (file, Dangling) :: after)).
  cbn [scannedAmong]. rewrite IH. reflexivity.
Qed.

Lemma registerPartialsRecursively_table ws dir n st :
  partials (snd (registerPartialsRecursively ws dir n st))
  = registerAll (registrations ws dir n) (partials st).
Proof.
  destruct (registerPartialsRecursively_effect ws n dir) as (logs & Hwalk).
  rewrite Hwalk. reflexivity.
Qed.

Lemma getTemplatesRecursively_records ws baseDir n dir acc st :
  fst (snd (getTemplatesRecursively ws dir n baseDir (acc, st)))
  = acc ++ scanned ws baseDir dir n.
Proof.
  destruct (getTemplatesRecursively_scans ws baseDir n dir) as (logs & Hscan).
  now rewrite Hscan.
Qed.

Lemma scannedAmong_unread ws baseDir dir before file stored stored' after :
  scannedAmong ws baseDir (scanned ws baseDir) dir (before ++ (file, File stored) :: after)
  = scannedAmong ws baseDir (scanned ws baseDir) dir
      (before ++ (file, File stored') :: after).
Proof.
  induction before as [| [f t] before IH]; [reflexivity |].
  change (((f, t) :: before) ++ (file, File stored) :: after)
    with ((f, t) :: (before ++ (file, File stored) :: after)).
  change (((f, t) :: before) ++ (file, File stored') :: after)
    with ((f, t) :: (before ++ (file, File stored') :: after)).
  cbn [scannedAmong]. rewrite IH. reflexivity.
Qed.

(** X3: in a directory listing, the entries that follow an entry whose
    [statSync] fails, or a partial file whose read fails, are not visited:
    [registerPartialsRecursively] leaves the partial table as if the listing
    had stopped before that entry, and [getTemplatesRecursively] pushes the
    records it would push for the entries before an entry whose [statSync]
    fails.  A subdirectory is walked in a [try] block of its own: after it,
    whatever happened inside, both walks go on with the entries that follow
    it.  The scanner does not read the files, so whether a file can be read
    makes no difference to the records. *)
Theorem failing_entry_hides_the_rest ws baseDir dir before file target after st acc :
  target = Dangling \/ (target = File None /\ JsString.endsWith file ".hbs" = true) ->
  let records n := fst (snd (getTemplatesRecursively ws dir n baseDir (acc, st))) in
  partials (snd (registerPartialsRecursively ws dir
                   (Dir true (before ++ (file, target) :: after)) st))
  = partials (snd (registerPartialsRecursively ws dir (Dir true before) st))
  /\ records (Dir true (before ++ (file, Dangling) :: after)) = records (Dir true before)
  /\ (forall sub listable inside rest,
        let below :=
          snd (registerPartialsRecursively ws (path.join dir sub)
                 (Dir listable inside) st) in
        partials (snd (registerPartialsRecursively ws dir
                         (Dir true ((sub, Dir listable inside) :: rest)) st))
        = partials (snd (registerPartialsRecursively ws dir (Dir true rest) below))
        /\ partials (snd (registerPartialsRecursively ws dir
                            (Dir true ((sub, Dir listable inside) :: rest)) st))
           = registerAll (registrations ws dir (Dir true rest))
               (registerAll (registrations ws (path.join dir sub) (Dir listable inside))
                  (partials st)))
  /\ (forall sub listable inside rest,
        let below :=
          snd (getTemplatesRecursively ws (path.join dir sub) (Dir listable inside)
                 baseDir (acc, st)) in
        records (Dir true ((sub, Dir listable inside) :: rest))
        = fst (snd (getTemplatesRecursively ws dir (Dir true rest) baseDir below)))
  /\ (forall stored stored',
        records (Dir true (before ++ (file, File stored) :: after))
        = records (Dir true (before ++ (file, File stored') :: after))).
Proof.
  intros Hfails records. subst records. cbv beta.
  split; [| split; [| split; [| split]]].
  - rewrite !registerPartialsRecursively_table. unfold registrations.
    cbn [reached]. now rewrite (reachedAmong_stops dir before file target after Hfails).
  - rewrite !getTemplatesRecursively_records. cbn [scanned].
    now rewrite scannedAmong_stops.
  - intros sub listable inside rest below. subst below.
    rewrite !registerPartialsRecursively_table. unfold registrations.
    cbn [reached reachedAmong]. now rewrite flat_map_app, registerAll_app.
  - intros sub listable inside rest below.
    destruct below as [found st'] eqn:Hbelow.
    assert (Hfound : found = acc ++ scanned ws baseDir (path.join dir sub)
                                    (Dir listable inside)).
    { rewrite <- (getTemplatesRecursively_records ws baseDir _ _ acc st).
      subst below. now rewrite Hbelow. }
    rewrite !getTemplatesRecursively_records, Hfound.
    cbn [scanned scannedAmong]. now rewrite app_assoc.
  - intros stored stored'. rewrite !getTemplatesRecursively_records. cbn [scanned].
    now rewrite (scannedAmong_unread ws baseDir dir before file stored stored' after).
Qed.

Lemma failing_entry_hides_the_rest_witness :
  let listing := [("a.hbs", File (Some "A")); ("broken", Dangling);
                  ("z.hbs", File (Some "Z"))] in
  let table := partials (snd (registerPartialsRecursively "/ws" "/ws/p"
                                (Dir true listing) openPanel)) in
  let found := fst (snd (getTemplatesRecursively "/ws" "/ws/p" (Dir true listing) "/ws/p"
                           ([], openPanel))) in
  table !! "a" = Some "A" /\ table !! "z" = None /\ map name found = ["a"].
Proof.
  intros listing table found.
  destruct (failing_entry_hides_the_rest "/ws" "/ws/p" "/ws/p"
              [("a.hbs", File (Some "A"))] "broken" Dangling
              [("z.hbs", File (Some "Z"))] openPanel [] (or_introl eq_refl))
    as (Htable & Hfound & _).
  subst table found listing. cbn [app] in Htable, Hfound. rewrite Htable, Hfound.
  repeat split.
Defined.

(** ** Registering again *)

Lemma registerAll_idempotent regs (table : gmap string string) :
  registerAll regs (registerAll regs table) = registerAll regs table.
Proof.
  apply map_eq. intros key. rewrite !registerAll_lookup.
  now destruct (lastRegistered key regs).
Qed.

Lemma registerPartials_table ws cfg fs st :
  partials (snd (registerPartials ws cfg fs st))
  = registerAll (allRegistrations ws cfg fs) (partials st).
Proof.
  destruct (registerPartials_effect ws cfg fs) as (logs & Hall).
  rewrite Hall. reflexivity.
Qed.

(** X4: registering the partials again over an unchanged file system
    leaves the partial table as the first registration made it. *)
Theorem registerPartials_idempotent ws cfg fs st :
  let once := snd (registerPartials ws cfg fs st) in
  partials (snd (registerPartials ws cfg fs once)) = partials once.
Proof.
  intros once. subst once. rewrite !registerPartials_table.
  apply registerAll_idempotent.
Qed.

Lemma deliver_table ws cfg fs w ev st :
  partials (snd (deliver ws cfg fs w ev st))
  = registerAll (allRegistrations ws cfg fs) (partials st).
Proof.
  destruct (registerPartials_effect ws cfg fs) as (logsReg & Hreg).
  destruct (refreshTemplates_effect ws cfg fs) as (logsScan & Hrefresh).
  destruct w as [pattern []], ev;
    unfold deliver, onDidChange, onDidCreate, onDidDelete; cbn [installedFor];
    unfold bind; rewrite ?Hreg, ?Hrefresh, ?autoRerender_effect; cbn [fst snd];
    rewrite ?panel_effect; destruct (_panel st) eqn:Hpanel;
    rewrite ?panel_effect, ?Hpanel, ?effect_effect; unfold_state;
    rewrite ?app_nil_r; reflexivity.
Qed.

(** X5: registration never removes an entry of the partial table.  A name
    registered before stays registered whatever the file system has become,
    and keeps its text unless a file is registered under it again, after
    [registerPartials] and after any event of any watcher: the partial of a
    deleted file stays usable. *)
Theorem registerPartials_keeps_entries ws cfg fs st key text :
  partials st !! key = Some text ->
  let table := partials (snd (registerPartials ws cfg fs st)) in
  (exists current, table !! key = Some current)
  /\ (lastRegistered key (allRegistrations ws cfg fs) = None -> table !! key = Some text)
  /\ (forall w ev, exists current,
        partials (snd (deliver ws cfg fs w ev st)) !! key = Some current)
  /\ (lastRegistered key (allRegistrations ws cfg fs) = None ->
      forall w ev, partials (snd (deliver ws cfg fs w ev st)) !! key = Some text).
Proof.
  intros Hold table.
  assert (Hkept : exists current, table !! key = Some current).
  { subst table. rewrite registerPartials_table, registerAll_lookup, Hold.
    destruct (lastRegistered key _); eauto. }
  split; [exact Hkept |]. split; [| split].
  - intros Hnone. subst table.
    now rewrite registerPartials_table, registerAll_lookup, Hnone.
  - intros w ev. rewrite deliver_table. subst table.
    now rewrite registerPartials_table in Hkept.
  - intros Hnone w ev. now rewrite deliver_table, registerAll_lookup, Hnone.
Qed.

Lemma registerPartials_keeps_entries_witness :
  let st := set_partials (fun _ => {["deleted" := "<old/>"]}) openPanel in
  partials (snd (registerPartials "/ws" exampleSettings exampleFs st)) !! "deleted"
  = Some "<old/>".
Proof.
  intros st.
  assert (Hold : partials st !! "deleted" = Some "<old/>") by reflexivity.
  destruct (registerPartials_keeps_entries "/ws" exampleSettings exampleFs st
              "deleted" "<old/>" Hold) as (_ & Hsame & _ & _).
  apply Hsame. reflexivity.
Defined.

(** ** The data of one template and of another *)

Lemma append_injective prefix a b : prefix +:+ a = prefix +:+ b -> a = b.
Proof.
  induction prefix as [| c prefix IH]; [trivial |].
  rewrite !append_cons. intros [= H]. now apply IH.
Qed.

Lemma getTemplateDataKey_injective ws a b :
  getTemplateDataKey ws a = getTemplateDataKey ws b -> a = b.
Proof.
  unfold getTemplateDataKey. intros H.
  apply append_injective in H. now apply (append_injective ":") in H.
Qed.

Lemma getTemplateData_run ws templateName st :
  getTemplateData ws templateName st
  = (inr (or_else
            (match _templateDataCache st !! getTemplateDataKey ws templateName with
             | Some v => v
             | None => JUndefined
             end) (JObject [])), st).
Proof. reflexivity. Qed.

(** X6: the data saved or cleared for one template name never changes what
    [getTemplateData] returns for another name; a second save under the same
    name replaces the first; and what is read back after a save is the saved
    value, or the empty object when that value is falsy. *)
Theorem template_data_is_per_name ws saved other data st :
  saved <> other ->
  let after_save := snd (saveTemplateData ws saved data st) in
  let after_clear := snd (clearTemplateData ws saved st) in
  fst (getTemplateData ws other after_save) = fst (getTemplateData ws other st)
  /\ fst (getTemplateData ws other after_clear) = fst (getTemplateData ws other st)
  /\ fst (getTemplateData ws saved after_save) = inr (or_else data (JObject []))
  /\ (forall earlier,
        _templateDataCache
          (snd (saveTemplateData ws saved data
                  (snd (saveTemplateData ws saved earlier st))))
        = _templateDataCache after_save).
Proof.
  intros Hne after_save after_clear. subst after_save after_clear.
  assert (Hkeys : getTemplateDataKey ws saved <> getTemplateDataKey ws other).
  { intros Heq. apply Hne. now apply getTemplateDataKey_injective in Heq. }
  rewrite !getTemplateData_run. unfold saveTemplateData, clearTemplateData.
  unfold_state. repeat split.
  - now rewrite lookup_insert_ne.
  - now rewrite lookup_delete_ne.
  - now rewrite lookup_insert_eq.
  - intros earlier. apply insert_insert_eq.
Qed.

Lemma template_data_is_per_name_witness :
  let st := snd (saveTemplateData "/ws" "x" (JString "kept") openPanel) in
  fst (getTemplateData "/ws" "x" (snd (saveTemplateData "/ws" "y" JNull st)))
  = inr (JString "kept").
Proof.
  intros st.
  assert (Hne : "y" <> "x") by discriminate.
  destruct (template_data_is_per_name "/ws" "y" "x" JNull st Hne) as (Hsave & _).
  rewrite Hsave. reflexivity.
Defined.

(** ** What a render request does *)

Lemma find_first (templates before after : list TemplateRecord) t templateName :
  templates = before ++ t :: after ->
  Forall (fun earlier => name earlier <> templateName) before ->
  name t = templateName ->
  List.find (fun t => String.eqb (name t) templateName) templates = Some t.
Proof.
  intros -> Hbefore Hname.
  induction before as [| earlier before IH]; cbn.
  - now rewrite Hname, String.eqb_refl.
  - apply Forall_cons_iff in Hbefore as [Hne Hbefore].
    destruct (String.eqb_spec (name earlier) templateName); [contradiction | auto].
Qed.

(** every run of [renderTemplate] registers partials at most once, logs,
    and touches nothing else *)
Lemma renderTemplate_run ws cfg fs engine templateName d st :
  exists r regs logs (registered : bool),
    renderTemplate ws cfg fs engine templateName d st
    = (r, effect regs
            (if registered && _panel st then [PartialsRegistered] else []) logs st)
    /\ (registered = false -> exists e, r = inl e).
Proof.
  destruct (templateList_scan ws cfg fs) as (logsScan & Hscan).
  destruct (registerPartials_effect ws cfg fs) as (logsReg & Hreg).
  unfold renderTemplate. unfold bind at 1. rewrite Hscan.
  destruct (List.find _ _) as [template |].
  2: { eexists _, [], logsScan, false. split; [reflexivity | eauto]. }
  unfold bind at 1. rewrite Hreg, effect_effect.
  unfold bind at 1. rewrite consoleLog_effect, effect_effect.
  unfold bind at 1. unfold gets at 1.
  unfold bind at 1. rewrite consoleLog_effect, effect_effect.
  unfold bind at 1. unfold gets at 1.
  unfold bind at 1.
  rewrite !panel_effect. cbn [app]. rewrite !app_nil_r.
  destruct (partials _ !! "plan-name") as [[| ? ?] |];
    rewrite consoleLog_effect, effect_effect;
    (unfold bind at 1; unfold readFileSync;
     destruct (lookupPath fs (fullPath template)) as [[|] | [[content |] | ? ? | ]];
     unfold throw, ret;
     try (eexists _, _, _, true; split; [rewrite ?app_nil_r; reflexivity | discriminate]);
     unfold bind, gets; cbn [fst snd];
     match goal with |- context [engine ?p ?h ?c ?d] =>
       destruct (engine p h c d) as [e | out] end;
     unfold throw, ret;
     eexists _, _, _, true; (split; [rewrite ?app_nil_r; reflexivity | discriminate])).
Qed.

(** X7: whenever [renderTemplate] throws, for whatever reason (no such
    template, the template file has become unreadable, the engine rejects
    the template or a helper throws), the handler answers with exactly one
    [error] message that carries the error's text, after at most the
    [partialsRegistered] note; it posts no [rendered] message and leaves the
    data cache and the helper table as they were. *)
Theorem failed_render_is_reported ws cfg fs engine templateName data st error :
  _panel st = true ->
  fst (renderTemplate ws cfg fs engine templateName (or_else data (JObject [])) st)
    = inl error ->
  let request := RenderTemplate templateName data in
  let st' := snd (onDidReceiveMessage ws cfg fs engine request st) in
  fst (onDidReceiveMessage ws cfg fs engine request st) = inr tt
  /\ (posted st' = posted st ++ [ErrorText (errorMessage error)]
      \/ posted st'
         = posted st ++ [PartialsRegistered; ErrorText (errorMessage error)])
  /\ _templateDataCache st' = _templateDataCache st
  /\ helpers st' = helpers st.
Proof.
  intros Hopen Hfails request st'.
  destruct (renderTemplate_run ws cfg fs engine templateName (or_else data (JObject [])) st)
    as (r & regs & logs & registered & Hrun & _).
  rewrite Hrun in Hfails. cbn [fst] in Hfails. subst r.
  rewrite Hopen, andb_true_r in Hrun.
  assert (Hhandler : onDidReceiveMessage ws cfg fs engine request st
    = (inr tt,
       set_posted (fun l => l ++ [ErrorText (errorMessage error)])
         (effect regs (if registered then [PartialsRegistered] else []) logs st))).
  { unfold request, onDidReceiveMessage.
    erewrite tryCatch_throws by (unfold bind at 1; rewrite Hrun; reflexivity).
    now apply postMessage_unchecked_open. }
  subst st'. rewrite Hhandler. unfold_state.
  split; [reflexivity |]. split; [| split; reflexivity].
  destruct registered; [right | left]; now rewrite <- app_assoc.
Qed.

Lemma failed_render_is_reported_witness :
  let failing := fun (_ : gmap string string) (_ : gmap string helper)
                     (_ : string) (_ : json) =>
                   inl (B := string) (ErrorObject "Error" "Missing helper: shout") in
  let st' := snd (onDidReceiveMessage "/ws" exampleSettings exampleFs failing
                    (RenderTemplate "x" (JObject [])) openPanel) in
  posted st' = [PartialsRegistered; ErrorText "Missing helper: shout"]
  /\ _templateDataCache st' = ∅.
Proof.
  intros failing st'.
  assert (Hopen : _panel openPanel = true) by reflexivity.
  assert (Hfails : fst (renderTemplate "/ws" exampleSettings exampleFs failing "x"
                          (or_else (JObject []) (JObject [])) openPanel)
                   = inl (ErrorObject "Error" "Missing helper: shout"))
    by (vm_compute; reflexivity).
  destruct (failed_render_is_reported "/ws" exampleSettings exampleFs failing "x"
              (JObject []) openPanel _ Hopen Hfails) as (_ & Hposted & Hcache & _).
  split; [| exact Hcache].
  destruct Hposted as [Hposted | Hposted]; [| exact Hposted].
  exfalso. subst st'. vm_compute in Hposted. discriminate Hposted.
Defined.

(** X8: a render uses the first record of the template list that carries
    the requested name, the text its file holds at that moment, the helper
    table as it is, and the partial table as a fresh registration has just
    made it: the outcome is the engine's, markup or error, for exactly these
    inputs. *)
Theorem renderTemplate_output
    ws cfg fs engine templateName data st before t after content :
  templateList ws cfg fs = before ++ t :: after ->
  Forall (fun earlier => name earlier <> templateName) before ->
  name t = templateName ->
  resolve fs (fullPath t) = Some (File (Some content)) ->
  let fresh := registerAll (allRegistrations ws cfg fs) (partials st) in
  fst (renderTemplate ws cfg fs engine templateName data st)
  = engine fresh (helpers st) content data
  /\ partials (snd (renderTemplate ws cfg fs engine templateName data st)) = fresh.
Proof.
  intros Hlist Hbefore Hname Hfile fresh.
  apply resolve_lookupPath in Hfile.
  pose proof (find_first _ _ _ _ _ Hlist Hbefore Hname) as Hfind.
  destruct (templateList_scan ws cfg fs) as (logsScan & Hscan).
  destruct (registerPartials_effect ws cfg fs) as (logsReg & Hreg).
  destruct (renderTemplate ws cfg fs engine templateName data st) as [r final] eqn:Hrun.
  cbn [fst snd]. revert Hrun.
  unfold renderTemplate. unfold bind at 1. rewrite Hscan, Hfind.
  unfold bind at 1. rewrite Hreg, effect_effect.
  unfold bind at 1. rewrite consoleLog_effect, effect_effect.
  unfold bind at 1. unfold gets at 1.
  unfold bind at 1. rewrite consoleLog_effect, effect_effect.
  unfold bind at 1. unfold gets at 1.
  unfold bind at 1.
  destruct (partials _ !! "plan-name") as [[| ? ?] |];
    rewrite consoleLog_effect, effect_effect;
    unfold bind, readFileSync; rewrite Hfile; unfold ret, gets; cbn [fst snd];
    unfold_state; rewrite ?app_nil_r; cbn [app]; rewrite ?app_nil_r; fold fresh;
    destruct (engine fresh (helpers st) content data);
    cbv beta; intros [= <- <-]; split; reflexivity.
Qed.

(** ** The outcome of a load *)

Lemma registration_loop_run (h : heap) entries :
  forall names st,
    forEach (fun '(name, helper) =>
      if String.eqb (typeof h helper) "function" then
        onState (registerHelper name (Adapter helper)) ;;
        push name ;;
        onState (consoleLog
          ("[handlebars-preview] Registered custom helper: " +:+ name))
      else ret tt) entries (names, st)
    = (inr tt,
       let found :=
         List.filter (fun kv => String.eqb (typeof h (snd kv)) "function") entries in
       (names ++ map fst found,
        set_console (fun c => c ++ map (fun kv => Console LevelLog
            ("[handlebars-preview] Registered custom helper: " +:+ fst kv)) found)
          (set_helpers (registerAdapters found) st))).
Proof.
  match goal with |- context [forEach ?f entries] => set (body := f) end.
  induction entries as [| [name fn] rest IH]; intros names st.
  - destruct st. cbn. unfold ret, set_console, set_helpers. cbn.
    now rewrite !app_nil_r.
  - rewrite forEach_cons. unfold bind at 1. unfold body at 1.
    cbn [List.filter snd].
    destruct (String.eqb (typeof h fn) "function").
    + unfold bind at 1. unfold onState at 1. unfold registerHelper, modify.
      cbn [fst snd]. unfold bind at 1. unfold push at 1. unfold modify at 1.
      cbn [fst snd]. unfold onState at 1. unfold consoleLog, modify. cbn [fst snd].
      rewrite IH. destruct st. unfold set_console, set_helpers. cbn.
      now rewrite <- !app_assoc.
    + unfold ret at 1. apply IH.
Qed.

Lemma registerAdapters_lookup entries : forall (table : gmap string helper) key,
  ~ In key (map fst entries) -> registerAdapters entries table !! key = table !! key.
Proof.
  induction entries as [| [k fn] rest IH]; intros table key Hnot; [reflexivity |].
  change (registerAdapters ((k, fn) :: rest) table)
    with (registerAdapters rest (<[k := Adapter fn]> table)).
  cbn [map fst In] in Hnot.
  rewrite IH by tauto. apply lookup_insert_ne. tauto.
Qed.

Lemma registerAdapters_registered entries : forall (table : gmap string helper) key fn,
  List.NoDup (map fst entries) -> In (key, fn) entries ->
  registerAdapters entries table !! key = Some (Adapter fn).
Proof.
  induction entries as [| [k f] rest IH]; intros table key fn Hdistinct Hin; [destruct Hin |].
  change (registerAdapters ((k, f) :: rest) table)
    with (registerAdapters rest (<[k := Adapter f]> table)).
  cbn [map fst] in Hdistinct. apply NoDup_cons_iff in Hdistinct as [Hfresh Hrest].
  destruct Hin as [[= -> ->] | Hin].
  - rewrite registerAdapters_lookup by exact Hfresh. apply lookup_insert_eq.
  - now apply IH.
Qed.

Lemma registerAdapters_keeps entries : forall (table : gmap string helper) key old,
  table !! key = Some old -> exists current, registerAdapters entries table !! key = Some current.
Proof.
  induction entries as [| [k f] rest IH]; intros table key old Hold; [eauto |].
  change (registerAdapters ((k, f) :: rest) table)
    with (registerAdapters rest (<[k := Adapter f]> table)).
  destruct (decide (k = key)) as [-> | Hne].
  - apply (IH _ key (Adapter f)). apply lookup_insert_eq.
  - apply (IH _ key old). now rewrite lookup_insert_ne.
Qed.

Lemma loadCustomHelpers_resume_object helpersPath module h st exported :
  fst (exportedValue module h) = inr exported ->
  exportsObject h module = true ->
  loadCustomHelpers_resume helpersPath (inr module) h st
  = (inr tt,
     let found := callableEntries h exported in
     set_notifications (fun l => l ++ [loadReport (map fst found)])
       (set_console (fun c => c ++ map (fun kv => Console LevelLog
           ("[handlebars-preview] Registered custom helper: " +:+ fst kv)) found)
          (set_helpers (registerAdapters found) st))).
Proof.
  intros Hexported Hobject. unfold exportsObject in Hobject.
  rewrite Hexported in Hobject.
  unfold loadCustomHelpers_resume, tryCatch.
  unfold bind at 1. unfold ret at 1.
  unfold bind at 1. unfold reading at 1. rewrite Hexported, Hobject.
  unfold bind at 1. unfold withLocal at 1.
  rewrite registration_loop_run. cbn [app]. fold (callableEntries h exported).
  unfold loadReport.
  destruct (Nat.ltb 0 (length (map fst (callableEntries h exported)))); reflexivity.
Qed.

Lemma renderTemplate_output_witness :
  let run := renderTemplate "/ws" exampleSettings exampleFs echoEngine "x" JNull openPanel in
  fst run = inr "<p>hello</p>"
  /\ partials (snd run) !! "templates/x" = Some "<p>hello</p>".
Proof.
  intros run.
  destruct (renderTemplate_output "/ws" exampleSettings exampleFs echoEngine "x" JNull
              openPanel
              [{| name := "a/b/c"; directory := "templates";
                  fullPath := "/ws/templates/a/b/c.hbs" |}]
              {| name := "x"; directory := "templates";
                 fullPath := "/ws/templates/x.hbs" |}
              [] "<p>hello</p>") as [Houtput Htable].
  - vm_compute. reflexivity.
  - repeat constructor. cbn [name]. discriminate.
  - reflexivity.
  - vm_compute. reflexivity.
  - split; [exact Houtput |]. subst run. rewrite Htable. vm_compute. reflexivity.
Defined.

Lemma loadCustomHelpers_start_run ws cfg fs requireResolve st :
  exists s notes logs,
    loadCustomHelpers_start ws cfg fs requireResolve st
    = (inr s,
       set_notifications (fun l => l ++ notes) (set_console (fun c => c ++ logs) st)).
Proof.
  unfold loadCustomHelpers_start.
  destruct (String.eqb (customHelpersFile (getConfiguration cfg)) "").
  { eexists _, [], [_]. destruct st. unfold_state. cbn. now rewrite app_nil_r. }
  unfold tryCatch.
  destruct (existsSync fs _).
  2: { eexists _, [], [_]. destruct st. unfold_state. cbn. now rewrite app_nil_r. }
  cbn [negb]. destruct (requireResolve _) as [error | resolved].
  - unfold throw, bind. rewrite loadFailed_run. cbn [fst snd]. eexists _, [_], [_].
    destruct st. reflexivity.
  - eexists _, [], []. destruct st. unfold ret, set_notifications, set_console. cbn.
    now rewrite !app_nil_r.
Qed.

Lemma loadCustomHelpers_start_awaits ws cfg fs requireResolve st resolved :
  customHelpersFile (getConfiguration cfg) <> "" ->
  existsSync fs (absolute ws (customHelpersFile (getConfiguration cfg))) = true ->
  requireResolve (absolute ws (customHelpersFile (getConfiguration cfg))) = inr resolved ->
  loadCustomHelpers_start ws cfg fs requireResolve st
  = (inr (AwaitImport (absolute ws (customHelpersFile (getConfiguration cfg)))), st).
Proof.
  intros Hfile Hexists Hresolve. unfold loadCustomHelpers_start.
  apply String.eqb_neq in Hfile. rewrite Hfile.
  unfold tryCatch. rewrite Hexists, Hresolve. reflexivity.
Qed.

Lemma loadCustomHelpers_resume_run helpersPath imported h st :
  exists found notes logs,
    loadCustomHelpers_resume helpersPath imported h st
    = (inr tt,
       set_notifications (fun l => l ++ notes)
         (set_console (fun c => c ++ logs)
            (set_helpers (registerAdapters found) st))).
Proof.
  destruct imported as [error | module].
  { unfold loadCustomHelpers_resume, tryCatch, bind, throw. rewrite loadFailed_run.
    eexists [], [_], [_]. destruct st. reflexivity. }
  destruct (exportsObject h module) eqn:Hobject.
  - destruct (fst (exportedValue module h)) as [error | exported] eqn:Hexported.
    { unfold exportsObject in Hobject. now rewrite Hexported in Hobject. }
    rewrite (loadCustomHelpers_resume_object _ _ _ _ _ Hexported Hobject).
    eexists _, _, _. reflexivity.
  - unfold exportsObject in Hobject.
    unfold loadCustomHelpers_resume, tryCatch.
    unfold bind at 1. unfold ret at 1.
    unfold bind at 1. unfold reading at 1.
    destruct (fst (exportedValue module h)) as [error | exported].
    + rewrite loadFailed_run. eexists [], [_], [_]. destruct st. reflexivity.
    + rewrite Hobject. eexists [], [_], [_]. destruct st. reflexivity.
Qed.

(** C6 as stated fails: a helpers file whose export is [null] is not
    reported as an error.  The loader takes [module.default || module], which
    for a falsy default export is the module object itself; that is an
    object, it holds no function, and the user gets the warning that no valid
    helper functions were found. *)
Lemma null_export_gets_warning :
  let cfg := withHelpersFile "helpers.js" exampleSettings in
  let after :=
    snd (loadCustomHelpers "/ws" cfg helpersFs (fun p => inr p)
           (fun _ => inr (VObject 1%positive)) nullModule openPanel) in
  fst (getProperty (VObject 1%positive) "default" nullModule) = inr VNull
  /\ helpers after = ∅
  /\ notifications after
     = [WarningMessage
          "Handlebars Live Preview: No valid helper functions found in custom helpers file"].
Proof. vm_compute. repeat split. Qed.

(** C6 (amended): with no helpers file configured the loader only writes
    one line to the console: it loads nothing, registers nothing and tells
    the user nothing.  With a file configured that does not exist it logs a
    warning and returns.  The value the loader examines is [module.default ||
    module]: the default export when that is truthy, the module object
    otherwise.  When that value is not an object by [typeof], or is [null],
    no helper is registered and an error message is shown; when it is an
    object, an adapter is registered for each of its entries that is a
    function, and the user gets an information message, or a warning when
    there is no such entry: so a module whose default export is falsy and
    which holds no function gets the warning, not an error.  A rejected
    import is reported as an error.  Whatever the settings, the file system
    and the module, neither half of the loader nor the whole ends with an
    exception. *)
Theorem loadCustomHelpers_contained ws cfg fs requireResolve importModule moduleHeap st :
  let file := customHelpersFile (getConfiguration cfg) in
  let helpersPath := absolute ws file in
  let run := loadCustomHelpers ws cfg fs requireResolve importModule moduleHeap in
  fst (run st) = inr tt
  /\ fst (registerHelpers ws cfg fs requireResolve importModule moduleHeap st) = inr tt
  /\ (forall path imported h st0,
        fst (loadCustomHelpers_resume path imported h st0) = inr tt)
  /\ (file = "" ->
      run st
      = (inr tt,
         set_console (fun c => c ++ [Console LevelLog
           "[handlebars-preview] No custom helpers file configured"]) st))
  /\ (file <> "" -> existsSync fs helpersPath = false ->
      run st
      = (inr tt,
         set_console (fun c => c ++ [Console LevelWarn
           ("[handlebars-preview] Custom helpers file not found: " +:+ helpersPath)]) st))
  /\ (file <> "" -> existsSync fs helpersPath = true ->
      forall resolved module,
        requireResolve helpersPath = inr resolved ->
        importModule helpersPath = inr module ->
        run st = loadCustomHelpers_resume helpersPath (inr module) moduleHeap st)
  /\ (forall l o h,
        h !! l = Some o ->
        fst (exportedValue (VObject l) h)
        = inr (if toBoolean (lookupProperty (properties o) "default")
               then lookupProperty (properties o) "default"
               else VObject l))
  /\ (forall path module h st0,
        let after := snd (loadCustomHelpers_resume path (inr module) h st0) in
        match fst (exportedValue module h) with
        | inr exported =>
            if String.eqb (typeof h exported) "object"
               && negb (match exported with VNull => true | _ => false end)
            then
              helpers after = registerAdapters (callableEntries h exported) (helpers st0)
              /\ notifications after
                 = notifications st0 ++ [loadReport (map fst (callableEntries h exported))]
            else
              helpers after = helpers st0
              /\ notifications after
                 = notifications st0
                   ++ [ErrorMessage
                         "Handlebars Live Preview: Custom helpers file should export an object with helper functions"]
        | inl error =>
            helpers after = helpers st0
            /\ notifications after
               = notifications st0
                 ++ [ErrorMessage ("Handlebars Live Preview: Failed to load custom helpers: "
                                   +:+ errorMessage error)]
        end)
  /\ (forall path l o h st0,
        h !! l = Some o ->
        callable o = false ->
        toBoolean (lookupProperty (properties o) "default") = false ->
        callableEntries h (VObject l) = [] ->
        let after := snd (loadCustomHelpers_resume path (inr (VObject l)) h st0) in
        helpers after = helpers st0
        /\ notifications after
           = notifications st0
             ++ [WarningMessage
                   "Handlebars Live Preview: No valid helper functions found in custom helpers file"])
  /\ (forall path error h st0,
        exists st1,
          loadCustomHelpers_resume path (inl error) h st0 = (inr tt, st1)
          /\ helpers st1 = helpers st0
          /\ notifications st1
             = notifications st0
               ++ [ErrorMessage ("Handlebars Live Preview: Failed to load custom helpers: "
                                 +:+ errorMessage error)]).
Proof.
  intros file helpersPath run.
  assert (Hstart : forall st0,
    loadCustomHelpers_start ws cfg fs requireResolve st0
    = if String.eqb file "" then
        (inr Finished, set_console (fun c => c ++ [Console LevelLog
           "[handlebars-preview] No custom helpers file configured"]) st0)
      else if existsSync fs helpersPath then
        match requireResolve helpersPath with
        | inr _ => (inr (AwaitImport helpersPath), st0)
        | inl error => (inr Finished, snd (loadFailed error st0))
        end
      else
        (inr Finished, set_console (fun c => c ++ [Console LevelWarn
           ("[handlebars-preview] Custom helpers file not found: " +:+ helpersPath)]) st0)).
  { intros st0. unfold loadCustomHelpers_start. fold file.
    destruct (String.eqb file ""); [reflexivity |].
    unfold tryCatch. fold helpersPath.
    destruct (existsSync fs helpersPath); cbn [negb]; [| reflexivity].
    destruct (requireResolve helpersPath); reflexivity. }
  assert (Hrun : fst (run st) = inr tt).
  { unfold run, loadCustomHelpers, bind. rewrite Hstart.
    destruct (String.eqb file ""); [reflexivity |].
    destruct (existsSync fs helpersPath); [| reflexivity].
    destruct (requireResolve helpersPath); [reflexivity |].
    destruct (loadCustomHelpers_resume _ _ _ _) as [r st1] eqn:Hresume.
    pose proof (loadCustomHelpers_resume_returns helpersPath
                  (importModule helpersPath) moduleHeap st) as Hret.
    rewrite Hresume in Hret. cbn [fst] in *. now rewrite Hret. }
  assert (Hexport : forall l o h,
    h !! l = Some o ->
    fst (exportedValue (VObject l) h)
    = inr (if toBoolean (lookupProperty (properties o) "default")
           then lookupProperty (properties o) "default"
           else VObject l)).
  { intros l o h Hl. unfold exportedValue, getProperty, bind, gets.
    cbv beta. rewrite Hl. reflexivity. }
  assert (Hmodule : forall path module h st0,
    let after := snd (loadCustomHelpers_resume path (inr module) h st0) in
    match fst (exportedValue module h) with
    | inr exported =>
        if String.eqb (typeof h exported) "object"
           && negb (match exported with VNull => true | _ => false end)
        then
          helpers after = registerAdapters (callableEntries h exported) (helpers st0)
          /\ notifications after
             = notifications st0 ++ [loadReport (map fst (callableEntries h exported))]
        else
          helpers after = helpers st0
          /\ notifications after
             = notifications st0
               ++ [ErrorMessage
                     "Handlebars Live Preview: Custom helpers file should export an object with helper functions"]
    | inl error =>
        helpers after = helpers st0
        /\ notifications after
           = notifications st0
             ++ [ErrorMessage ("Handlebars Live Preview: Failed to load custom helpers: "
                               +:+ errorMessage error)]
    end).
  { intros path module h st0 after.
    destruct (fst (exportedValue module h)) as [error | exported] eqn:Hexported.
    - assert (Hresume : loadCustomHelpers_resume path (inr module) h st0
                        = loadFailed error st0).
      { unfold loadCustomHelpers_resume, tryCatch.
        unfold bind at 1. unfold ret at 1.
        unfold bind at 1. unfold reading at 1. now rewrite Hexported. }
      subst after. rewrite Hresume, loadFailed_run. split; reflexivity.
    - destruct (String.eqb (typeof h exported) "object"
                && negb (match exported with VNull => true | _ => false end))
        eqn:Hobject.
      + assert (Hyes : exportsObject h module = true)
          by (unfold exportsObject; now rewrite Hexported).
        subst after.
        rewrite (loadCustomHelpers_resume_object _ _ _ _ _ Hexported Hyes).
        destruct st0. split; reflexivity.
      + assert (Hresume : loadCustomHelpers_resume path (inr module) h st0
          = (showErrorMessage
               "Handlebars Live Preview: Custom helpers file should export an object with helper functions" ;;
             consoleWarn
               ("[handlebars-preview] Custom helpers file should export an object with helper functions: "
                +:+ path)) st0).
        { unfold loadCustomHelpers_resume, tryCatch.
          unfold bind at 1. unfold ret at 1.
          unfold bind at 1. unfold reading at 1. now rewrite Hexported, Hobject. }
        subst after. rewrite Hresume. split; reflexivity. }
  split; [exact Hrun |].
  split.
  { unfold registerHelpers, tryCatch. fold run.
    destruct (run st) as [[error | []] st1]; [discriminate Hrun | reflexivity]. }
  split; [intros; apply loadCustomHelpers_resume_returns |].
  split.
  { intros Hfile. unfold run, loadCustomHelpers, bind. rewrite Hstart, Hfile.
    reflexivity. }
  split.
  { intros Hfile Hmissing. unfold run, loadCustomHelpers, bind.
    rewrite Hstart, Hmissing.
    destruct (String.eqb_spec file ""); [contradiction | reflexivity]. }
  split.
  { intros Hfile Hexists resolved module Hresolved Himported.
    unfold run, loadCustomHelpers, bind. rewrite Hstart.
    destruct (String.eqb_spec file ""); [contradiction |].
    now rewrite Hexists, Hresolved, Himported. }
  split; [exact Hexport |].
  split; [exact Hmodule |].
  split; [| intros; apply loadCustomHelpers_resume_rejected].
  intros path l o h st0 Hl Hplain Hfalsy Hnone after.
  pose proof (Hmodule path (VObject l) h st0) as Hcase. cbv zeta in Hcase.
  rewrite (Hexport l o h Hl), Hfalsy in Hcase.
  unfold typeof in Hcase. rewrite Hl, Hplain in Hcase.
  change (String.eqb "object" "object") with true in Hcase.
  cbn [andb negb] in Hcase. rewrite Hnone in Hcase. exact Hcase.
Qed.

Lemma loadCustomHelpers_contained_witness :
  let resolve := fun p : string => inr (A := exn) p in
  let import := fun _ : string => inr (A := exn) (VObject 1%positive) in
  let missing := withHelpersFile "helpers.js" exampleSettings in
  loadCustomHelpers "/ws" exampleSettings exampleFs resolve import numberModule openPanel
  = (inr tt,
     set_console (fun c => c ++ [Console LevelLog
       "[handlebars-preview] No custom helpers file configured"]) openPanel)
  /\ loadCustomHelpers "/ws" missing exampleFs resolve import numberModule openPanel
     = (inr tt,
        set_console (fun c => c ++ [Console LevelWarn
          "[handlebars-preview] Custom helpers file not found: /ws/helpers.js"]) openPanel)
  /\ (let after := snd (loadCustomHelpers_resume "/ws/helpers.js" (inr (VObject 1%positive))
                          numberModule openPanel) in
      helpers after = ∅
      /\ notifications after
         = [ErrorMessage
              "Handlebars Live Preview: Custom helpers file should export an object with helper functions"]).
Proof.
  intros resolve import missing.
  destruct (loadCustomHelpers_contained "/ws" exampleSettings exampleFs resolve import
              numberModule openPanel) as (_ & _ & _ & Hnone & _ & _ & _ & Hexport & _).
  destruct (loadCustomHelpers_contained "/ws" missing exampleFs resolve import
              numberModule openPanel) as (_ & _ & _ & _ & Hmissing & _).
  split; [apply Hnone; reflexivity |].
  split.
  - apply Hmissing; [discriminate | reflexivity].
  - exact (Hexport "/ws/helpers.js" (VObject 1%positive) numberModule openPanel).
Defined.

(** X9: when the configured helpers file exists, resolves and its import
    yields a module whose export ([module.default || module]) is an object, the
    loader registers an adapter for exactly the entries of the export that are
    functions: every such entry is afterwards in the helper table under its
    own name, every other name of the table is as before, and the user gets
    one notification, an information message that counts and lists the
    registered names, or a warning when no entry is a function.  Partials and
    saved data are not touched. *)
Theorem loadCustomHelpers_registers ws cfg fs requireResolve importModule moduleHeap
    st resolved module exported :
  let file := customHelpersFile (getConfiguration cfg) in
  let helpersPath := absolute ws file in
  file <> "" ->
  existsSync fs helpersPath = true ->
  requireResolve helpersPath = inr resolved ->
  importModule helpersPath = inr module ->
  fst (exportedValue module moduleHeap) = inr exported ->
  exportsObject moduleHeap module = true ->
  let found := callableEntries moduleHeap exported in
  let after := snd (loadCustomHelpers ws cfg fs requireResolve importModule moduleHeap st) in
  helpers after = registerAdapters found (helpers st)
  /\ (List.NoDup (map fst (entriesOf moduleHeap exported)) ->
      forall name fn,
        In (name, fn) (entriesOf moduleHeap exported) ->
        typeof moduleHeap fn = "function" ->
        helpers after !! name = Some (Adapter fn))
  /\ (forall name,
        ~ In name (map fst found) -> helpers after !! name = helpers st !! name)
  /\ notifications after = notifications st ++ [loadReport (map fst found)]
  /\ partials after = partials st
  /\ _templateDataCache after = _templateDataCache st.
Proof.
  intros file helpersPath Hfile Hexists Hresolve Himport Hexported Hobject found after.
  assert (Hrun : after =
    set_notifications (fun l => l ++ [loadReport (map fst found)])
      (set_console (fun c => c ++ map (fun kv => Console LevelLog
          ("[handlebars-preview] Registered custom helper: " +:+ fst kv)) found)
         (set_helpers (registerAdapters found) st))).
  { subst after. unfold loadCustomHelpers, bind.
    rewrite (loadCustomHelpers_start_awaits _ _ _ _ _ _ Hfile Hexists Hresolve).
    cbn [fst snd]. fold file helpersPath. rewrite Himport.
    now rewrite (loadCustomHelpers_resume_object _ _ _ _ _ Hexported Hobject). }
  rewrite Hrun. destruct st. cbn. repeat split.
  - intros Hdistinct name fn Hin Hcallable.
    apply registerAdapters_registered.
    + subst found. unfold callableEntries.
      clear -Hdistinct. induction (entriesOf moduleHeap exported) as [| [k f] rest IH];
        [constructor |].
      cbn [map fst] in Hdistinct. apply NoDup_cons_iff in Hdistinct as [Hfresh Hrest].
      cbn [List.filter snd]. destruct (String.eqb (typeof moduleHeap f) "function").
      * cbn [map fst]. constructor; [| now apply IH].
        intros Hin. apply Hfresh. apply in_map_iff in Hin as [[k' f'] [Hk Hin]].
        apply filter_In in Hin as [Hin _]. apply in_map_iff. now exists (k', f').
      * now apply IH.
    + subst found. unfold callableEntries. apply filter_In. split; [exact Hin |].
      cbn [snd]. now apply String.eqb_eq.
  - intros name Hnot. now apply registerAdapters_lookup.
Qed.

Lemma loadCustomHelpers_registers_witness :
  let cfg := withHelpersFile "helpers.js" exampleSettings in
  let fs := Dir true [("ws", Dir true [("helpers.js", File (Some "module.exports = {}"))])] in
  let after :=
    snd (loadCustomHelpers "/ws" cfg fs (fun p => inr p)
           (fun _ => inr (VObject 1%positive)) greetModule openPanel) in
  helpers after !! "greet" = Some (Adapter (VObject 2%positive))
  /\ helpers after !! "version" = None
  /\ notifications after
     = [InformationMessage
          "Handlebars Live Preview: Registered 1 custom helpers: greet"].
Proof.
  intros cfg fs after.
  destruct (loadCustomHelpers_registers "/ws" cfg fs (fun p => inr p)
              (fun _ => inr (VObject 1%positive)) greetModule openPanel
              "/ws/helpers.js" (VObject 1%positive) (VObject 1%positive))
    as (Htable & Hregistered & Hother & Hnotes & _).
  - discriminate.
  - reflexivity.
  - reflexivity.
  - reflexivity.
  - reflexivity.
  - reflexivity.
  - split; [| split].
    + apply Hregistered.
      * vm_compute. repeat constructor; intros Hin; vm_compute in Hin;
          intuition discriminate.
      * now left.
      * reflexivity.
    + rewrite Hother; [reflexivity |]. intros Hin. vm_compute in Hin.
      intuition discriminate.
    + exact Hnotes.
Defined.

(** X10: whatever the settings, the file system and the imported module
    are, a load of the custom helpers never takes a helper out of the table:
    every name registered before is registered after (under the old helper or
    a freshly loaded adapter).  The load also leaves the partials, the saved
    template data, the panel, the watchers and the messages posted to the
    webview as they were. *)
Theorem loadCustomHelpers_keeps_helpers ws cfg fs requireResolve importModule moduleHeap
    st name old :
  helpers st !! name = Some old ->
  let after := snd (loadCustomHelpers ws cfg fs requireResolve importModule moduleHeap st) in
  (exists current, helpers after !! name = Some current)
  /\ partials after = partials st
  /\ _templateDataCache after = _templateDataCache st
  /\ posted after = posted st
  /\ _panel after = _panel st
  /\ _watchers after = _watchers st.
Proof.
  intros Hold after. subst after. unfold loadCustomHelpers, bind.
  destruct (loadCustomHelpers_start_run ws cfg fs requireResolve st)
    as (s & notes & logs & ->).
  cbn [fst snd]. destruct s as [| helpersPath].
  - unfold ret. cbn [snd]. destruct st. cbn in *. eauto 10.
  - match goal with |- context [loadCustomHelpers_resume ?p ?i ?h ?s] =>
      destruct (loadCustomHelpers_resume_run p i h s) as (found & notes' & logs' & ->)
    end.
    cbn [snd]. destruct st. cbn in *. repeat split.
    eapply registerAdapters_keeps. exact Hold.
Qed.

Lemma loadCustomHelpers_keeps_helpers_witness :
  let cfg := withHelpersFile "helpers.js" exampleSettings in
  let fs := Dir true [("ws", Dir true [("helpers.js", File (Some "module.exports = {}"))])] in
  let before := set_helpers (fun _ => {[ "upper" := Builtin "upper" ]}) openPanel in
  exists current,
    helpers (snd (loadCustomHelpers "/ws" cfg fs (fun p => inr p)
                    (fun _ => inr (VObject 1%positive)) greetModule before))
      !! "upper" = Some current.
Proof.
  intros cfg fs before.
  apply (loadCustomHelpers_keeps_helpers "/ws" cfg fs (fun p => inr p)
           (fun _ => inr (VObject 1%positive)) greetModule before "upper"
           (Builtin "upper")).
  reflexivity.
Defined.

(** ** Watchers *)

Lemma filter_all_false {A} (p : A -> bool) (l : list A) :
  (forall x, In x l -> p x = false) -> List.filter p l = [].
Proof.
  induction l as [| x l IH]; intros Hall; [reflexivity |].
  cbn [List.filter]. rewrite (Hall x) by now left.
  apply IH. intros y Hy. apply Hall. now right.
Qed.

Lemma existsb_member (dir : string) (dirs : list string) :
  In dir dirs -> existsb (String.eqb dir) dirs = true.
Proof.
  intros Hin. apply existsb_exists. exists dir. split; [exact Hin |].
  apply String.eqb_refl.
Qed.

Lemma getPartialsDirectories_default ws cfg fs :
  partialsDirectories (getConfiguration cfg) = [] ->
  getPartialsDirectories ws cfg fs = getTemplateDirectories ws cfg fs.
Proof.
  intros Hnone. unfold getPartialsDirectories, getTemplateDirectories.
  now rewrite Hnone.
Qed.

(** X11: a watcher of the second kind, whose events register the partials
    and do nothing else, is only installed for a partials directory that is
    not a template directory.  When the partials setting is empty, or names
    only template directories, [setupFileWatchers] adds one watcher for each
    existing template directory, in the configured order, and no other: every
    watcher it adds refreshes the template list on every event. *)
Theorem setupFileWatchers_templates_only ws cfg fs st :
  partialsDirectories (getConfiguration cfg) = []
  \/ (forall dir, In dir (getPartialsDirectories ws cfg fs) ->
                  In dir (getTemplateDirectories ws cfg fs)) ->
  let after := snd (setupFileWatchers ws cfg fs st) in
  _watchers after
  = _watchers st
    ++ map (fun dir => createFileSystemWatcher ws dir TemplateDirectory)
         (getTemplateDirectories ws cfg fs)
  /\ forall w, In w (_watchers after) ->
       In w (_watchers st) \/ installedFor w = TemplateDirectory.
Proof.
  intros Hsame after.
  assert (Hincl : forall dir, In dir (getPartialsDirectories ws cfg fs) ->
                              In dir (getTemplateDirectories ws cfg fs)).
  { destruct Hsame as [Hnone | Hincl]; [| exact Hincl].
    now rewrite (getPartialsDirectories_default _ _ _ Hnone). }
  assert (Hwatchers : _watchers after
    = _watchers st
      ++ map (fun dir => createFileSystemWatcher ws dir TemplateDirectory)
           (getTemplateDirectories ws cfg fs)).
  { subst after. rewrite setupFileWatchers_installs. cbn [snd].
    rewrite filter_all_false.
    - destruct st. cbn. now rewrite app_nil_r.
    - intros dir Hdir. now rewrite (existsb_member _ _ (Hincl dir Hdir)). }
  split; [exact Hwatchers |].
  intros w Hin. rewrite Hwatchers in Hin. apply in_app_or in Hin as [Hold | Hnew].
  - now left.
  - right. apply in_map_iff in Hnew as (dir & <- & _). reflexivity.
Qed.

Lemma setupFileWatchers_templates_only_witness :
  map globPattern
    (_watchers (snd (setupFileWatchers "/ws" exampleSettings exampleFs openPanel)))
  = ["templates/**/*.hbs"].
Proof.
  destruct (setupFileWatchers_templates_only "/ws" exampleSettings exampleFs openPanel)
    as [Hwatchers _].
  - left. reflexivity.
  - rewrite Hwatchers. vm_compute. reflexivity.
Defined.

(** ** The panel *)

Lemma _getHtmlForWebview_run fs extensionPath st :
  _getHtmlForWebview fs extensionPath st
  = (fst (_getHtmlForWebview fs extensionPath closedPanel), st).
Proof.
  unfold _getHtmlForWebview, readFileSync.
  destruct (lookupPath fs _) as [[|] | [[content |] | listable entries |]]; reflexivity.
Qed.

Lemma createOrShow_closed ws cfg fs extensionPath :
  exists logs, forall st,
    _panel st = false ->
    createOrShow ws cfg fs extensionPath st
    = let opened :=
        effect (allRegistrations ws cfg fs) [PartialsRegistered] logs
          (set_panel true st) in
      match fst (_getHtmlForWebview fs extensionPath closedPanel) with
      | inl error => (inl error, opened)
      | inr html =>
          (inr (Some html),
           set_watchers (fun installed =>
             installed
             ++ map (fun dir => createFileSystemWatcher ws dir TemplateDirectory)
                  (getTemplateDirectories ws cfg fs)
             ++ map (fun dir => createFileSystemWatcher ws dir PartialsDirectory)
                  (List.filter
                     (fun dir => negb (existsb (String.eqb dir)
                                         (getTemplateDirectories ws cfg fs)))
                     (getPartialsDirectories ws cfg fs))) opened)
      end.
Proof.
  destruct (registerPartials_effect ws cfg fs) as (logs & Hreg).
  exists logs. intros st Hclosed.
  unfold createOrShow. unfold bind at 1. unfold gets at 1. rewrite Hclosed.
  unfold bind at 1. unfold modify at 1.
  unfold bind at 1. rewrite Hreg. cbn [_panel set_panel].
  unfold bind at 1. rewrite _getHtmlForWebview_run.
  destruct (fst (_getHtmlForWebview fs extensionPath closedPanel)) as [error | html];
    [reflexivity |].
  unfold bind. now rewrite setupFileWatchers_installs.
Qed.

Lemma createOrShow_opens ws cfg fs extensionPath st :
  _panel (snd (createOrShow ws cfg fs extensionPath st)) = true.
Proof.
  destruct (_panel st) eqn:Hpanel.
  - unfold createOrShow, bind, gets. now rewrite Hpanel.
  - destruct (createOrShow_closed ws cfg fs extensionPath) as (logs & Hrun).
    rewrite (Hrun st Hpanel). cbv zeta.
    destruct (fst (_getHtmlForWebview fs extensionPath closedPanel)); reflexivity.
Qed.

(** X12: after [createOrShow] the panel is set, whether the call returned
    or threw, so a second call in a row only reveals the panel: it returns
    without a page and changes nothing, and in particular installs no second
    set of watchers. *)
Theorem createOrShow_twice ws cfg fs extensionPath st :
  let once := snd (createOrShow ws cfg fs extensionPath st) in
  _panel once = true
  /\ createOrShow ws cfg fs extensionPath once = (inr None, once).
Proof.
  intros once.
  assert (Hopen : _panel once = true) by apply createOrShow_opens.
  split; [exact Hopen |].
  unfold createOrShow, bind, gets. now rewrite Hopen.
Qed.

(** X13: when the page of the webview cannot be read, [createOrShow] on a
    closed panel throws the error of the read after it has set the panel and
    registered the partials: the panel stays set, the registration has been
    reported to it, and no watcher is installed.  As the panel is set, calling
    [createOrShow] again does not retry: it returns at once and the watchers
    stay missing. *)
Theorem createOrShow_unreadable_page ws cfg fs extensionPath st error :
  _panel st = false ->
  fst (_getHtmlForWebview fs extensionPath st) = inl error ->
  let after := snd (createOrShow ws cfg fs extensionPath st) in
  fst (createOrShow ws cfg fs extensionPath st) = inl error
  /\ _panel after = true
  /\ _watchers after = _watchers st
  /\ posted after = posted st ++ [PartialsRegistered]
  /\ partials after = registerAll (allRegistrations ws cfg fs) (partials st)
  /\ createOrShow ws cfg fs extensionPath after = (inr None, after).
Proof.
  intros Hclosed Hpage after.
  destruct (createOrShow_closed ws cfg fs extensionPath) as (logs & Hrun).
  rewrite _getHtmlForWebview_run in Hpage. cbn [fst] in Hpage.
  subst after. rewrite (Hrun st Hclosed). cbv zeta. rewrite Hpage. cbn [fst snd].
  repeat split.
Qed.

Lemma createOrShow_unreadable_page_witness :
  let after := snd (createOrShow "/ws" exampleSettings exampleFs "/ext" closedPanel) in
  _panel after = true /\ _watchers after = []
  /\ posted after = [PartialsRegistered].
Proof.
  intros after.
  destruct (createOrShow_unreadable_page "/ws" exampleSettings exampleFs "/ext"
              closedPanel (enoent "open" "/ext/src/webview.html"))
    as (_ & Hpanel & Hwatchers & Hposted & _).
  - reflexivity.
  - vm_compute. reflexivity.
  - repeat split; assumption.
Defined.

(** X14: closing the panel and opening it again.  When [createOrShow]
    succeeds on a closed panel without watchers, the callback of the disposal
    clears the panel and the watchers and nothing else, so the saved template
    data, the partials and the helpers outlive the panel; opening again
    installs the same watchers as the first time, not a second set beside
    them. *)
Theorem createOrShow_after_dispose ws cfg fs extensionPath st html :
  _panel st = false ->
  _watchers st = [] ->
  fst (createOrShow ws cfg fs extensionPath st) = inr (Some html) ->
  let opened := snd (createOrShow ws cfg fs extensionPath st) in
  let closed := snd (onDidDispose opened) in
  let reopened := snd (createOrShow ws cfg fs extensionPath closed) in
  _panel closed = false /\ _watchers closed = []
  /\ _templateDataCache closed = _templateDataCache st
  /\ helpers closed = helpers st
  /\ partials closed = partials opened
  /\ fst (createOrShow ws cfg fs extensionPath closed) = inr (Some html)
  /\ _watchers reopened = _watchers opened
  /\ _templateDataCache reopened = _templateDataCache st.
Proof.
  intros Hclosed Hnone Hreturns opened closed reopened.
  destruct (createOrShow_closed ws cfg fs extensionPath) as (logs & Hrun).
  assert (Hopened := Hrun st Hclosed). cbv zeta in Hopened.
  rewrite Hopened in Hreturns.
  destruct (fst (_getHtmlForWebview fs extensionPath closedPanel)) as [error | page]
    eqn:Hpage; [discriminate Hreturns |].
  cbn [fst] in Hreturns. injection Hreturns as ->.
  assert (Hclosed' : _panel closed = false) by reflexivity.
  assert (Hreopened := Hrun closed Hclosed'). cbv zeta in Hreopened.
  rewrite ?Hpage in Hreopened.
  subst reopened. rewrite Hreopened. cbn [fst snd].
  subst closed opened. rewrite Hopened. cbn [snd].
  unfold onDidDispose, bind, modify. cbn [fst snd].
  destruct st. cbn in *. subst. repeat split.
Qed.

Lemma createOrShow_after_dispose_witness :
  let opened := snd (createOrShow "/ws" exampleSettings exampleInstallation "/ext"
                       closedPanel) in
  let closed := snd (onDidDispose opened) in
  let reopened := snd (createOrShow "/ws" exampleSettings exampleInstallation "/ext"
                         closed) in
  map globPattern (_watchers reopened) = ["templates/**/*.hbs"]
  /\ _watchers closed = [].
Proof.
  intros opened closed reopened.
  destruct (createOrShow_after_dispose "/ws" exampleSettings exampleInstallation "/ext"
              closedPanel "<html></html>")
    as (_ & Hnone & _ & _ & _ & _ & Hsame & _).
  - reflexivity.
  - reflexivity.
  - vm_compute. reflexivity.
  - split; [| exact Hnone].
    subst reopened closed opened. rewrite Hsame. vm_compute. reflexivity.
Defined.

(** ** Reloading the helpers *)

Lemma reloadHelpers_start_run ws cfg fs requireResolve st :
  exists s notes logs,
    reloadHelpers_start ws cfg fs requireResolve st
    = (inr s,
       set_posted (fun l => l ++ (if _panel st then [AutoRerender] else []))
         (set_notifications (fun l =>
            l ++ InformationMessage "Handlebars Live Preview: Reloading helpers..."
                 :: notes)
            (set_console (fun c => c ++ logs) st))).
Proof.
  unfold reloadHelpers_start.
  unfold bind at 1. unfold showInformationMessage at 1. unfold modify at 1.
  unfold bind at 1.
  match goal with |- context [loadCustomHelpers_start ws cfg fs requireResolve ?s] =>
    destruct (loadCustomHelpers_start_run ws cfg fs requireResolve s)
      as (s' & notes & logs & ->)
  end.
  unfold bind. rewrite autoRerender_effect. unfold ret. cbn [fst snd].
  destruct st as [panel ? ? ? ? ? ? ?]. cbn [_panel set_console set_notifications].
  destruct panel.
  - eexists s', notes, _. unfold effect. unfold_state. cbn.
    rewrite <- !app_assoc. reflexivity.
  - eexists s', notes, logs. unfold_state. cbn.
    rewrite <- !app_assoc, !app_nil_r. reflexivity.
Qed.

(** X15: [reloadHelpers] asks the webview to render again before any
    reloaded helper is registered.  When the call returns, with the loader
    finished or waiting for the import, the helper table is the one it found,
    the user has been told that the helpers are being reloaded, and an open
    panel has got the [autoRerender] message; the helpers of the file are only
    registered by the continuation of the loader, which runs later. *)
Theorem reloadHelpers_rerenders_before_loading ws cfg fs requireResolve st :
  let run := reloadHelpers_start ws cfg fs requireResolve st in
  (exists s, fst run = inr s)
  /\ helpers (snd run) = helpers st
  /\ posted (snd run) = posted st ++ (if _panel st then [AutoRerender] else [])
  /\ exists notes,
       notifications (snd run)
       = notifications st
         ++ InformationMessage "Handlebars Live Preview: Reloading helpers..." :: notes.
Proof.
  intros run. subst run.
  destruct (reloadHelpers_start_run ws cfg fs requireResolve st)
    as (s & notes & logs & ->).
  cbn [fst snd]. destruct st. cbn. eauto 10.
Qed.

(** ** Activation *)

Lemma existsb_filter_map {A B} (g : A -> B) (p : B -> bool) (l : list A) :
  existsb (fun x => p (g x)) l
  = match List.filter p (map g l) with [] => false | _ => true end.
Proof.
  induction l as [| x l IH]; [reflexivity |].
  cbn [existsb map List.filter]. destruct (p (g x)); [reflexivity | exact IH].
Qed.

Lemma hasConfiguredDirs_found ws cfg fs :
  hasConfiguredDirs ws cfg fs
  = match setting_templateDirectories cfg with
    | Some _ =>
        match getTemplateDirectories ws cfg fs with [] => false | _ => true end
    | None => false
    end.
Proof.
  unfold hasConfiguredDirs, getTemplateDirectories. cbn.
  destruct (setting_templateDirectories cfg) as [dirs |]; [| reflexivity].
  apply (existsb_filter_map (absolute ws) (fun dir => existsSync fs dir)).
Qed.

Lemma activate_run root cfg fs requireResolve st :
  root <> "" ->
  activate (Some root) cfg fs requireResolve st
  = let loading := loadCustomHelpers_start root cfg fs requireResolve st in
    match fst loading with
    | inr s =>
        (inr (Some s),
         if hasConfiguredDirs root cfg fs then snd loading
         else set_notifications (fun l => l ++ [InformationMessage
                "Handlebars Live Preview: No template directories found. Please configure 'handlebarsPreview.templateDirectories' in settings."])
                (snd loading))
    | inl error => (inl error, snd loading)
    end.
Proof.
  intros Hroot. destruct root as [| c root]; [contradiction |].
  cbv zeta. unfold activate, bind.
  destruct (loadCustomHelpers_start _ cfg fs requireResolve st) as [[error | s] st'];
    [reflexivity |].
  cbn [fst snd]. destruct (hasConfiguredDirs _ cfg fs); reflexivity.
Qed.

(** X16: what [activate] tells the user.  Without a workspace folder it
    shows an error and creates no provider.  With one, it starts the loader
    and then shows the notice that no template directories were found exactly
    when the [templateDirectories] setting has no value or none of its entries
    exists.  The check does not use the default directories that the provider
    falls back to: with the setting absent the notice is shown even when the
    provider finds template directories. *)
Theorem activate_notice workspaceFolder cfg fs requireResolve st :
  let notice := InformationMessage
    "Handlebars Live Preview: No template directories found. Please configure 'handlebarsPreview.templateDirectories' in settings." in
  match workspaceFolder with
  | None | Some "" =>
      activate workspaceFolder cfg fs requireResolve st
      = (inr None,
         set_notifications (fun l => l ++ [ErrorMessage "No workspace folder found"]) st)
  | Some ws =>
      let loading := loadCustomHelpers_start ws cfg fs requireResolve st in
      let after := snd (activate workspaceFolder cfg fs requireResolve st) in
      (exists s, fst loading = inr s
                 /\ fst (activate workspaceFolder cfg fs requireResolve st) = inr (Some s))
      /\ notifications after
         = notifications (snd loading)
           ++ match setting_templateDirectories cfg with
              | Some _ =>
                  match getTemplateDirectories ws cfg fs with
                  | [] => [notice]
                  | _ => []
                  end
              | None => [notice]
              end
  end.
Proof.
  intros notice.
  destruct workspaceFolder as [[| c ws] |]; [reflexivity | | reflexivity].
  cbv zeta. rewrite activate_run by discriminate. cbv zeta.
  destruct (loadCustomHelpers_start_run (String c ws) cfg fs requireResolve st)
    as (s & notes & logs & ->).
  cbn [fst snd]. rewrite hasConfiguredDirs_found.
  split; [eauto |].
  destruct (setting_templateDirectories cfg) as [dirs |];
    [destruct (getTemplateDirectories _ cfg fs) |];
    destruct st; cbn; rewrite ?app_nil_r; reflexivity.
Qed.

(** ** Partials and templates *)

Lemma scanned_reached ws baseDir n :
  forall dir t,
    readable n = true ->
    In t (scanned ws baseDir dir n) ->
    exists file content, In (fullPath t, file, content) (reached dir n).
Proof.
  induction n as [stored | | listable files IH] using node_induction;
    intros dir t Hreadable Hin; try destruct Hin.
  destruct listable; [| destruct Hin].
  cbn [scanned] in Hin. cbn [reached]. cbn [readable] in Hreadable.
  induction files as [| [file target] rest IHrest]; [destruct Hin |].
  apply Forall_cons_iff in IH as [IHtarget IH]. cbn [snd] in IHtarget.
  cbn [forallb snd] in Hreadable.
  apply andb_true_iff in Hreadable as [Htarget Hrest].
  specialize (IHrest IH Hrest).
  cbn [reachedAmong scannedAmong] in *.
  destruct target as [stored | listable entries |]; [| | destruct Hin].
  - destruct stored as [content |]; [| discriminate Htarget].
    destruct (JsString.endsWith file ".hbs").
    + destruct Hin as [<- | Hin].
      * exists file, content. now left.
      * destruct (IHrest Hin) as (f & c & Hfound). exists f, c. now right.
    + now apply IHrest.
  - apply in_app_or in Hin as [Hin | Hin].
    + destruct (IHtarget _ _ Htarget Hin) as (f & c & Hfound).
      exists f, c. apply in_or_app. now left.
    + destruct (IHrest Hin) as (f & c & Hfound).
      exists f, c. apply in_or_app. now right.
Qed.

(** X17: with no partials directories configured and no unreadable file
    below the template directories, every template doubles as a partial.
    After [registerPartials] the partial table has an entry under the key of
    every record of the template list, and of every record
    [getTemplatesRecursively] pushes for a template directory, those that the
    list hides as components included; the key is the record's full path with
    the first occurrence of the workspace root and ["/"] and then the first
    occurrence of [".hbs"] removed. *)
Theorem templates_are_partials ws cfg fs st :
  partialsDirectories (getConfiguration cfg) = [] ->
  (forall dir, In dir (getTemplateDirectories ws cfg fs) ->
               readable (nodeAt fs dir) = true) ->
  let table := partials (snd (registerPartials ws cfg fs st)) in
  let key t :=
    JsString.replace (JsString.replace (fullPath t) (ws +:+ "/") "") ".hbs" "" in
  (forall t, In t (templateList ws cfg fs) -> exists text, table !! key t = Some text)
  /\ (forall dir st0 t,
        In dir (getTemplateDirectories ws cfg fs) ->
        In t (fst (snd (getTemplatesRecursively ws dir (nodeAt fs dir) dir ([], st0)))) ->
        exists text, table !! key t = Some text).
Proof.
  intros Hnone Hreadable table key.
  assert (Hscanned : forall dir t,
    In dir (getTemplateDirectories ws cfg fs) ->
    In t (scanned ws dir dir (nodeAt fs dir)) ->
    exists text, table !! key t = Some text).
  { intros dir t Hdir Hin.
    destruct (scanned_reached ws dir _ dir t (Hreadable dir Hdir) Hin)
      as (file & content & Hreached).
    assert (Hregistered : In (key t, content) (allRegistrations ws cfg fs)).
    { unfold allRegistrations. apply in_flat_map. exists dir.
      split; [now rewrite (getPartialsDirectories_default _ _ _ Hnone) |].
      unfold registrations. apply in_flat_map. eexists. split; [exact Hreached |].
      apply registrationsOf_both. }
    destruct (lastRegistered_some _ _ _ Hregistered) as (last & Hlast).
    exists last. subst table. rewrite registerPartials_table, registerAll_lookup.
    now rewrite Hlast. }
  split.
  - intros t Hin. rewrite templateList_allScanned in Hin.
    apply filter_In in Hin as [Hin _].
    apply in_flat_map in Hin as (dir & Hdir & Hin). now apply (Hscanned dir).
  - intros dir st0 t Hdir Hin.
    rewrite getTemplatesRecursively_records in Hin. now apply (Hscanned dir).
Qed.

Lemma templates_are_partials_witness :
  let table := partials (snd (registerPartials "/ws" exampleSettings exampleFs openPanel)) in
  (exists text, table !! "templates/x" = Some text)
  /\ (exists text, table !! "templates/components/button" = Some text).
Proof.
  intros table.
  destruct (templates_are_partials "/ws" exampleSettings exampleFs openPanel)
    as [Hlisted Hpushed].
  - reflexivity.
  - intros dir Hin. vm_compute in Hin. destruct Hin as [<- | []]. reflexivity.
  - split.
    + apply (Hlisted {| name := "x"; directory := "templates";
                        fullPath := "/ws/templates/x.hbs" |}).
      vm_compute. right. now left.
    + apply (Hpushed "/ws/templates" openPanel
               {| name := "components/button"; directory := "templates";
                  fullPath := "/ws/templates/components/button.hbs" |}).
      * vm_compute. now left.
      * vm_compute. right. right. now left.
Defined.

(** ** Components *)

(** X18: a template whose name contains ["components/"] cannot be
    rendered by name.  The render looks the name up in the filtered template
    list, so a request for such a name fails with [Template not found], even
    when the file exists and is registered as a partial; the failing call
    registers no partials and posts nothing. *)
Theorem component_is_not_rendered ws cfg fs engine templateName data st :
  JsString.includes templateName "components/" = true ->
  let run := renderTemplate ws cfg fs engine templateName data st in
  fst run = inl (ErrorObject "Error" ("Template not found: " +:+ templateName))
  /\ partials (snd run) = partials st
  /\ posted (snd run) = posted st
  /\ _templateDataCache (snd run) = _templateDataCache st.
Proof.
  intros Hcomponent run.
  assert (Hnone : forall t, In t (templateList ws cfg fs) -> name t <> templateName).
  { intros t Hin Hname. rewrite templateList_allScanned in Hin.
    apply filter_In in Hin as [_ Hkept]. rewrite Hname, Hcomponent in Hkept.
    discriminate Hkept. }
  destruct (templateList_scan ws cfg fs) as (logs & Hscan).
  subst run. unfold renderTemplate, bind. rewrite Hscan.
  rewrite (find_no_match _ _ Hnone). unfold throw. cbn [fst snd].
  destruct st. cbn. rewrite ?app_nil_r. repeat split.
Qed.

Lemma component_is_not_rendered_witness :
  fst (renderTemplate "/ws" exampleSettings exampleFs echoEngine "components/button"
         (JObject []) openPanel)
  = inl (ErrorObject "Error" "Template not found: components/button")
  /\ existsSync exampleFs "/ws/templates/components/button.hbs" = true.
Proof.
  split; [| reflexivity].
  apply (component_is_not_rendered "/ws" exampleSettings exampleFs echoEngine
           "components/button" (JObject []) openPanel).
  reflexivity.
Defined.
